(** * dist-dqn: the graph construction of [src/network.py]

    [network.py] builds a TensorFlow computation graph (graph mode, the
    API of release 0.12, which the module is written against) for a Deep
    Q-Network: placeholders, an online network, a loss, a training
    operation, a target network and the operations that copy the online
    parameters into the target ones.

    The development is a shallow embedding of that module.
    - The TensorFlow calls the module makes are modelled in [Module tf]
      and [Module tf_ops]: tensors are expression trees, variables and
      placeholders are nodes registered in an explicit [Graph], and the
      ambient variable scope and device are part of that graph state.
      Names of variables are modelled; names of operations
      ([tf.name_scope], [name=...]) are not.
    - Python code that mutates the default graph or raises becomes a
      computation in the monad [M]: a function from the graph to a result
      (a value or a raised exception) and the graph as it was left.
    - Numbers that are Python floats are rationals ([Q]); Python ints are
      [Z], except the dimensions of a shape, which TensorFlow requires to
      be non-negative and which are naturals ([N]); object identity of a
      variable is its creation index. Python is Python 3.
    - [Module Semantics] gives the tensors that the properties evaluate a
      value, and the training and assignment operations an effect on the
      variables.
    - Left out of the model of TensorFlow: the variables an optimizer
      creates for its own use (the graph and the store hold the variables
      the module creates), the parsing and merging of device strings (a
      variable carries the list of requests it was created under), the
      tag of a summary (a summary carries the name it was asked for), and
      the errors other than those listed with [Exception]. A training
      step is an oracle for what TensorFlow computes (gradients, update
      rules): it fails when a placeholder of its loss is not fed or a
      gradient is not computed. *)

From Stdlib Require Import String List ZArith QArith Bool Arith Lia.
Import ListNotations.
Open Scope string_scope.

(** ** Exceptions and the construction monad *)

(** The exceptions the module raises itself ([RuntimeError],
    [NotImplementedError]), the one Python raises for an attribute that
    is missing, and the [ValueError] of the checks of TensorFlow that the
    model makes: a variable name that is taken, and a minimization
    without variables, without gradients or without the step counter it
    needs. Other errors of TensorFlow (a malformed device string, a
    dimension too large for a shape, ...) are not modelled. *)
Inductive Exception : Type :=
| RuntimeError (msg : string)
| ValueError (msg : string)
| AttributeError (attr : string)   (* the attribute that was not found *)
| NotImplementedError.

Inductive Result (A : Type) : Type :=
| Ok (a : A)
| Raise (e : Exception).
Arguments Ok {A} a.
Arguments Raise {A} e.

(** ** The TensorFlow primitives used by the module *)

Module tf.

(** [tf.GraphKeys]: the key the module names, [LOCAL_VARIABLES], and the
    two collections TensorFlow adds variables to by itself. *)
Inductive GraphKeys : Type :=
| GLOBAL_VARIABLES
| LOCAL_VARIABLES
| TRAINABLE_VARIABLES.

Definition GraphKeys_eqb (a b : GraphKeys) : bool :=
  match a, b with
  | GLOBAL_VARIABLES, GLOBAL_VARIABLES
  | LOCAL_VARIABLES, LOCAL_VARIABLES
  | TRAINABLE_VARIABLES, TRAINABLE_VARIABLES => true
  | _, _ => false
  end.

Inductive Initializer : Type :=
| truncated_normal_initializer (stddev : Q)
| constant_initializer (value : Q).

(** A variable, as [tf.get_variable] / [tf.Variable] were asked to make
    it. [var_id] is the creation index in the graph: two handles denote
    the same variable exactly when their ids agree. [var_shape] lists the
    dimensions. [var_collections] is the [collections] argument as passed
    ([None] when omitted); the collections the variable ends up in are
    [collections_of] below. [var_device] lists the device requests in
    force where the variable was created, the innermost [tf.device]
    block first: TensorFlow merges them into the placement field by
    field, an inner request taking precedence over an outer one. *)
Record TFVariable : Type := mkVariable {
  var_id : nat;
  var_name : string;
  var_shape : list N;
  var_initializer : Initializer;
  var_collections : option (list GraphKeys);
  var_trainable : bool;
  var_device : list string
}.

(** The graph collections a variable is added to: those asked for, the
    global variables when none was asked for, and the trainable variables
    besides when the variable is trainable. *)
Definition collections_of (v : TFVariable) : list GraphKeys :=
  let collections :=
    match var_collections v with
    | Some l => l
    | None => [GLOBAL_VARIABLES]
    end in
  if var_trainable v
     && negb (existsb (GraphKeys_eqb TRAINABLE_VARIABLES) collections)
  then collections ++ [TRAINABLE_VARIABLES]
  else collections.

Inductive Padding : Type := SAME | VALID.

(** Tensors: the dataflow expressions the module builds. A dimension
    [None] of a placeholder is the unknown batch size. *)
Inductive Tensor : Type :=
| Placeholder (id : nat) (shape : list (option N))
| Var (v : TFVariable)                     (* the current value of [v] *)
| Const (c : Q)
| Add (a b : Tensor)                       (* tf.add, and Python [+] *)
| Multiply (a b : Tensor)                  (* tf.multiply, and Python [*] *)
| MatMul (a b : Tensor)
| Tanh (a : Tensor)
| Relu (a : Tensor)
| Conv2d (input filter : Tensor) (strides : list Z) (padding : Padding)
| MaxPool (a : Tensor) (ksize strides : list Z) (padding : Padding)
| Reshape (a : Tensor) (shape : list Z)
| L2Loss (a : Tensor)                      (* tf.nn.l2_loss *)
| ReduceSum (a : Tensor) (reduction_indices : list Z)
| ReduceMean (a : Tensor)                  (* over all dimensions *)
| SquaredDifference (a b : Tensor).

(** [tf.train.*Optimizer] objects. *)
Inductive Optimizer : Type :=
| AdadeltaOptimizer (learning_rate : Q)
| AdagradOptimizer (learning_rate : Q)
| AdamOptimizer (learning_rate : Q)
| FtrlOptimizer (learning_rate : Q)
| GradientDescentOptimizer (learning_rate : Q)
| MomentumOptimizer (learning_rate : Q) (momentum : Q)
| RMSPropOptimizer (learning_rate : Q) (decay : Q)
| SyncReplicasOptimizer (opt : Optimizer)
                        (replicas_to_aggregate : Z) (replica_id : Z).

(** Operations run for their effect on variables. *)
Inductive Operation : Type :=
| Assign (ref : TFVariable) (value : Tensor)         (* tf.assign *)
| Minimize (opt : Optimizer) (loss : Tensor)
           (var_list : list TFVariable) (global_step : option TFVariable).

(** [tf.summary.scalar(name, t)] and [tf.summary.merge(inputs)]. The
    summary records the name it was asked for; the tag TensorFlow writes
    is that name under the name scope in force, made unique in it. *)
Inductive Summary : Type :=
| ScalarSummary (name : string) (t : Tensor).

Inductive SummaryOp : Type :=
| MergeSummary (inputs : list Summary).

(** The default graph: what has been created so far, and the ambient
    context managed by [with tf.variable_scope(..)] and
    [with tf.device(..)]. *)
Record Graph : Type := mkGraph {
  variables : list TFVariable;               (* in creation order *)
  placeholders : list (list (option N));     (* shapes, in creation order *)
  operations : list Operation;               (* in creation order *)
  scope : list string;                       (* outermost first *)
  device : list string                       (* requests, innermost first *)
}.

Definition empty_graph : Graph := mkGraph [] [] [] [] [].

End tf.
Export tf.

(** A construction step: it may extend the graph, and it returns a value
    or raises. The graph is returned in both cases, because what was added
    before an exception stays in the graph. *)
Definition M (A : Type) : Type := Graph -> Result A * Graph.

Definition ret {A} (a : A) : M A := fun g => (Ok a, g).

Definition raise {A} (e : Exception) : M A := fun g => (Raise e, g).

Definition bind {A B} (c : M A) (k : A -> M B) : M B :=
  fun g =>
    match c g with
    | (Ok a, g') => k a g'
    | (Raise e, g') => (Raise e, g')
    end.

Declare Scope construction_scope.
Delimit Scope construction_scope with M.
Notation "x <- c ;; k" := (bind c (fun x => k))
  (at level 61, c at next level, right associativity) : construction_scope.
Notation "' pat <- c ;; k" := (bind c (fun x => match x with pat => k end))
  (at level 61, pat pattern, c at next level, right associativity)
  : construction_scope.
Open Scope construction_scope.

Module tf_ops.

(** The name a variable gets under the current variable scope. *)
Definition scoped_name (g : Graph) (name : string) : string :=
  String.concat "/" (scope g ++ [name]).

Definition name_in_use (g : Graph) (full : string) : bool :=
  existsb (String.eqb full) (map var_name (variables g)).

Definition add_variable (g : Graph) (v : TFVariable) : Graph :=
  mkGraph (variables g ++ [v]) (placeholders g) (operations g)
          (scope g) (device g).

(** [tf.placeholder(tf.float32, shape)] *)
Definition placeholder (shape : list (option N)) : M Tensor :=
  fun g =>
    (Ok (Placeholder (length (placeholders g)) shape),
     mkGraph (variables g) (placeholders g ++ [shape]) (operations g)
             (scope g) (device g)).

(** [tf.get_variable(name, shape, initializer=.., collections=..)] with
    the default [trainable=True], outside any reusing scope: the
    variable is created on the current device under the current
    variable scope, and a name that already exists is an error. *)
Definition get_variable (name : string) (shape : list N)
    (initializer : Initializer) (collections : option (list GraphKeys))
    : M TFVariable :=
  fun g =>
    let full := scoped_name g name in
    if name_in_use g full then
      (Raise (ValueError ("Variable " ++ full ++ " already exists")), g)
    else
      let v := mkVariable (length (variables g)) full shape initializer
                          collections true (device g) in
      (Ok v, add_variable g v).

(** [tf.Variable(0, name=.., trainable=False)]: a scalar variable with a
    constant initial value, on the current device. (TensorFlow makes the
    name unique by a numeric suffix when it is taken; the model keeps the
    requested name, since identity is [var_id].) *)
Definition tf_Variable (initial_value : Q) (name : string) (trainable : bool)
    : M TFVariable :=
  fun g =>
    let v := mkVariable (length (variables g)) (scoped_name g name) []
                        (constant_initializer initial_value) None trainable
                        (device g) in
    (Ok v, add_variable g v).

(** Registers an operation node in the graph. *)
Definition add_operation (op : Operation) : M Operation :=
  fun g =>
    (Ok op,
     mkGraph (variables g) (placeholders g) (operations g ++ [op])
             (scope g) (device g)).

(** [tf.assign(ref, value)] where [value] is a variable: the operation
    writes the current value of [value] into [ref]. *)
Definition assign (ref value : TFVariable) : M Operation :=
  add_operation (Assign ref (Var value)).

Definition set_scope (g : Graph) (sc : list string) : Graph :=
  mkGraph (variables g) (placeholders g) (operations g) sc (device g).

Definition set_device (g : Graph) (d : list string) : Graph :=
  mkGraph (variables g) (placeholders g) (operations g) (scope g) d.

(** The device requests in force inside [with tf.device(d):] when
    [outer] are in force around it: [d] comes before the enclosing ones,
    and [tf.device(None)] makes TensorFlow ignore the enclosing ones. *)
Definition device_requests (d : option string) (outer : list string)
    : list string :=
  match d with
  | Some name => name :: outer
  | None => []
  end.

(** [with tf.variable_scope(name): body]. The scope is left again when
    the body returns and when it raises. *)
Definition with_variable_scope {A} (name : string) (body : M A) : M A :=
  fun g =>
    let saved := scope g in
    let '(r, g') := body (set_scope g (saved ++ [name])) in
    (r, set_scope g' saved).

(** [with tf.device(d): body]. Inside, the request [d] is in force
    before the enclosing ones, or none at all after [tf.device(None)].
    The former requests are in force again when the body returns and
    when it raises. (The device strings are not parsed: TensorFlow
    rejects a malformed one when the first node is created under it.) *)
Definition with_device {A} (d : option string) (body : M A) : M A :=
  fun g =>
    let saved := device g in
    let '(r, g') := body (set_device g (device_requests d saved)) in
    (r, set_device g' saved).

(** Python's [sum(ts)] over tensors: it starts from the integer [0]. *)
Definition sum (ts : list Tensor) : Tensor :=
  fold_left Add ts (Const 0).

End tf_ops.

(** [[f(x) for x in xs]] where [f] builds graph nodes, left to right. *)
Fixpoint mapM {A B} (f : A -> M B) (xs : list A) : M (list B) :=
  match xs with
  | [] => ret []
  | x :: xs' => y <- f x ;; ys <- mapM f xs' ;; ret (y :: ys)
  end.

(** [{k: v, ...}.get(key, None)] on a dict written as a literal. *)
Fixpoint dict_get {V} (d : list (string * V)) (key : string) : option V :=
  match d with
  | [] => None
  | (k, v) :: d' => if String.eqb k key then Some v else dict_get d' key
  end.

(** The variables a tensor reads, in the order they occur. *)
Fixpoint variables_of (t : Tensor) : list TFVariable :=
  match t with
  | Var v => [v]
  | Placeholder _ _ | Const _ => []
  | Add a b | Multiply a b | MatMul a b | SquaredDifference a b
  | Conv2d a b _ _ => variables_of a ++ variables_of b
  | Tanh a | Relu a | MaxPool a _ _ _ | Reshape a _ | L2Loss a
  | ReduceSum a _ | ReduceMean a => variables_of a
  end.

(** Whether the tensor [t] reads the variable [v]. *)
Definition reads (t : Tensor) (v : TFVariable) : bool :=
  existsb (fun u => (var_id u =? var_id v)%nat) (variables_of t).

(** ** The configuration object

    [config] is an object whose attributes the module reads. The
    attributes [momentum] and [rmsprop_decay] are documented as present
    "if applicable", so they are optional here: [None] is an object
    without the attribute, and reading it raises [AttributeError]. *)
Record Config : Type := mkConfig {
  network : string;
  optimizer : string;
  lr : Q;
  momentum : option Q;
  rmsprop_decay : option Q;
  reg_param : Q;
  sync : bool;
  task_id : Z;
  disable_target_replication : bool
}.

(** [config.<attr>] for an attribute that may be missing. *)
Definition getattr {A} (attr : string) (field : option A) : M A :=
  match field with
  | Some a => ret a
  | None => raise (AttributeError attr)
  end.

(** A network class: its name and its two overridable class methods.
    The parameter tuple is a list, weight before bias, layer by layer. *)
Record NetworkClass : Type := mkNetworkClass {
  cls_name : string;
  _init_params : Config -> list N -> N -> option (list GraphKeys) ->
                 option (list Summary) -> M (list TFVariable);
  _init_layers : Config -> Tensor -> list TFVariable ->
                 option (list Summary) -> M (Tensor * Tensor)
}.

(** ** [class SimpleNetwork(Network)] *)

Module SimpleNetwork.
Import tf_ops.

Definition HIDDEN1_SIZE : N := 20.
Definition HIDDEN2_SIZE : N := 20.

Definition _init_params (config : Config) (input_shape : list N)
    (output_size : N) (collections : option (list GraphKeys))
    (summaries : option (list Summary)) : M (list TFVariable) :=
  if negb (length input_shape =? 1)%nat then
    raise (RuntimeError ("SimpleNetwork" ++ " expects 1-d input"))
  else
    let input_size := nth 0 input_shape 0%N in
    let weight_init := truncated_normal_initializer 0.01 in
    let bias_init := constant_initializer 0 in
    (* First hidden layer *)
    '(w1, b1) <- with_variable_scope "hidden1" (
      let shape := [input_size; HIDDEN1_SIZE] in
      w1 <- get_variable "w" shape weight_init collections ;;
      b1 <- get_variable "b" [HIDDEN1_SIZE] bias_init collections ;;
      ret (w1, b1)) ;;
    (* Second hidden layer *)
    '(w2, b2) <- with_variable_scope "hidden2" (
      let shape := [HIDDEN1_SIZE; HIDDEN2_SIZE] in
      w2 <- get_variable "w" shape weight_init collections ;;
      b2 <- get_variable "b" [HIDDEN2_SIZE] bias_init collections ;;
      ret (w2, b2)) ;;
    (* Output layer *)
    '(w3, b3) <- with_variable_scope "output" (
      let shape := [HIDDEN2_SIZE; output_size] in
      w3 <- get_variable "w" shape weight_init collections ;;
      b3 <- get_variable "b" [output_size] bias_init collections ;;
      ret (w3, b3)) ;;
    ret [w1; b1; w2; b2; w3; b3].

Definition _init_layers (config : Config) (inputs : Tensor)
    (params : list TFVariable) (summaries : option (list Summary))
    : M (Tensor * Tensor) :=
  match params with
  | [w1; b1; w2; b2; w3; b3] =>
    (* Layers *)
    let a1 := Tanh (Add (MatMul inputs (Var w1)) (Var b1)) in
    let a2 := Tanh (Add (MatMul a1 (Var w2)) (Var b2)) in
    let output := Add (MatMul a2 (Var w3)) (Var b3) in
    (* L2 regularization for weights excluding biases *)
    let reg_loss := sum (map L2Loss [Var w1; Var w2; Var w3]) in
    ret (output, reg_loss)
  | _ => raise (ValueError "wrong number of values to unpack")
  end.

Definition class : NetworkClass :=
  mkNetworkClass "SimpleNetwork" _init_params _init_layers.

End SimpleNetwork.

(** ** [class ConvNetwork(Network)] *)

Module ConvNetwork.
Import tf_ops.

Definition CONV1_FILTERS : N := 32.
Definition CONV1_SIZE : N := 8.
Definition CONV1_STRIDE : Z := 4.

Definition CONV2_FILTERS : N := 64.
Definition CONV2_SIZE : N := 4.
Definition CONV2_STRIDE : Z := 2.

Definition CONV3_FILTERS : N := 64.
Definition CONV3_SIZE : N := 3.
Definition CONV3_STRIDE : Z := 1.

Definition POOL_SIZE : list Z := [1; 2; 2; 1]%Z.
Definition POOL_STRIDE : list Z := [1; 2; 2; 1]%Z.

Definition FULLY_CONNECTED_SIZE : N := 256.

(** The message is formatted from [cls.__class__.__name__]; [cls] is the
    class, so that is the name of its metaclass, ["type"]. *)
Definition _init_params (config : Config) (input_shape : list N)
    (output_size : N) (collections : option (list GraphKeys))
    (summaries : option (list Summary)) : M (list TFVariable) :=
  if negb (length input_shape =? 3)%nat then
    raise (RuntimeError ("type" ++ " expects 3-d input"))
  else
    let weight_init := truncated_normal_initializer 0.01 in
    let bias_init := constant_initializer 0 in
    (* First hidden conv-pool layer *)
    '(w1, b1) <- with_variable_scope "conv1" (
      let shape :=
        [CONV1_SIZE; CONV1_SIZE; nth 2 input_shape 0%N; CONV1_FILTERS] in
      w1 <- get_variable "w" shape weight_init collections ;;
      b1 <- get_variable "b" [CONV1_FILTERS] bias_init collections ;;
      ret (w1, b1)) ;;
    (* Second hidden conv-pool layer *)
    '(w2, b2) <- with_variable_scope "conv2" (
      let shape :=
        [CONV2_SIZE; CONV2_SIZE; CONV1_FILTERS; CONV2_FILTERS] in
      w2 <- get_variable "w" shape weight_init collections ;;
      b2 <- get_variable "b" [CONV2_FILTERS] bias_init collections ;;
      ret (w2, b2)) ;;
    (* Third hidden conv-pool layer *)
    '(w3, b3) <- with_variable_scope "conv3" (
      let shape :=
        [CONV3_SIZE; CONV3_SIZE; CONV2_FILTERS; CONV3_FILTERS] in
      w3 <- get_variable "w" shape weight_init collections ;;
      b3 <- get_variable "b" [CONV3_FILTERS] bias_init collections ;;
      ret (w3, b3)) ;;
    (* Final fully-connected hidden layer *)
    '(w4, b4) <- with_variable_scope "fcl" (
      let shape := [FULLY_CONNECTED_SIZE; FULLY_CONNECTED_SIZE] in
      w4 <- get_variable "w" shape weight_init collections ;;
      b4 <- get_variable "b" [FULLY_CONNECTED_SIZE] bias_init collections ;;
      ret (w4, b4)) ;;
    (* Output layer *)
    '(w5, b5) <- with_variable_scope "output" (
      let shape := [FULLY_CONNECTED_SIZE; output_size] in
      w5 <- get_variable "w" shape weight_init collections ;;
      b5 <- get_variable "b" [output_size] bias_init collections ;;
      ret (w5, b5)) ;;
    ret [w1; b1; w2; b2; w3; b3; w4; b4; w5; b5].

Definition conv_stride (stride : Z) : list Z := [1; stride; stride; 1]%Z.

Definition max_pool (a : Tensor) : Tensor :=
  MaxPool a POOL_SIZE POOL_STRIDE SAME.

Definition conv_pool (inputs filters bias : Tensor) (stride : Z) : Tensor :=
  let conv := Conv2d inputs filters (conv_stride stride) SAME in
  max_pool (Relu (Add conv bias)).

Definition _init_layers (config : Config) (inputs : Tensor)
    (params : list TFVariable) (summaries : option (list Summary))
    : M (Tensor * Tensor) :=
  match params with
  | [w1; b1; w2; b2; w3; b3; w4; b4; w5; b5] =>
    (* Layers *)
    let a1 := conv_pool inputs (Var w1) (Var b1) CONV1_STRIDE in
    let a2 := conv_pool a1 (Var w2) (Var b2) CONV2_STRIDE in
    let a3 := conv_pool a2 (Var w3) (Var b3) CONV3_STRIDE in
    let a3_flat := Reshape a3 [-1; Z.of_N FULLY_CONNECTED_SIZE]%Z in
    let a4 := Relu (Add (MatMul a3_flat (Var w4)) (Var b4)) in
    let output := Add (MatMul a4 (Var w5)) (Var b5) in
    (* L2 regularization for fully-connected weights *)
    let reg_loss := sum (map L2Loss [Var w4; Var w5]) in
    ret (output, reg_loss)
  | _ => raise (ValueError "wrong number of values to unpack")
  end.

Definition class : NetworkClass :=
  mkNetworkClass "ConvNetwork" _init_params _init_layers.

End ConvNetwork.

(** ** [class Network] *)

Module Network.
Import tf_ops.

(** A network object. The handles are class-level [None] until
    [_init_network] sets them. *)
Record t : Type := mk {
  cls : NetworkClass;
  input_shape : list N;
  num_actions : N;
  num_replicas : Z;
  ps_device : option string;
  worker_device : option string;
  x_placeholder : option Tensor;
  q_placeholder : option Tensor;
  action_placeholder : option Tensor;
  q_output : option Tensor;
  train_op : option Operation;
  target_q_output : option Tensor;
  target_update_ops : option (list Operation);
  summary_op : option SummaryOp;
  global_step : option TFVariable
}.

(** [Net(input_shape=.., num_actions=.., ...)] *)
Definition __init__ (Net : NetworkClass) (input_shape : list N)
    (num_actions : N) (num_replicas : Z)
    (ps_device worker_device : option string)
    : t :=
  mk Net input_shape num_actions num_replicas ps_device worker_device
     None None None None None None None None None.

(** The base class leaves both builders to its subclasses. *)
Definition class : NetworkClass :=
  mkNetworkClass "Network"
    (fun _ _ _ _ _ => raise NotImplementedError)
    (fun _ _ _ _ => raise NotImplementedError).

(** Returns the loss and the summary list as the call leaves it. *)
Definition _init_loss (config : Config) (q expected_q actions : Tensor)
    (reg_loss : option Tensor) (summaries : option (list Summary))
    : Tensor * option (list Summary) :=
  let q_masked := ReduceSum (Multiply q actions) [1%Z] in
  let loss := ReduceMean (SquaredDifference q_masked expected_q) in
  let loss :=
    match reg_loss with
    | Some reg_loss => Add loss (Multiply (Const (reg_param config)) reg_loss)
    | None => loss
    end in
  let summaries :=
    match summaries with
    | Some l => Some (l ++ [ScalarSummary "loss" loss])%list
    | None => None
    end in
  (loss, summaries).

(** [optimizer.minimize(loss, var_list=.., global_step=..)]. TensorFlow
    refuses an empty [var_list], a loss that reads none of the variables
    (no gradient would be defined), and a synchronizing optimizer without
    a step counter. The variables the optimizer creates for its own use
    (the accumulators of the momentum, adagrad, adadelta, adam, ftrl and
    rmsprop optimizers, the bookkeeping of the synchronizing one) are not
    modelled: the graph holds the variables the module creates itself. *)
Definition minimize (optimizer : Optimizer) (loss : Tensor)
    (var_list : list TFVariable) (global_step : option TFVariable)
    : M Operation :=
  match var_list with
  | [] => raise (ValueError "No variables to optimize.")
  | _ :: _ =>
    if negb (existsb (reads loss) var_list) then
      raise (ValueError "No gradients provided for any variable")
    else
      match optimizer, global_step with
      | SyncReplicasOptimizer _ _ _, None =>
        raise (ValueError "Global step is required to check staleness of the stale gradients")
      | _, _ => add_operation (Minimize optimizer loss var_list global_step)
      end
  end.

(** The dict literal of optimizer constructors. Building it evaluates
    [config.momentum] and [config.rmsprop_decay], in that order, whatever
    optimizer is selected afterwards. *)
Definition optimizer_table (config : Config) : M (list (string * (Q -> Optimizer))) :=
  momentum <- getattr "momentum" (momentum config) ;;
  rmsprop_decay <- getattr "rmsprop_decay" (rmsprop_decay config) ;;
  ret [ ("adadelta", AdadeltaOptimizer);
        ("adagrad", AdagradOptimizer);
        ("adam", AdamOptimizer);
        ("ftrl", FtrlOptimizer);
        ("sgd", GradientDescentOptimizer);
        ("momentum", fun learning_rate =>
                       MomentumOptimizer learning_rate momentum);
        ("rmsprop", fun learning_rate =>
                      RMSPropOptimizer learning_rate rmsprop_decay) ].

Definition _init_optimizer (config : Config) (params : list TFVariable)
    (loss : Tensor) (num_replicas : Z) (global_step : option TFVariable)
    (summaries : option (list Summary)) : M Operation :=
  table <- optimizer_table config ;;
  match dict_get table (optimizer config) with
  | None => raise (RuntimeError ("Unsupported optimizer " ++ optimizer config))
  | Some Optimizer =>
    let optimizer := Optimizer (lr config) in
    (* Synchronize gradient updates if enabled *)
    let optimizer :=
      if sync config then
        SyncReplicasOptimizer optimizer num_replicas (task_id config)
      else optimizer in
    (* Explicitly pass the list of trainable params *)
    minimize optimizer loss params global_step
  end.

(** [cls] is the object the method is called on; its builders are those of
    its class. *)
Definition _init_target_network (cls : NetworkClass) (config : Config)
    (inputs : Tensor) (input_shape : list N) (output_size : N)
    (params : list TFVariable) (ps_device worker_device : option string)
    (summaries : option (list Summary)) : M (Tensor * list Operation) :=
  let '(target_param_device, collections) :=
    if negb (disable_target_replication config) then
      (worker_device, [LOCAL_VARIABLES])
    else
      (ps_device, []) in
  (* Initialize the target weights and layers *)
  '(target_params, target_q_output) <- with_variable_scope "target" (
    target_params <- with_device target_param_device (
      _init_params cls config input_shape output_size (Some collections)
                   summaries) ;;
    '(target_q_output, _) <-
      _init_layers cls config inputs target_params summaries ;;
    ret (target_params, target_q_output)) ;;
  (* Create assign ops to periodically update the target network *)
  target_update_ops <-
    mapM (fun '(target_p, p) => assign target_p p)
         (combine target_params params) ;;
  ret (target_q_output, target_update_ops).

Definition _init_network (self : t) (config : Config) : M t :=
  (* Placeholders *)
  x_placeholder <- placeholder (None :: map Some (input_shape self)) ;;
  q_placeholder <- placeholder [None] ;;
  action_placeholder <- placeholder [None; Some (num_actions self)] ;;
  let summaries : option (list Summary) := Some [] in
  (* Params and layers *)
  params <- with_device (ps_device self) (
    _init_params (cls self) config (input_shape self) (num_actions self)
                 None summaries) ;;
  '(q_output, reg_loss) <-
    _init_layers (cls self) config x_placeholder params summaries ;;
  (* Loss and training *)
  global_step <- tf_Variable 0 "global_step" false ;;
  let '(loss, summaries) :=
    _init_loss config q_output q_placeholder action_placeholder
               (Some reg_loss) summaries in
  train_op <- _init_optimizer config params loss (num_replicas self)
                              (Some global_step) summaries ;;
  (* Target network *)
  '(target_q_output, target_update_ops) <-
    _init_target_network (cls self) config x_placeholder (input_shape self)
                         (num_actions self) params (ps_device self)
                         (worker_device self) summaries ;;
  (* Merge all the summaries in this graph *)
  let summary_op :=
    match summaries with
    | Some ((_ :: _) as l) => Some (MergeSummary l)
    | _ => None
    end in
  ret (mk (cls self) (input_shape self) (num_actions self)
          (num_replicas self) (ps_device self) (worker_device self)
          (Some x_placeholder) (Some q_placeholder) (Some action_placeholder)
          (Some q_output) (Some train_op) (Some target_q_output)
          (Some target_update_ops) summary_op (Some global_step)).

(** Creates and returns a network type based on [config.network]. *)
Definition create_network (config : Config) (input_shape : list N)
    (num_actions : N) (num_replicas : Z)
    (ps_device worker_device : option string)
    : M t :=
  let Net := dict_get [ ("simple", SimpleNetwork.class);
                        ("cnn", ConvNetwork.class) ] (network config) in
  match Net with
  | None =>
    raise (RuntimeError ("Unsupported network type " ++ network config))
  | Some Net =>
    let net := __init__ Net input_shape num_actions num_replicas
                        ps_device worker_device in
    _init_network net config
  end.

End Network.

(** ** Running the graph

    Values are rationals arranged in nested arrays. A feed gives the
    value of each fed placeholder (by its id), a store the current value
    of each variable (by its id). The operations whose value no property
    below needs, or whose value is not rational (tanh), do not evaluate
    here. *)

Module Semantics.

Inductive value : Type :=
| Num (x : Q)
| Arr (elems : list value).

Definition Feed : Type := nat -> option value.
Definition Store : Type := nat -> value.

(** Equality of values, rationals compared as numbers. *)
Fixpoint value_eqb (a b : value) : bool :=
  match a, b with
  | Num x, Num y => Qeq_bool x y
  | Arr xs, Arr ys =>
    (fix go (xs ys : list value) : bool :=
       match xs, ys with
       | [], [] => true
       | x :: xs', y :: ys' => value_eqb x y && go xs' ys'
       | _, _ => false
       end) xs ys
  | _, _ => false
  end.

Fixpoint map_value (f : Q -> Q) (v : value) : value :=
  match v with
  | Num x => Num (f x)
  | Arr l => Arr (map (map_value f) l)
  end.

(** Elementwise binary operation; a scalar is broadcast, arrays must have
    the same shape. *)
Fixpoint zip_value (f : Q -> Q -> Q) (a b : value) : option value :=
  match a, b with
  | Num x, Num y => Some (Num (f x y))
  | Num x, Arr _ => Some (map_value (f x) b)
  | Arr _, Num y => Some (map_value (fun x => f x y) a)
  | Arr xs, Arr ys =>
    option_map Arr
      ((fix go (xs ys : list value) : option (list value) :=
          match xs, ys with
          | [], [] => Some []
          | x :: xs', y :: ys' =>
            match zip_value f x y, go xs' ys' with
            | Some z, Some zs => Some (z :: zs)
            | _, _ => None
            end
          | _, _ => None
          end) xs ys)
  end.

(** Sum of [f] over all the entries, and the number of entries. *)
Fixpoint sum_over (f : Q -> Q) (v : value) : Q :=
  match v with
  | Num x => f x
  | Arr l => fold_right (fun e acc => sum_over f e + acc) 0 l
  end.

Fixpoint size (v : value) : nat :=
  match v with
  | Num _ => 1
  | Arr l => fold_right (fun e acc => size e + acc)%nat 0%nat l
  end.

Definition sum_squares (v : value) : Q := sum_over (fun x => x * x) v.

(** [tf.reduce_sum(v, reduction_indices=[1])] of a matrix: one sum per
    row. *)
Definition row_sum (row : value) : option value :=
  match row with
  | Arr elems =>
    if forallb (fun e => match e with Num _ => true | Arr _ => false end) elems
    then Some (Num (sum_over (fun x => x) row))
    else None
  | Num _ => None
  end.

Fixpoint all_some {A} (l : list (option A)) : option (list A) :=
  match l with
  | [] => Some []
  | Some a :: l' => option_map (cons a) (all_some l')
  | None :: _ => None
  end.

Definition reduce_sum_1 (v : value) : option value :=
  match v with
  | Arr rows => option_map Arr (all_some (map row_sum rows))
  | Num _ => None
  end.

(** [tf.reduce_mean(v)]: the mean of all entries. *)
Definition reduce_mean (v : value) : option value :=
  match size v with
  | O => None
  | S _ => Some (Num (sum_over (fun x => x) v / inject_Z (Z.of_nat (size v))))
  end.

Definition lift2 (f : value -> value -> option value)
    (a b : option value) : option value :=
  match a, b with
  | Some x, Some y => f x y
  | _, _ => None
  end.

Fixpoint eval (feed : Feed) (store : Store) (t : Tensor) : option value :=
  match t with
  | Placeholder id _ => feed id
  | Var v => Some (store (var_id v))
  | Const c => Some (Num c)
  | Add a b => lift2 (zip_value Qplus) (eval feed store a) (eval feed store b)
  | Multiply a b =>
    lift2 (zip_value Qmult) (eval feed store a) (eval feed store b)
  | SquaredDifference a b =>
    lift2 (zip_value (fun x y => (x - y) * (x - y)))
          (eval feed store a) (eval feed store b)
  | ReduceSum a [1%Z] =>
    match eval feed store a with
    | Some v => reduce_sum_1 v
    | None => None
    end
  | ReduceMean a =>
    match eval feed store a with
    | Some v => reduce_mean v
    | None => None
    end
  (* tf.nn.l2_loss(t) = sum(t ** 2) / 2 *)
  | L2Loss a =>
    match eval feed store a with
    | Some v => Some (Num (sum_squares v / 2))
    | None => None
    end
  | _ => None
  end.

(** The L2 (Euclidean) norm of a value: the non-negative square root of
    the sum of the squares of its entries. *)
Definition is_l2_norm (v : value) (n : Q) : Prop :=
  0 <= n /\ n * n == sum_squares v.

(** The placeholders a tensor is computed from. *)
Fixpoint placeholders_of (t : Tensor) : list nat :=
  match t with
  | Placeholder id _ => [id]
  | Var _ | Const _ => []
  | Add a b | Multiply a b | MatMul a b | SquaredDifference a b
  | Conv2d a b _ _ => placeholders_of a ++ placeholders_of b
  | Tanh a | Relu a | MaxPool a _ _ _ | Reshape a _ | L2Loss a
  | ReduceSum a _ | ReduceMean a => placeholders_of a
  end.

Definition write (s : Store) (v : TFVariable) (x : value) : Store :=
  fun i => if (i =? var_id v)%nat then x else s i.

(** Plain gradient descent: [var - learning_rate * grad], entry by
    entry. *)
Fixpoint sgd_step (learning_rate : Q) (var grad : value) : value :=
  match var, grad with
  | Num x, Num g => Num (x - learning_rate * g)
  | Arr xs, Arr gs =>
    Arr ((fix go (xs gs : list value) : list value :=
            match xs, gs with
            | x :: xs', g :: gs' => sgd_step learning_rate x g :: go xs' gs'
            | _, _ => []
            end) xs gs)
  | _, _ => var
  end.

Section Execution.

(** What TensorFlow computes inside a training step is left open: the
    gradient of the loss with respect to a variable, which it may fail
    to compute (shapes that do not fit at run time), the update rule of
    the optimizers other than plain gradient descent, and the new value
    of the step counter. *)
Variable gradients : Tensor -> TFVariable -> Feed -> Store -> option value.
Variable optimizer_update : Optimizer -> TFVariable -> value -> value -> value.
Variable next_step : Optimizer -> value -> value.

Definition apply_gradient (opt : Optimizer) (v : TFVariable)
    (var grad : value) : value :=
  match opt with
  | GradientDescentOptimizer learning_rate => sgd_step learning_rate var grad
  | _ => optimizer_update opt v var grad
  end.

(** The gradient the step has for [v], once it is known to exist. *)
Definition gradient_of (loss : Tensor) (v : TFVariable) (feed : Feed)
    (s : Store) : value :=
  match gradients loss v feed s with
  | Some grad => grad
  | None => Num 0
  end.

(** One execution of an operation: [session.run(op, feed_dict=feed)].
    An assignment writes the value of its right-hand side into its
    target. A minimization step fails when a placeholder its loss reads
    is not fed or a gradient cannot be computed; otherwise it writes, of
    the variables in the store, those of its [var_list] that the loss
    reads (the others have no gradient and are left alone) and the step
    counter it was given. The store holds the variables the module
    creates; the optimizer's own variables are outside it. *)
Definition run (op : Operation) (feed : Feed) (s : Store) : option Store :=
  match op with
  | Assign ref value =>
    match eval feed s value with
    | Some x => Some (write s ref x)
    | None => None
    end
  | Minimize opt loss var_list global_step =>
    let trained := filter (reads loss) var_list in
    if forallb (fun id => match feed id with Some _ => true | None => false end)
               (placeholders_of loss)
       && forallb (fun v => match gradients loss v feed s with
                            | Some _ => true
                            | None => false
                            end) trained
    then
      let s' :=
        fold_left
          (fun acc v =>
             write acc v (apply_gradient opt v (s (var_id v))
                                         (gradient_of loss v feed s)))
          trained s in
      Some match global_step with
           | Some gs => write s' gs (next_step opt (s (var_id gs)))
           | None => s'
           end
    else None
  end.

(** Running a list of operations one after the other. *)
Fixpoint run_all (ops : list Operation) (feed : Feed) (s : Store)
    : option Store :=
  match ops with
  | [] => Some s
  | op :: ops' =>
    match run op feed s with
    | Some s' => run_all ops' feed s'
    | None => None
    end
  end.

End Execution.

End Semantics.

(** ** Vocabulary of the properties *)

Import tf_ops.

(** The two architecture variants the factory knows. *)
Inductive Variant : Type := Simple | Convolutional.

Definition variant_class (v : Variant) : NetworkClass :=
  match v with
  | Simple => SimpleNetwork.class
  | Convolutional => ConvNetwork.class
  end.

Definition variant_key (v : Variant) : string :=
  match v with Simple => "simple" | Convolutional => "cnn" end.

Definition variant_rank (v : Variant) : nat :=
  match v with Simple => 1 | Convolutional => 3 end.

(** The layers of each variant as the specification lists them: the scope
    of the layer, the shape of its weight and the shape of its bias. *)
Definition layer_spec (v : Variant) (input_shape : list N) (output_size : N)
    : list (string * list N * list N) :=
  match v with
  | Simple =>
    [ ("hidden1", [nth 0 input_shape 0; 20], [20]);
      ("hidden2", [20; 20], [20]);
      ("output", [20; output_size], [output_size]) ]%N
  | Convolutional =>
    [ ("conv1", [8; 8; nth 2 input_shape 0; 32], [32]);
      ("conv2", [4; 4; 32; 64], [64]);
      ("conv3", [3; 3; 64; 64], [64]);
      ("fcl", [256; 256], [256]);
      ("output", [256; output_size], [output_size]) ]%N
  end.

(** The parameter sequence described by a list of layers: for each layer
    a trainable weight (truncated normal, standard deviation 0.01) and a
    trainable bias (zero), named [w] and [b] under the layer's scope, with
    consecutive ids from [first_id]. *)
Fixpoint param_list (first_id : nat) (prefix : list string)
    (dev : list string) (collections : option (list GraphKeys))
    (layers : list (string * list N * list N)) : list TFVariable :=
  match layers with
  | [] => []
  | (name, wshape, bshape) :: rest =>
    mkVariable first_id (String.concat "/" (prefix ++ [name; "w"])) wshape
               (truncated_normal_initializer 0.01) collections true dev
    :: mkVariable (S first_id) (String.concat "/" (prefix ++ [name; "b"]))
                  bshape (constant_initializer 0) collections true dev
    :: param_list (S (S first_id)) prefix dev collections rest
  end.

(** The graph [g] with the variables [vs] added. *)
Definition extend (g : Graph) (vs : list TFVariable) : Graph :=
  mkGraph (variables g ++ vs) (placeholders g) (operations g)
          (scope g) (device g).

(** A graph in which nothing has been created yet, at top level. *)
Definition fresh (g : Graph) : Prop :=
  variables g = [] /\ scope g = [].

(** The online parameters of an assembled network are the variables its
    training operation was given; the target parameters are the variables
    its target-update operations write. *)
Definition online_params (net : Network.t) : list TFVariable :=
  match Network.train_op net with
  | Some (Minimize _ _ var_list _) => var_list
  | _ => []
  end.

Definition assigned (op : Operation) : list TFVariable :=
  match op with
  | Assign ref _ => [ref]
  | Minimize _ _ _ _ => []
  end.

Definition target_params (net : Network.t) : list TFVariable :=
  match Network.target_update_ops net with
  | Some ops => flat_map assigned ops
  | None => []
  end.

(** [tf.assign(target_p, p) for target_p, p in zip(targets, onlines)] *)
Definition assign_ops (targets onlines : list TFVariable) : list Operation :=
  map (fun '(target_p, p) => Assign target_p (Var p)) (combine targets onlines).

Definition supported_optimizers : list string :=
  ["adadelta"; "adagrad"; "adam"; "ftrl"; "sgd"; "momentum"; "rmsprop"].

(** The names of a parameter sequence: the layer and role of each
    position, under the prefix. *)
Definition relative_names (layers : list (string * list N * list N))
    : list (list string) :=
  flat_map (fun '(name, _, _) => [[name; "w"]; [name; "b"]]) layers.

(** The graph [g] with the operations [ops] added. *)
Definition extend_ops (g : Graph) (ops : list Operation) : Graph :=
  mkGraph (variables g) (placeholders g) (operations g ++ ops)
          (scope g) (device g).

(** What a layer builder returns on a parameter tuple of the right
    length: the output tensor and the regularization penalty. *)
Definition layers_of (v : Variant) (config : Config) (inputs : Tensor)
    (params : list TFVariable) : Tensor * Tensor :=
  match fst (_init_layers (variant_class v) config inputs params None
                          empty_graph) with
  | Ok r => r
  | Raise _ => (Const 0, Const 0)
  end.

(** The pieces of a network assembled from the graph [g]: the three
    placeholders, the online parameters, the step counter, the target
    parameters and the loss. *)
Section Assembled.
Variables (v : Variant) (config : Config) (shape : list N) (n : N)
          (ps wk : option string) (g : Graph).

Definition x_of : Tensor :=
  Placeholder (length (placeholders g)) (None :: map Some shape).
Definition q_of : Tensor := Placeholder (S (length (placeholders g))) [None].
Definition action_of : Tensor :=
  Placeholder (S (S (length (placeholders g)))) [None; Some n].

Definition online_of : list TFVariable :=
  param_list (length (variables g)) (scope g)
             (device_requests ps (device g)) None
             (layer_spec v shape n).

Definition step_of : TFVariable :=
  mkVariable (length (variables g) + length online_of)
             (String.concat "/" (scope g ++ ["global_step"])) []
             (constant_initializer 0) None false (device g).

Definition target_of : list TFVariable :=
  param_list (S (length (variables g) + length online_of))
             (scope g ++ ["target"])
             (device_requests
                (if negb (disable_target_replication config) then wk else ps)
                (device g))
             (Some (if negb (disable_target_replication config)
                    then [LOCAL_VARIABLES] else []))
             (layer_spec v shape n).

Definition loss_of : Tensor :=
  fst (Network._init_loss config (fst (layers_of v config x_of online_of))
         q_of action_of
         (Some (snd (layers_of v config x_of online_of))) (Some [])).

End Assembled.

(** A configuration, input shape and action count the variant [v]
    accepts: the variant and the optimizer are known, both coefficients
    are present, the shape has the rank of the variant, and no dimension
    is empty. *)
Definition valid_input (v : Variant) (config : Config) (shape : list N)
    (n : N) : Prop :=
  network config = variant_key v /\
  length shape = variant_rank v /\
  In (optimizer config) supported_optimizers /\
  (exists m, momentum config = Some m) /\
  (exists d, rmsprop_decay config = Some d) /\
  Forall (fun dim => (0 < dim)%N) shape /\
  (0 < n)%N.

(** Sample inputs. *)
Definition simple_config : Config :=
  mkConfig "simple" "sgd" 0.1 (Some 0.9) (Some 0.9) 0.01 false 0 false.

Definition cnn_config : Config :=
  mkConfig "cnn" "rmsprop" 0.1 (Some 0.9) (Some 0.9) 0.01 true 0 true.

(** A configuration that names an optimizer the module does not know
    and carries neither coefficient. *)
Definition unknown_optimizer_config : Config :=
  mkConfig "simple" "nesterov" 0.1 None None 0.01 false 0 false.

(** A plain gradient-descent configuration without the coefficients of
    the momentum and rmsprop optimizers. *)
Definition sgd_config_without_coefficients : Config :=
  mkConfig "simple" "sgd" 0.1 None None 0.01 false 0 false.

(** The optimizer constructors, given the two coefficients. *)
Definition optimizer_constructors (m d : Q) : list (string * (Q -> Optimizer)) :=
  [ ("adadelta", AdadeltaOptimizer);
    ("adagrad", AdagradOptimizer);
    ("adam", AdamOptimizer);
    ("ftrl", FtrlOptimizer);
    ("sgd", GradientDescentOptimizer);
    ("momentum", fun learning_rate => MomentumOptimizer learning_rate m);
    ("rmsprop", fun learning_rate => RMSPropOptimizer learning_rate d) ].

(** The optimizer the builder hands to [minimize]. *)
Definition wrapped (config : Config) (num_replicas : Z) (opt : Optimizer)
    : Optimizer :=
  if sync config
  then SyncReplicasOptimizer opt num_replicas (task_id config)
  else opt.

(** The feed of the loss example: output, expected value, action mask. *)
Definition loss_example_feed : Semantics.Feed :=
  fun id =>
    match id with
    | 0%nat => Some (Semantics.Arr [Semantics.Arr [Semantics.Num 1;
                                                   Semantics.Num 2]])
    | 1%nat => Some (Semantics.Arr [Semantics.Num 1.5])
    | 2%nat => Some (Semantics.Arr [Semantics.Arr [Semantics.Num 0;
                                                   Semantics.Num 1]])
    | _ => None
    end.

(** [c] raises only exceptions that satisfy [P]. *)
Definition raises_only {A} (P : Exception -> Prop) (c : M A) : Prop :=
  forall g e g', c g = (Raise e, g') -> P e.

Definition is_ValueError (e : Exception) : Prop :=
  exists msg, e = ValueError msg.

(** The errors of the two rank checks. *)
Definition is_shape_mismatch (e : Exception) : Prop :=
  e = RuntimeError "SimpleNetwork expects 1-d input" \/
  e = RuntimeError "type expects 3-d input".

(** C3 as the specification states it: one execution of the training
    operation changes the value of every online parameter and of no
    target parameter. *)
Definition training_step_changes_every_online_parameter
    (gradients : Tensor -> TFVariable -> Semantics.Feed -> Semantics.Store ->
                 option Semantics.value)
    (update : Optimizer -> TFVariable -> Semantics.value -> Semantics.value ->
              Semantics.value)
    (next : Optimizer -> Semantics.value -> Semantics.value)
    (net : Network.t) (feed : Semantics.Feed) (store : Semantics.Store)
    : Prop :=
  exists train store',
    Network.train_op net = Some train /\
    Semantics.run gradients update next train feed store = Some store' /\
    (forall p, In p (online_params net) ->
       Semantics.value_eqb (store' (var_id p)) (store (var_id p)) = false) /\
    (forall t, In t (target_params net) ->
       store' (var_id t) = store (var_id t)).

(** Gradient descent with learning rate zero. *)
Definition zero_rate_config : Config :=
  mkConfig "simple" "sgd" 0 (Some 0.9) (Some 0.9) 0.01 false 0 false.

(** A value of the given shape with every entry [x]. *)
Definition filled (shape : list N) (x : Q) : Semantics.value :=
  fold_right (fun d v => Semantics.Arr (repeat v (N.to_nat d)))
             (Semantics.Num x) shape.

(** A store that gives every variable of [vars] (found by its id) a
    value of its shape, every entry 1/100; and gradients that are 1 in
    every entry. *)
Definition sample_store (vars : list TFVariable) : Semantics.Store :=
  fun id =>
    match find (fun v => (var_id v =? id)%nat) vars with
    | Some v => filled (var_shape v) 0.01
    | None => Semantics.Num 0
    end.

Definition sample_gradients
    : Tensor -> TFVariable -> Semantics.Feed -> Semantics.Store ->
      option Semantics.value :=
  fun _ v _ _ => Some (filled (var_shape v) 1).

(** A variable and a loss that reads it, for the examples of the
    optimizer builder. *)
Definition sample_variable : TFVariable :=
  mkVariable 0 "w" [2%N] (constant_initializer 0) None true [].

Definition sample_loss : Tensor := L2Loss (Var sample_variable).

(** A feed for a batch of one transition: an observation of the given
    shape with every entry 1, the expected value 1, and the mask of the
    first of [n] actions. *)
Definition sample_feed (shape : list N) (n : N) : Semantics.Feed :=
  fun id =>
    match id with
    | 0%nat => Some (Semantics.Arr [filled shape 1])
    | 1%nat => Some (Semantics.Arr [Semantics.Num 1])
    | 2%nat =>
      Some (Semantics.Arr
              [Semantics.Arr (Semantics.Num 1
                              :: repeat (Semantics.Num 0) (N.to_nat n - 1))])
    | _ => None
    end.

(** A store for the penalty examples: the variable with id 0 holds a
    1 x 20 matrix whose first entry is 3, the variable with id 6 a
    256 x 256 matrix whose first entry is 3, all other entries and
    variables are zero. *)
Definition first_entry_3 (rows cols : nat) : Semantics.value :=
  Semantics.Arr
    (Semantics.Arr (Semantics.Num 3 :: repeat (Semantics.Num 0) (cols - 1))
     :: repeat (Semantics.Arr (repeat (Semantics.Num 0) cols)) (rows - 1)).

Definition simple_penalty_store (vars : list TFVariable) : Semantics.Store :=
  fun id =>
    match id with
    | 0%nat => first_entry_3 1 20
    | _ =>
      match find (fun v => (var_id v =? id)%nat) vars with
      | Some v => filled (var_shape v) 0
      | None => Semantics.Num 0
      end
    end.

Definition conv_penalty_store (vars : list TFVariable) : Semantics.Store :=
  fun id =>
    match id with
    | 6%nat => first_entry_3 256 256
    | _ =>
      match find (fun v => (var_id v =? id)%nat) vars with
      | Some v => filled (var_shape v) 0
      | None => Semantics.Num 0
      end
    end.

(** ** Vocabulary of the further properties *)

(** [g'] is [g] with nodes added: what [g] holds is still there, in the
    same order, and the ambient scope and device are those of [g]. *)
Definition grows (g g' : Graph) : Prop :=
  (exists vs, variables g' = variables g ++ vs)%list /\
  (exists pls, placeholders g' = placeholders g ++ pls)%list /\
  (exists ops, operations g' = operations g ++ ops)%list /\
  scope g' = scope g /\
  device g' = device g.

(** [c] only adds to the graph, whether it returns or raises. *)
Definition only_adds {A} (c : M A) : Prop :=
  forall g r g', c g = (r, g') -> grows g g'.

(** The errors of the optimizer builder. *)
Definition is_optimizer_error (cfg : Config) (e : Exception) : Prop :=
  e = AttributeError "momentum" \/
  e = AttributeError "rmsprop_decay" \/
  e = RuntimeError ("Unsupported optimizer " ++ optimizer cfg).

(** What the operations of TensorFlow compute is left open: an
    interpretation gives a meaning in [V] to fed and stored values and to
    each operation the module uses. *)
Record Interpretation (V : Type) : Type := mkInterpretation {
  i_value : Semantics.value -> V;
  i_unfed : V;                       (* a placeholder that was not fed *)
  i_add : V -> V -> V;
  i_multiply : V -> V -> V;
  i_matmul : V -> V -> V;
  i_tanh : V -> V;
  i_relu : V -> V;
  i_conv2d : V -> V -> list Z -> Padding -> V;
  i_max_pool : V -> list Z -> list Z -> Padding -> V;
  i_reshape : V -> list Z -> V;
  i_l2_loss : V -> V;
  i_reduce_sum : V -> list Z -> V;
  i_reduce_mean : V -> V;
  i_squared_difference : V -> V -> V
}.
Arguments i_value {V}.
Arguments i_unfed {V}.
Arguments i_add {V}.
Arguments i_multiply {V}.
Arguments i_matmul {V}.
Arguments i_tanh {V}.
Arguments i_relu {V}.
Arguments i_conv2d {V}.
Arguments i_max_pool {V}.
Arguments i_reshape {V}.
Arguments i_l2_loss {V}.
Arguments i_reduce_sum {V}.
Arguments i_reduce_mean {V}.
Arguments i_squared_difference {V}.

(** The value of a tensor under an interpretation, a feed and a store. *)
Fixpoint denote {V} (I : Interpretation V) (feed : Semantics.Feed)
    (store : Semantics.Store) (t : Tensor) : V :=
  match t with
  | Placeholder id _ =>
    match feed id with
    | Some x => i_value I x
    | None => i_unfed I
    end
  | Var v => i_value I (store (var_id v))
  | Const c => i_value I (Semantics.Num c)
  | Add a b => i_add I (denote I feed store a) (denote I feed store b)
  | Multiply a b =>
    i_multiply I (denote I feed store a) (denote I feed store b)
  | MatMul a b => i_matmul I (denote I feed store a) (denote I feed store b)
  | Tanh a => i_tanh I (denote I feed store a)
  | Relu a => i_relu I (denote I feed store a)
  | Conv2d a b strides padding =>
    i_conv2d I (denote I feed store a) (denote I feed store b) strides padding
  | MaxPool a ksize strides padding =>
    i_max_pool I (denote I feed store a) ksize strides padding
  | Reshape a shape => i_reshape I (denote I feed store a) shape
  | L2Loss a => i_l2_loss I (denote I feed store a)
  | ReduceSum a indices => i_reduce_sum I (denote I feed store a) indices
  | ReduceMean a => i_reduce_mean I (denote I feed store a)
  | SquaredDifference a b =>
    i_squared_difference I (denote I feed store a) (denote I feed store b)
  end.

(** The evaluation over the rationals is one interpretation. *)
Definition rational_interpretation : Interpretation (option Semantics.value) :=
  mkInterpretation (option Semantics.value)
    Some None
    (Semantics.lift2 (Semantics.zip_value Qplus))
    (Semantics.lift2 (Semantics.zip_value Qmult))
    (fun _ _ => None)
    (fun _ => None)
    (fun _ => None)
    (fun _ _ _ _ => None)
    (fun _ _ _ _ => None)
    (fun _ _ => None)
    (fun a => match a with
              | Some v => Some (Semantics.Num (Semantics.sum_squares v / 2))
              | None => None
              end)
    (fun a indices =>
       match indices with
       | [1%Z] => match a with
                  | Some v => Semantics.reduce_sum_1 v
                  | None => None
                  end
       | _ => None
       end)
    (fun a => match a with
              | Some v => Semantics.reduce_mean v
              | None => None
              end)
    (Semantics.lift2 (Semantics.zip_value (fun x y => (x - y) * (x - y)))).

(** Reading an optimizer object: the optimizer inside a synchronizing
    wrapper, the name the module gives to a plain optimizer, its learning
    rate, and the coefficient it takes besides (the momentum of the
    momentum optimizer, the decay of the rmsprop optimizer). *)
Definition base_optimizer (o : Optimizer) : Optimizer :=
  match o with
  | SyncReplicasOptimizer opt _ _ => opt
  | _ => o
  end.

Definition optimizer_name (o : Optimizer) : option string :=
  match o with
  | AdadeltaOptimizer _ => Some "adadelta"
  | AdagradOptimizer _ => Some "adagrad"
  | AdamOptimizer _ => Some "adam"
  | FtrlOptimizer _ => Some "ftrl"
  | GradientDescentOptimizer _ => Some "sgd"
  | MomentumOptimizer _ _ => Some "momentum"
  | RMSPropOptimizer _ _ => Some "rmsprop"
  | SyncReplicasOptimizer _ _ _ => None
  end.

Definition learning_rate_of (o : Optimizer) : option Q :=
  match o with
  | AdadeltaOptimizer learning_rate
  | AdagradOptimizer learning_rate
  | AdamOptimizer learning_rate
  | FtrlOptimizer learning_rate
  | GradientDescentOptimizer learning_rate
  | MomentumOptimizer learning_rate _
  | RMSPropOptimizer learning_rate _ => Some learning_rate
  | SyncReplicasOptimizer _ _ _ => None
  end.

Definition coefficient_of (o : Optimizer) : option Q :=
  match o with
  | MomentumOptimizer _ momentum => Some momentum
  | RMSPropOptimizer _ decay => Some decay
  | _ => None
  end.

(** Batches as values: a vector of rationals, and a matrix given by its
    rows. *)
Definition vector (l : list Q) : Semantics.value :=
  Semantics.Arr (map Semantics.Num l).

Definition matrix (rows : list (list Q)) : Semantics.value :=
  Semantics.Arr (map vector rows).

(** The row of an action mask that selects action [k] among [size]. *)
Definition one_hot (size k : nat) : list Q :=
  map (fun j => if (j =? k)%nat then 1 else 0) (seq 0 size).

Definition Qsum (l : list Q) : Q := fold_right Qplus 0 l.

(** For each transition of a batch, the squared difference between the
    value of the action taken and the expected value. *)
Fixpoint squared_errors (qs : list (list Q)) (ks : list nat) (es : list Q)
    : list Q :=
  match qs, ks, es with
  | q :: qs', k :: ks', e :: es' =>
    (nth k q 0 - e) * (nth k q 0 - e) :: squared_errors qs' ks' es'
  | _, _, _ => []
  end.

Definition mean_squared_error (qs : list (list Q)) (ks : list nat)
    (es : list Q) : Q :=
  Qsum (squared_errors qs ks es) / inject_Z (Z.of_nat (length qs)).

(** [zip_value] on the elements of two arrays. *)
Fixpoint zip_list (f : Q -> Q -> Q) (xs ys : list Semantics.value)
    : option (list Semantics.value) :=
  match xs, ys with
  | [], [] => Some []
  | x :: xs', y :: ys' =>
    match Semantics.zip_value f x y, zip_list f xs' ys' with
    | Some z, Some zs => Some (z :: zs)
    | _, _ => None
    end
  | _, _ => None
  end.

(** Entry by entry. *)
Fixpoint map2 (f : Q -> Q -> Q) (a b : list Q) : list Q :=
  match a, b with
  | x :: a', y :: b' => f x y :: map2 f a' b'
  | _, _ => []
  end.

(** Shapes at run time, by TensorFlow's shape rules for the operations
    the module uses. [batch] is the size of the fed batch, the dimension
    the placeholders leave open. A result [None] is a shape error.
    Elementwise operations broadcast as NumPy does: shapes are aligned at
    their last dimension, and two dimensions match when they are equal or
    one of them is 1. With padding [SAME] a convolution or a pooling
    with stride [s] turns a spatial dimension [d] into the ceiling of
    [d / s]. A reshape to [[-1; d]] keeps the number of entries. *)
Definition ceil_div (a b : N) : N := ((a + (b - 1)) / b)%N.

Fixpoint broadcast_reversed (a b : list N) : option (list N) :=
  match a, b with
  | [], l => Some l
  | l, [] => Some l
  | x :: a', y :: b' =>
    match broadcast_reversed a' b' with
    | Some r =>
      if (x =? y)%N then Some (x :: r)
      else if (x =? 1)%N then Some (y :: r)
      else if (y =? 1)%N then Some (x :: r)
      else None
    | None => None
    end
  end.

Definition broadcast (a b : option (list N)) : option (list N) :=
  match a, b with
  | Some a, Some b =>
    option_map (@rev N) (broadcast_reversed (rev a) (rev b))
  | _, _ => None
  end.

Definition entries (shape : list N) : N := fold_right N.mul 1%N shape.

Fixpoint shape_of (batch : N) (t : Tensor) : option (list N) :=
  match t with
  | Placeholder _ shape =>
    Some (map (fun d => match d with Some n => n | None => batch end) shape)
  | Var v => Some (var_shape v)
  | Const _ => Some []
  | Add a b | Multiply a b | SquaredDifference a b =>
    broadcast (shape_of batch a) (shape_of batch b)
  | MatMul a b =>
    match shape_of batch a, shape_of batch b with
    | Some [m; k], Some [k'; n] => if (k =? k')%N then Some [m; n] else None
    | _, _ => None
    end
  | Tanh a | Relu a => shape_of batch a
  | Conv2d a filter [1; s1; s2; 1]%Z SAME =>
    match shape_of batch a, shape_of batch filter with
    | Some [b; h; w; c], Some [_; _; c'; k] =>
      if (c =? c')%N
      then Some [b; ceil_div h (Z.to_N s1); ceil_div w (Z.to_N s2); k]
      else None
    | _, _ => None
    end
  | MaxPool a _ [1; s1; s2; 1]%Z SAME =>
    match shape_of batch a with
    | Some [b; h; w; c] =>
      Some [b; ceil_div h (Z.to_N s1); ceil_div w (Z.to_N s2); c]
    | _ => None
    end
  | Reshape a [-1; d]%Z =>
    match shape_of batch a with
    | Some shape =>
      if (entries shape mod Z.to_N d =? 0)%N
      then Some [(entries shape / Z.to_N d)%N; Z.to_N d]
      else None
    | None => None
    end
  | L2Loss a | ReduceMean a =>
    match shape_of batch a with
    | Some _ => Some []
    | None => None
    end
  | ReduceSum a [1%Z] =>
    match shape_of batch a with
    | Some [m; _] => Some [m]
    | _ => None
    end
  | _ => None
  end.

(** None of the names the factory would give to the parameters of the
    variant [v], online and target, is taken in [g] under its current
    variable scope. *)
Definition names_free (v : Variant) (shape : list N) (n : N) (g : Graph)
    : Prop :=
  forall r, In r (relative_names (layer_spec v shape n)) ->
    name_in_use g (String.concat "/" (scope g ++ r)) = false /\
    name_in_use g (String.concat "/" (scope g ++ "target" :: r)) = false.

(** ** Proofs about the construction monad and the primitives *)

Lemma bind_Ok {A B} (c : M A) (k : A -> M B) g b g' :
  bind c k g = (Ok b, g') ->
  exists a g1, c g = (Ok a, g1) /\ k a g1 = (Ok b, g').
Proof.
  unfold bind. destruct (c g) as [[a|e] g1]; [eauto | discriminate].
Qed.

Lemma bind_Raise {A B} (c : M A) (k : A -> M B) g e g' :
  bind c k g = (Raise e, g') ->
  c g = (Raise e, g') \/ exists a g1, c g = (Ok a, g1) /\ k a g1 = (Raise e, g').
Proof.
  unfold bind. destruct (c g) as [[a|e0] g1]; [eauto |].
  intros H; inversion H; subst; left; reflexivity.
Qed.

Ltac step H p g1 H1 :=
  apply bind_Ok in H; destruct H as (p & g1 & H1 & H); cbn beta iota in H.

Lemma with_device_eq {A} d (body : M A) g :
  with_device d body g =
  (fst (body (set_device g (device_requests d (device g)))),
   set_device (snd (body (set_device g (device_requests d (device g)))))
              (device g)).
Proof.
  unfold with_device.
  destruct (body _) as [r g1]; reflexivity.
Qed.

Lemma with_variable_scope_eq {A} name (body : M A) g :
  with_variable_scope name body g =
  (fst (body (set_scope g (scope g ++ [name]))),
   set_scope (snd (body (set_scope g (scope g ++ [name])))) (scope g)).
Proof.
  unfold with_variable_scope.
  destruct (body _) as [r g1]; reflexivity.
Qed.

Lemma param_list_length id prefix dev coll layers :
  length (param_list id prefix dev coll layers) = (2 * length layers)%nat.
Proof.
  revert id; induction layers as [|[[n w] b] rest IH]; intros id; cbn.
  - reflexivity.
  - rewrite IH. lia.
Qed.

Lemma param_list_ids id prefix dev coll layers :
  map var_id (param_list id prefix dev coll layers) =
  seq id (2 * length layers).
Proof.
  revert id; induction layers as [|[[n w] b] rest IH]; intros id.
  - reflexivity.
  - cbn [param_list map var_id length]. rewrite IH.
    replace (2 * S (length rest))%nat with (S (S (2 * length rest))) by lia.
    reflexivity.
Qed.

Lemma param_list_shapes id1 id2 p1 p2 d1 d2 c1 c2 layers :
  map var_shape (param_list id1 p1 d1 c1 layers) =
  map var_shape (param_list id2 p2 d2 c2 layers).
Proof.
  revert id1 id2; induction layers as [|[[n w] b] rest IH]; intros id1 id2.
  - reflexivity.
  - cbn. f_equal. f_equal. apply IH.
Qed.

Lemma param_list_initializers id1 id2 p1 p2 d1 d2 c1 c2 layers :
  map var_initializer (param_list id1 p1 d1 c1 layers) =
  map var_initializer (param_list id2 p2 d2 c2 layers).
Proof.
  revert id1 id2; induction layers as [|[[n w] b] rest IH]; intros id1 id2.
  - reflexivity.
  - cbn. f_equal. f_equal. apply IH.
Qed.

Lemma param_list_names id prefix dev coll layers :
  map var_name (param_list id prefix dev coll layers) =
  map (fun r => String.concat "/" (prefix ++ r)) (relative_names layers).
Proof.
  revert id; induction layers as [|[[n w] b] rest IH]; intros id.
  - reflexivity.
  - cbn. f_equal. f_equal. apply IH.
Qed.

Lemma extend_nil g : extend g [] = g.
Proof. unfold extend. rewrite app_nil_r. destruct g; reflexivity. Qed.

(** One layer's block of a parameter builder, run on a graph that is
    [g0] with the variables [vs] added. *)
Lemma scope_pair_Ok name wshape bshape winit binit coll g0 vs r g' :
  with_variable_scope name (
    w <- get_variable "w" wshape winit coll ;;
    b <- get_variable "b" bshape binit coll ;;
    ret (w, b)) (extend g0 vs) = (Ok r, g') ->
  r = (mkVariable (length (variables g0) + length vs)
                  (String.concat "/" (scope g0 ++ [name; "w"]))
                  wshape winit coll true (device g0),
       mkVariable (S (length (variables g0) + length vs))
                  (String.concat "/" (scope g0 ++ [name; "b"]))
                  bshape binit coll true (device g0)) /\
  g' = extend g0 (vs ++ [fst r; snd r]).
Proof.
  unfold with_variable_scope, bind, get_variable, ret.
  set (g1 := set_scope (extend g0 vs) _).
  destruct (name_in_use g1 _); [discriminate|].
  set (g2 := add_variable g1 _).
  destruct (name_in_use g2 _); [discriminate|].
  intros H. inversion H; subst; clear H.
  subst g2 g1. unfold extend, scoped_name, add_variable, set_scope.
  cbn [variables placeholders operations scope device fst snd].
  rewrite !length_app, <- !app_assoc; cbn [length app]. rewrite Nat.add_1_r.
  split; reflexivity.
Qed.

Lemma scope_pair_Raise name wshape bshape winit binit coll g e g' :
  with_variable_scope name (
    w <- get_variable "w" wshape winit coll ;;
    b <- get_variable "b" bshape binit coll ;;
    ret (w, b)) g = (Raise e, g') ->
  exists msg, e = ValueError msg.
Proof.
  unfold with_variable_scope, bind, get_variable, ret.
  set (g0 := set_scope g (scope g ++ [name])).
  destruct (name_in_use g0 _); [intros H; inversion H; eauto|].
  set (g1 := add_variable g0 _).
  destruct (name_in_use g1 _); [intros H; inversion H; eauto|].
  discriminate.
Qed.

Ltac layer H :=
  let p := fresh "p" in
  let g1 := fresh "g" in
  let H1 := fresh "H" in
  step H p g1 H1; apply scope_pair_Ok in H1; destruct H1 as [-> ->];
  cbn [fst snd app length Nat.add] in H.

Lemma init_params_Ok v cfg shape out coll s g ps g' :
  _init_params (variant_class v) cfg shape out coll s g = (Ok ps, g') ->
  length shape = variant_rank v /\
  ps = param_list (length (variables g)) (scope g) (device g) coll
                  (layer_spec v shape out) /\
  g' = extend g ps.
Proof.
  rewrite <- (extend_nil g) at 1.
  destruct v; cbn [variant_class _init_params SimpleNetwork.class
                   ConvNetwork.class variant_rank].
  - unfold SimpleNetwork._init_params.
    destruct (length shape =? 1)%nat eqn:Hr; cbn [negb]; [|discriminate].
    apply Nat.eqb_eq in Hr. intros H. split; [exact Hr|].
    layer H. layer H. layer H.
    inversion H; subst; clear H.
    cbn [param_list layer_spec]. rewrite !Nat.add_succ_r, !Nat.add_0_r.
    split; reflexivity.
  - unfold ConvNetwork._init_params.
    destruct (length shape =? 3)%nat eqn:Hr; cbn [negb]; [|discriminate].
    apply Nat.eqb_eq in Hr. intros H. split; [exact Hr|].
    layer H. layer H. layer H. layer H. layer H.
    inversion H; subst; clear H.
    cbn [param_list layer_spec]. rewrite !Nat.add_succ_r, !Nat.add_0_r.
    split; reflexivity.
Qed.

(** The layer builders add nothing to the graph. *)
Lemma init_layers_graph v cfg x ps s g :
  snd (_init_layers (variant_class v) cfg x ps s g) = g.
Proof.
  destruct v; cbn [variant_class _init_layers SimpleNetwork.class
                   ConvNetwork.class].
  - unfold SimpleNetwork._init_layers.
    do 7 (destruct ps as [|? ps]; [reflexivity|]); reflexivity.
  - unfold ConvNetwork._init_layers.
    do 11 (destruct ps as [|? ps]; [reflexivity|]); reflexivity.
Qed.

Lemma init_layers_param_list v cfg x id prefix dev coll shape out s g :
  _init_layers (variant_class v) cfg x
               (param_list id prefix dev coll (layer_spec v shape out)) s g =
  (Ok (layers_of v cfg x
                 (param_list id prefix dev coll (layer_spec v shape out))), g).
Proof. destruct v; reflexivity. Qed.

Lemma mapM_assign l g :
  mapM (fun '(target_p, p) => assign target_p p) l g =
  (Ok (map (fun '(target_p, p) => Assign target_p (Var p)) l),
   extend_ops g (map (fun '(target_p, p) => Assign target_p (Var p)) l)).
Proof.
  revert g; induction l as [|[t p] l IH]; intros g.
  - cbn. unfold ret, extend_ops. rewrite app_nil_r. destruct g; reflexivity.
  - cbn [mapM map]. unfold bind at 1. unfold assign at 1, add_operation.
    unfold bind at 1. rewrite IH. unfold ret, extend_ops.
    cbn [variables placeholders operations scope device].
    rewrite <- app_assoc. reflexivity.
Qed.

(** [minimize] returns its operation exactly when it has variables, the
    loss reads one of them, and a synchronizing optimizer has its step
    counter; it adds that operation and nothing else. *)
Lemma minimize_Ok opt loss vars gs g op g' :
  Network.minimize opt loss vars gs g = (Ok op, g') ->
  op = Minimize opt loss vars gs /\ g' = extend_ops g [op] /\
  vars <> [] /\ existsb (reads loss) vars = true /\
  (forall o r i, opt = SyncReplicasOptimizer o r i -> gs <> None).
Proof.
  unfold Network.minimize, add_operation, extend_ops, raise.
  destruct vars as [|v vars]; [discriminate|].
  destruct (existsb (reads loss) (v :: vars)); cbn [negb]; [|discriminate].
  destruct opt, gs; intros H; inversion H; subst; clear H;
    (split; [reflexivity|]); (split; [reflexivity|]);
    (split; [discriminate|]); (split; [reflexivity|]);
    intros o r i E; discriminate.
Qed.

Lemma minimize_Raise opt loss vars gs g e g' :
  Network.minimize opt loss vars gs g = (Raise e, g') ->
  is_ValueError e /\ g' = g.
Proof.
  unfold Network.minimize, add_operation, raise, is_ValueError.
  destruct vars as [|v vars]; [intros H; inversion H; eauto|].
  destruct (existsb (reads loss) (v :: vars)); cbn [negb];
    [|intros H; inversion H; eauto].
  destruct opt, gs; intros H; inversion H; eauto.
Qed.

Lemma minimize_eq opt loss vars gs g :
  vars <> [] -> existsb (reads loss) vars = true ->
  (forall o r i, opt = SyncReplicasOptimizer o r i -> gs <> None) ->
  Network.minimize opt loss vars gs g =
  (Ok (Minimize opt loss vars gs),
   extend_ops g [Minimize opt loss vars gs]).
Proof.
  intros Hv Hr Hs. unfold Network.minimize, add_operation, extend_ops.
  destruct vars as [|v vars]; [contradiction|].
  rewrite Hr. cbn [negb].
  destruct opt; try reflexivity.
  destruct gs; [reflexivity|].
  exfalso. eapply Hs; reflexivity.
Qed.

Lemma init_optimizer_Ok cfg params loss reps gs s g op g' :
  Network._init_optimizer cfg params loss reps gs s g = (Ok op, g') ->
  exists opt, op = Minimize opt loss params gs /\ g' = extend_ops g [op].
Proof.
  unfold Network._init_optimizer, Network.optimizer_table, getattr.
  destruct (momentum cfg) as [m|]; [|discriminate].
  destruct (rmsprop_decay cfg) as [d|]; [|discriminate].
  unfold bind, ret.
  destruct (dict_get _ (optimizer cfg)) as [ctor|]; [|discriminate].
  intros H. apply minimize_Ok in H as (-> & -> & _). eauto.
Qed.

Lemma target_block_Ok v cfg x shape n tdev coll s g tparams tq g1 :
  with_variable_scope "target" (
    target_params <- with_device tdev (
      _init_params (variant_class v) cfg shape n (Some coll) s) ;;
    '(target_q_output, _) <-
      _init_layers (variant_class v) cfg x target_params s ;;
    ret (target_params, target_q_output)) g = (Ok (tparams, tq), g1) ->
  length shape = variant_rank v /\
  tparams = param_list (length (variables g)) (scope g ++ ["target"])
                       (device_requests tdev (device g)) (Some coll)
                       (layer_spec v shape n) /\
  tq = fst (layers_of v cfg x tparams) /\
  g1 = extend g tparams.
Proof.
  intros H1. rewrite with_variable_scope_eq in H1.
  inversion H1 as [[Hr Hg]]; clear H1.
  destruct (bind _ _ _) as [[[tp tq']|e] g2] eqn:Hb; [|discriminate].
  cbn [fst snd] in Hr. inversion Hr; subst tp tq'; clear Hr.
  step Hb tp g3 H3. rewrite with_device_eq in H3.
  inversion H3 as [[Hr3 Hg3]]; clear H3.
  destruct (_init_params _ _ _ _ _ _ _) as [[tp'|e] g4] eqn:Hp;
    [|discriminate].
  cbn [fst snd] in Hr3. inversion Hr3; subst tp'; clear Hr3.
  apply init_params_Ok in Hp; destruct Hp as (Hrank & Htp & Hg4).
  cbn [set_device set_scope variables scope device] in Htp.
  unfold bind in Hb. rewrite Htp in Hb at 1.
  rewrite init_layers_param_list in Hb. rewrite <- Htp in Hb.
  destruct (layers_of v cfg x tp) as [tq0 treg] eqn:Hl.
  unfold ret in Hb. inversion Hb; subst tparams tq0 g2; clear Hb.
  cbn [fst snd] in *.
  split; [exact Hrank|]. split; [exact Htp|].
  split; [rewrite Hl; reflexivity|].
  subst g1 g3 g4. unfold extend, set_scope, set_device.
  cbn [variables placeholders operations scope device fst snd]. reflexivity.
Qed.

Lemma init_target_network_Ok v cfg x shape n params ps wk s g r g' :
  Network._init_target_network (variant_class v) cfg x shape n params ps wk s g
    = (Ok r, g') ->
  let target :=
    param_list (length (variables g)) (scope g ++ ["target"])
               (device_requests
                  (if negb (disable_target_replication cfg) then wk else ps)
                  (device g))
               (Some (if negb (disable_target_replication cfg)
                      then [LOCAL_VARIABLES] else []))
               (layer_spec v shape n) in
  length shape = variant_rank v /\
  r = (fst (layers_of v cfg x target), assign_ops target params) /\
  g' = extend_ops (extend g target) (assign_ops target params).
Proof.
  unfold Network._init_target_network.
  destruct (negb (disable_target_replication cfg));
    cbv beta iota zeta; intros H;
    step H p1 g1 H1; destruct p1 as [tparams tq];
    apply target_block_Ok in H1; destruct H1 as (Hrank & Htp & Htq & Hg1);
    unfold bind in H; rewrite mapM_assign in H; unfold ret in H;
    inversion H; subst r g'; clear H;
    rewrite <- Htp; subst tq g1; auto.
Qed.

Lemma network_table_get cfg Net :
  dict_get [("simple", SimpleNetwork.class); ("cnn", ConvNetwork.class)]
           (network cfg) = Some Net ->
  exists v, network cfg = variant_key v /\ Net = variant_class v.
Proof.
  cbn [dict_get].
  destruct (String.eqb_spec "simple" (network cfg)) as [E|_].
  - intros H; inversion H; exists Simple; auto.
  - destruct (String.eqb_spec "cnn" (network cfg)) as [E|_]; [|discriminate].
    intros H; inversion H; exists Convolutional; auto.
Qed.

(** What a successful run of the factory returns, and the graph it
    leaves. *)
Lemma create_network_Ok cfg shape n reps ps wk g net g' :
  Network.create_network cfg shape n reps ps wk g = (Ok net, g') ->
  exists v opt,
    network cfg = variant_key v /\
    length shape = variant_rank v /\
    let x := x_of shape g in
    let online := online_of v shape n ps g in
    let gs := step_of v shape n ps g in
    let target := target_of v cfg shape n ps wk g in
    let loss := loss_of v cfg shape n ps g in
    let train := Minimize opt loss online (Some gs) in
    net = Network.mk (variant_class v) shape n reps ps wk
            (Some x) (Some (q_of g)) (Some (action_of n g))
            (Some (fst (layers_of v cfg x online)))
            (Some train)
            (Some (fst (layers_of v cfg x target)))
            (Some (assign_ops target online))
            (Some (MergeSummary [ScalarSummary "loss" loss]))
            (Some gs) /\
    g' = mkGraph (variables g ++ online ++ gs :: target)
                 (placeholders g ++
                    [None :: map Some shape; [None]; [None; Some n]])
                 (operations g ++ train :: assign_ops target online)
                 (scope g) (device g).
Proof.
  unfold Network.create_network.
  destruct (dict_get _ (network cfg)) as [Net|] eqn:HNet; [|discriminate].
  apply network_table_get in HNet as (v & Hkey & ->).
  intros H. exists v.
  unfold Network._init_network, Network.__init__ in H.
  cbn [Network.cls Network.input_shape Network.num_actions
       Network.num_replicas Network.ps_device Network.worker_device] in H.
  step H x g1 H1. unfold placeholder in H1; inversion H1; subst x g1; clear H1.
  step H qp g2 H2. unfold placeholder in H2; inversion H2; subst qp g2; clear H2.
  step H act g3 H3. unfold placeholder in H3; inversion H3; subst act g3; clear H3.
  cbn [variables placeholders operations scope device] in H.
  step H params g4 H4. rewrite with_device_eq in H4.
  inversion H4 as [[Hr4 Hg4]]; clear H4.
  destruct (_init_params _ _ _ _ _ _ _) as [[params'|e] g5] eqn:Hp;
    [|discriminate].
  cbn [fst snd] in Hr4, Hg4. inversion Hr4; subst params'; clear Hr4.
  apply init_params_Ok in Hp. destruct Hp as (Hrank & Hparams & Hg5).
  cbn [set_device variables placeholders operations scope device] in Hparams.
  fold (online_of v shape n ps g) in Hparams.
  fold (x_of shape g) in H.
  assert (Hlayers : forall s0 g0,
             _init_layers (variant_class v) cfg (x_of shape g) params s0 g0 =
             (Ok (layers_of v cfg (x_of shape g) params), g0)).
  { intros; rewrite Hparams; apply init_layers_param_list. }
  unfold bind at 1 in H. rewrite Hlayers in H.
  destruct (layers_of v cfg (x_of shape g) params) as [q reg] eqn:Hl.
  step H gs g6 H6. unfold tf_Variable in H6. inversion H6; subst gs g6; clear H6.
  destruct (Network._init_loss _ _ _ _ _ _) as [loss summaries] eqn:Hloss in H.
  step H train g7 H7. apply init_optimizer_Ok in H7 as (opt & -> & ->).
  step H tr g8 H8. apply init_target_network_Ok in H8.
  cbv zeta in H8. destruct H8 as (_ & -> & ->).
  unfold ret in H. inversion H; subst net g'; clear H.
  exists opt. split; [exact Hkey|]. split; [exact Hrank|].
  cbv zeta.
  assert (Hv4 : variables g4 = (variables g ++ params)%list)
    by (subst g4 g5; reflexivity).
  assert (Hs4 : scope g4 = scope g) by (subst g4 g5; reflexivity).
  assert (Hd4 : device g4 = device g) by (subst g4 g5; reflexivity).
  assert (Hp4 : placeholders g4 =
                (placeholders g ++
                   [None :: map Some shape; [None]; [None; Some n]])%list).
  { subst g4 g5. cbn [extend set_device placeholders].
    rewrite <- !app_assoc. reflexivity. }
  assert (Ho4 : operations g4 = operations g) by (subst g4 g5; reflexivity).
  clear Hg4 Hg5.
  unfold Network._init_loss in Hloss.
  inversion Hloss; subst loss summaries; clear Hloss.
  unfold loss_of, step_of, target_of, q_of, action_of, scoped_name,
         extend_ops, extend, add_variable, Network._init_loss.
  cbn [variables placeholders operations scope device].
  rewrite Hv4, Hs4, Hd4, Hp4, Ho4, <- Hparams, Hl, !length_app.
  cbn [length fst snd app]. rewrite !Nat.add_1_r, <- !app_assoc.
  cbn [app]. split; reflexivity.
Qed.

(** On a fresh graph, a supported configuration and an input shape of
    the rank the variant requires, the factory returns a network. *)
Lemma create_network_total v cfg shape n reps ps wk g m d :
  fresh g ->
  network cfg = variant_key v ->
  length shape = variant_rank v ->
  In (optimizer cfg) supported_optimizers ->
  momentum cfg = Some m ->
  rmsprop_decay cfg = Some d ->
  exists net g', Network.create_network cfg shape n reps ps wk g = (Ok net, g').
Proof.
  intros [Hv Hs] Hkey Hrank Hopt Hm Hd.
  destruct cfg as [net opt lr0 mo de reg sy tid dis].
  destruct g as [vs pls ops sc dev].
  cbn [network optimizer momentum rmsprop_decay variables scope] in *.
  subst net mo de vs sc.
  unfold supported_optimizers in Hopt. cbn [In] in Hopt.
  destruct v; cbn [variant_rank variant_key] in *.
  - destruct shape as [|a [|b shape]]; try discriminate.
    destruct dis, sy;
      repeat (destruct Hopt as [<- | Hopt]; [
        match goal with
        | |- exists net g', ?c = _ =>
          let r := eval vm_compute in c in
          match r with
          | (Ok ?a, ?b) => exists a, b; vm_cast_no_check (eq_refl r)
          end
        end |]); destruct Hopt.
  - destruct shape as [|a [|b [|c [|e shape]]]]; try discriminate.
    destruct dis, sy;
      repeat (destruct Hopt as [<- | Hopt]; [
        match goal with
        | |- exists net g', ?c = _ =>
          let r := eval vm_compute in c in
          match r with
          | (Ok ?a, ?b) => exists a, b; vm_cast_no_check (eq_refl r)
          end
        end |]); destruct Hopt.
Qed.

(** ** Facts about the assembled pieces *)

Lemma flat_map_assigned targets onlines :
  length targets = length onlines ->
  flat_map assigned (assign_ops targets onlines) = targets.
Proof.
  unfold assign_ops. revert onlines.
  induction targets as [|t ts IH]; intros [|p os] Hlen; try discriminate.
  - reflexivity.
  - cbn. f_equal. apply IH. now inversion Hlen.
Qed.

Lemma assign_ops_length targets onlines :
  length targets = length onlines ->
  length (assign_ops targets onlines) = length onlines.
Proof.
  intros H. unfold assign_ops. rewrite length_map, length_combine. lia.
Qed.

Lemma assign_ops_nth targets onlines i t p :
  nth_error targets i = Some t ->
  nth_error onlines i = Some p ->
  nth_error (assign_ops targets onlines) i = Some (Assign t (Var p)).
Proof.
  unfold assign_ops. revert onlines i.
  induction targets as [|t0 ts IH]; intros [|p0 os] [|i] Ht Hp;
    try discriminate.
  - cbn in *. congruence.
  - cbn in *. now apply IH.
Qed.

Lemma online_target_length v cfg shape n ps wk g :
  length (target_of v cfg shape n ps wk g) = length (online_of v shape n ps g).
Proof. unfold target_of, online_of. now rewrite !param_list_length. Qed.

Lemma variables_of_layers v cfg x id prefix dev coll shape out :
  variables_of (fst (layers_of v cfg x
                       (param_list id prefix dev coll (layer_spec v shape out))))
  = (variables_of x ++ param_list id prefix dev coll (layer_spec v shape out))%list.
Proof.
  destruct v; cbn; rewrite <- ?app_assoc; reflexivity.
Qed.

Lemma placeholders_of_layers v cfg x id prefix dev coll shape out :
  Semantics.placeholders_of
    (fst (layers_of v cfg x
            (param_list id prefix dev coll (layer_spec v shape out))))
  = Semantics.placeholders_of x.
Proof.
  destruct v; cbn; rewrite ?app_nil_r; reflexivity.
Qed.

(** The value of a tensor depends on the feed only through the
    placeholders it is computed from. *)
Lemma eval_placeholders feed1 feed2 store t :
  (forall id, In id (Semantics.placeholders_of t) -> feed1 id = feed2 id) ->
  Semantics.eval feed1 store t = Semantics.eval feed2 store t.
Proof.
  induction t; cbn [Semantics.eval Semantics.placeholders_of]; intros H;
    try reflexivity;
    try (rewrite IHt1, IHt2;
         [reflexivity
         | intros; apply H, in_or_app; right; assumption
         | intros; apply H, in_or_app; left; assumption]);
    try (rewrite IHt by exact H; reflexivity).
  apply H. now left.
Qed.

(** The parameter sequences of a successfully assembled network: the
    online parameters are the variables the online output reads, the
    target parameters those the target output reads. *)
Lemma create_network_params cfg shape n reps ps wk g net g' :
  Network.create_network cfg shape n reps ps wk g = (Ok net, g') ->
  exists v,
    network cfg = variant_key v /\
    length shape = variant_rank v /\
    online_params net = online_of v shape n ps g /\
    target_params net = target_of v cfg shape n ps wk g /\
    Network.global_step net = Some (step_of v shape n ps g) /\
    Network.target_update_ops net =
      Some (assign_ops (target_of v cfg shape n ps wk g)
                       (online_of v shape n ps g)) /\
    (exists opt, Network.train_op net =
       Some (Minimize opt (loss_of v cfg shape n ps g)
                      (online_of v shape n ps g)
                      (Some (step_of v shape n ps g)))) /\
    (exists q tq,
       Network.q_output net = Some q /\
       Network.target_q_output net = Some tq /\
       variables_of q = online_params net /\
       variables_of tq = target_params net).
Proof.
  intros H. apply create_network_Ok in H.
  destruct H as (v & opt & Hkey & Hrank & Hnet & _).
  cbv zeta in Hnet. exists v. subst net.
  unfold online_params, target_params.
  cbn [Network.train_op Network.target_update_ops Network.global_step
       Network.q_output Network.target_q_output].
  rewrite flat_map_assigned by apply online_target_length.
  do 6 (split; [eauto|]). split; [eauto|].
  do 2 eexists. split; [reflexivity|]. split; [reflexivity|].
  unfold online_of, target_of, x_of.
  rewrite !variables_of_layers. split; reflexivity.
Qed.

(** Evaluates a construction [c] that succeeds and provides the network
    and the graph of a goal [exists net g', c = (Ok net, g') /\ _]. *)
Ltac run_construction :=
  match goal with
  | |- exists net g', ?c = _ /\ _ =>
    let r := eval vm_compute in c in
    match r with
    | (Ok ?a, ?b) =>
      exists a, b; split; [vm_cast_no_check (eq_refl r)|]
    end
  end.

(** ** The optimizer builder *)

Lemma dict_get_absent {V} (d : list (string * V)) key :
  ~ In key (map fst d) -> dict_get d key = None.
Proof.
  induction d as [|[k x] d IH]; intros Hn; [reflexivity|].
  cbn [dict_get]. destruct (String.eqb_spec k key) as [->|_].
  - exfalso. apply Hn. now left.
  - apply IH. intros Hin. apply Hn. now right.
Qed.

(** The builder, case by case. *)
Lemma init_optimizer_eq cfg params loss reps gs s g :
  Network._init_optimizer cfg params loss reps gs s g =
  match momentum cfg, rmsprop_decay cfg with
  | None, _ => (Raise (AttributeError "momentum"), g)
  | Some _, None => (Raise (AttributeError "rmsprop_decay"), g)
  | Some m, Some d =>
    match dict_get (optimizer_constructors m d) (optimizer cfg) with
    | None =>
      (Raise (RuntimeError ("Unsupported optimizer " ++ optimizer cfg)), g)
    | Some ctor =>
      Network.minimize (wrapped cfg reps (ctor (lr cfg))) loss params gs g
    end
  end.
Proof.
  unfold Network._init_optimizer, Network.optimizer_table, getattr.
  destruct (momentum cfg) as [m|]; [|reflexivity].
  destruct (rmsprop_decay cfg) as [d|]; [|reflexivity].
  unfold bind, ret. fold (optimizer_constructors m d).
  destruct (dict_get _ (optimizer cfg)) as [ctor|]; reflexivity.
Qed.

(** The constructor the table holds for a name. *)
Lemma optimizer_constructor_cases m d name :
  (exists ctor,
     dict_get (optimizer_constructors m d) name = Some ctor /\
     (name = "adadelta" /\ ctor = AdadeltaOptimizer \/
      name = "adagrad" /\ ctor = AdagradOptimizer \/
      name = "adam" /\ ctor = AdamOptimizer \/
      name = "ftrl" /\ ctor = FtrlOptimizer \/
      name = "sgd" /\ ctor = GradientDescentOptimizer \/
      name = "momentum" /\
        ctor = (fun learning_rate => MomentumOptimizer learning_rate m) \/
      name = "rmsprop" /\
        ctor = (fun learning_rate => RMSPropOptimizer learning_rate d))) \/
  (~ In name supported_optimizers /\
   dict_get (optimizer_constructors m d) name = None).
Proof.
  unfold optimizer_constructors. cbn [dict_get].
  repeat match goal with
         | |- context [String.eqb ?k name] =>
           destruct (String.eqb_spec k name) as [<-|?];
             [left; eexists; split; [reflexivity|]; tauto|]
         end.
  right. split; [|reflexivity].
  cbn [supported_optimizers In]. intuition congruence.
Qed.

(** ** Which exceptions a construction can raise *)

Lemma raises_only_weaken {A} (P Q : Exception -> Prop) (c : M A) :
  (forall e, P e -> Q e) -> raises_only P c -> raises_only Q c.
Proof. intros HPQ Hc g e g' H. apply HPQ. eapply Hc; eauto. Qed.

Lemma raises_only_ret {A} P (a : A) : raises_only P (ret a).
Proof. intros g e g' H. discriminate H. Qed.

Lemma raises_only_bind {A B} P (c : M A) (k : A -> M B) :
  raises_only P c -> (forall a, raises_only P (k a)) ->
  raises_only P (bind c k).
Proof.
  intros Hc Hk g e g' H. apply bind_Raise in H.
  destruct H as [H | (a & g1 & _ & H)]; [eapply Hc | eapply Hk]; eauto.
Qed.

Lemma raises_only_with_variable_scope {A} P name (body : M A) :
  raises_only P body -> raises_only P (with_variable_scope name body).
Proof.
  intros Hb g e g' H. rewrite with_variable_scope_eq in H.
  destruct (body _) as [r g1] eqn:E. cbn [fst snd] in H.
  inversion H; subst. eapply Hb; eauto.
Qed.

Lemma raises_only_with_device {A} P d (body : M A) :
  raises_only P body -> raises_only P (with_device d body).
Proof.
  intros Hb g e g' H. rewrite with_device_eq in H.
  destruct (body _) as [r g1] eqn:E. cbn [fst snd] in H.
  inversion H; subst. eapply Hb; eauto.
Qed.

Lemma raises_only_scope_pair name wshape bshape winit binit coll :
  raises_only is_ValueError
    (with_variable_scope name (
       w <- get_variable "w" wshape winit coll ;;
       b <- get_variable "b" bshape binit coll ;;
       ret (w, b))).
Proof. intros g e g' H. eapply scope_pair_Raise; eauto. Qed.

Ltac raises_layer :=
  apply raises_only_bind;
  [apply raises_only_scope_pair | intros [? ?]; cbn beta iota].

Lemma init_params_raises v cfg shape out coll s :
  length shape = variant_rank v ->
  raises_only is_ValueError (_init_params (variant_class v) cfg shape out coll s).
Proof.
  intros Hrank.
  destruct v; cbn [variant_class _init_params SimpleNetwork.class
                   ConvNetwork.class variant_rank] in *.
  - unfold SimpleNetwork._init_params. rewrite Hrank. cbn [Nat.eqb negb].
    do 3 raises_layer. apply raises_only_ret.
  - unfold ConvNetwork._init_params. rewrite Hrank. cbn [Nat.eqb negb].
    do 5 raises_layer. apply raises_only_ret.
Qed.

Lemma init_layers_raises v cfg x ps s :
  raises_only is_ValueError (_init_layers (variant_class v) cfg x ps s).
Proof.
  intros g e g' H.
  destruct v; cbn [variant_class _init_layers SimpleNetwork.class
                   ConvNetwork.class] in H.
  - unfold SimpleNetwork._init_layers in H.
    do 7 (destruct ps as [|? ps]; [inversion H; eexists; reflexivity|]).
    inversion H; eexists; reflexivity.
  - unfold ConvNetwork._init_layers in H.
    do 11 (destruct ps as [|? ps]; [inversion H; eexists; reflexivity|]).
    inversion H; eexists; reflexivity.
Qed.

Lemma init_optimizer_raises cfg params loss reps gs s :
  raises_only (fun e => ~ is_shape_mismatch e)
              (Network._init_optimizer cfg params loss reps gs s).
Proof.
  intros g e g' H. rewrite init_optimizer_eq in H.
  destruct (momentum cfg); [destruct (rmsprop_decay cfg)|];
    [destruct (dict_get _ _)|..];
    [apply minimize_Raise in H as [[msg ->] _]|..];
    try (inversion H; subst); intros [E|E]; discriminate E.
Qed.

Lemma ValueError_not_shape_mismatch e :
  is_ValueError e -> ~ is_shape_mismatch e.
Proof. intros [msg ->] [E|E]; discriminate E. Qed.

Lemma init_target_network_raises v cfg x shape n params ps wk s :
  length shape = variant_rank v ->
  raises_only is_ValueError
    (Network._init_target_network (variant_class v) cfg x shape n params
                                  ps wk s).
Proof.
  intros Hrank. unfold Network._init_target_network.
  destruct (negb (disable_target_replication cfg)); cbv beta iota zeta;
    (apply raises_only_bind;
     [ apply raises_only_with_variable_scope, raises_only_bind;
       [ apply raises_only_with_device, init_params_raises; exact Hrank
       | intros tp; apply raises_only_bind;
         [ apply init_layers_raises
         | intros [? ?]; apply raises_only_ret ] ]
     | intros [tp tq]; intros g e g' H; unfold bind in H;
       rewrite mapM_assign in H; discriminate H ]).
Qed.

Lemma init_network_raises v cfg shape n reps ps wk :
  length shape = variant_rank v ->
  raises_only (fun e => ~ is_shape_mismatch e)
    (Network._init_network
       (Network.__init__ (variant_class v) shape n reps ps wk) cfg).
Proof.
  intros Hrank. unfold Network._init_network, Network.__init__.
  cbn [Network.cls Network.input_shape Network.num_actions
       Network.num_replicas Network.ps_device Network.worker_device].
  apply raises_only_bind; [intros g e g' H; discriminate H | intros x].
  apply raises_only_bind; [intros g e g' H; discriminate H | intros qp].
  apply raises_only_bind; [intros g e g' H; discriminate H | intros act].
  apply raises_only_bind.
  { apply raises_only_with_device.
    eapply raises_only_weaken; [apply ValueError_not_shape_mismatch|].
    apply init_params_raises; exact Hrank. }
  intros params. apply raises_only_bind.
  { eapply raises_only_weaken; [apply ValueError_not_shape_mismatch|].
    apply init_layers_raises. }
  intros [q reg]. apply raises_only_bind;
    [intros g e g' H; discriminate H | intros gs].
  destruct (Network._init_loss _ _ _ _ _ _) as [loss summaries].
  apply raises_only_bind; [apply init_optimizer_raises | intros train].
  apply raises_only_bind.
  { eapply raises_only_weaken; [apply ValueError_not_shape_mismatch|].
    apply init_target_network_raises; exact Hrank. }
  intros [tq ops]. apply raises_only_ret.
Qed.

(** The factory on an input shape of the wrong rank. *)
Lemma create_network_wrong_rank v cfg shape n reps ps wk g :
  network cfg = variant_key v ->
  length shape <> variant_rank v ->
  exists g',
    Network.create_network cfg shape n reps ps wk g =
    (Raise (RuntimeError
              (match v with Simple => "SimpleNetwork expects 1-d input"
                          | Convolutional => "type expects 3-d input" end)),
     g').
Proof.
  intros Hkey Hrank. unfold Network.create_network. rewrite Hkey.
  apply Nat.eqb_neq in Hrank.
  destruct v; cbn [variant_key dict_get String.eqb Ascii.eqb Bool.eqb
                   variant_rank] in *;
    unfold Network._init_network, Network.__init__;
    cbn [Network.cls Network.input_shape Network.num_actions
         Network.num_replicas Network.ps_device Network.worker_device];
    unfold bind at 1; unfold placeholder at 1;
    unfold bind at 1; unfold placeholder at 1;
    unfold bind at 1; unfold placeholder at 1;
    unfold bind at 1; rewrite with_device_eq;
    cbn [_init_params SimpleNetwork.class ConvNetwork.class];
    [unfold SimpleNetwork._init_params | unfold ConvNetwork._init_params];
    rewrite Hrank; cbn [negb raise fst snd]; eexists; reflexivity.
Qed.

(** ** Running the training and the target-update operations *)

Section Runs.
Import Semantics.
Variable gradients : Tensor -> TFVariable -> Feed -> Store -> option value.
Variable update : Optimizer -> TFVariable -> value -> value -> value.
Variable next : Optimizer -> value -> value.

Lemma write_same s v x : write s v x (var_id v) = x.
Proof. unfold write. now rewrite Nat.eqb_refl. Qed.

Lemma write_other s v x i : i <> var_id v -> write s v x i = s i.
Proof.
  intros H. unfold write. apply Nat.eqb_neq in H. now rewrite H.
Qed.

(** The writes of a minimization step leave alone every variable that is
    not in the list. *)
Lemma fold_write_other (f : TFVariable -> value) vars s i :
  ~ In i (map var_id vars) ->
  fold_left (fun acc v => write acc v (f v)) vars s i = s i.
Proof.
  revert s; induction vars as [|v vars IH]; intros s Hn; [reflexivity|].
  cbn [fold_left]. rewrite IH.
  - apply write_other. intros E. apply Hn. left. symmetry; exact E.
  - intros Hin. apply Hn. right. exact Hin.
Qed.

(** ... and give every variable of the list, ids being distinct, its new
    value. *)
Lemma fold_write_in (f : TFVariable -> value) vars s p :
  NoDup (map var_id vars) -> In p vars ->
  fold_left (fun acc v => write acc v (f v)) vars s (var_id p) = f p.
Proof.
  revert s; induction vars as [|v vars IH]; intros s Hnd Hin; [destruct Hin|].
  cbn [map] in Hnd. inversion Hnd as [|? ? Hnotin Hnd']; subst.
  cbn [fold_left]. destruct Hin as [->|Hin].
  - rewrite fold_write_other by exact Hnotin. apply write_same.
  - apply IH; assumption.
Qed.

(** A training step that runs: every placeholder of the loss was fed,
    every variable of the list that the loss reads had a gradient, and
    the store is the old one with those variables and the step counter
    written. *)
Lemma run_minimize opt loss vars gs feed s s' :
  run gradients update next (Minimize opt loss vars (Some gs)) feed s
    = Some s' ->
  (forall id, In id (placeholders_of loss) -> feed id <> None) /\
  (forall v, In v vars -> reads loss v = true ->
     exists grad, gradients loss v feed s = Some grad) /\
  s' = write
         (fold_left
            (fun acc v =>
               write acc v (apply_gradient update opt v (s (var_id v))
                              (gradient_of gradients loss v feed s)))
            (filter (reads loss) vars) s)
         gs (next opt (s (var_id gs))).
Proof.
  cbn [run].
  destruct (forallb _ (placeholders_of loss)) eqn:Hfed;
    [|discriminate].
  destruct (forallb _ (filter (reads loss) vars)) eqn:Hgrad;
    [|discriminate].
  cbn [andb]. intros H. inversion H; subst; clear H.
  split; [|split; [|reflexivity]].
  - intros id Hid. rewrite forallb_forall in Hfed.
    specialize (Hfed id Hid). destruct (feed id); discriminate.
  - intros v Hv Hr. rewrite forallb_forall in Hgrad.
    specialize (Hgrad v). rewrite filter_In in Hgrad.
    specialize (Hgrad (conj Hv Hr)).
    destruct (gradients loss v feed s) as [grad|]; [eauto|discriminate].
Qed.

(** Running the target-update operations copies each online parameter
    into the target parameter at its position and changes no other
    variable. *)
Lemma run_all_assign_ops targets onlines feed s :
  length targets = length onlines ->
  NoDup (map var_id targets) ->
  (forall t p, In t targets -> In p onlines -> var_id t <> var_id p) ->
  exists s',
    run_all gradients update next (assign_ops targets onlines) feed s
      = Some s' /\
    (forall i t p,
       nth_error targets i = Some t -> nth_error onlines i = Some p ->
       s' (var_id t) = s (var_id p)) /\
    (forall j, ~ In j (map var_id targets) -> s' j = s j).
Proof.
  revert onlines s.
  induction targets as [|t ts IH]; intros [|p os] s Hlen Hnd Hdisj;
    try discriminate.
  - exists s. split; [reflexivity|]. split; [|reflexivity].
    intros [|i] ? ? H; discriminate H.
  - cbn [map] in Hnd. inversion Hnd as [|? ? Hnotin Hnd']; subst.
    destruct (IH os (write s t (s (var_id p)))) as (s' & Hrun & Hcopy & Hrest).
    + now inversion Hlen.
    + exact Hnd'.
    + intros t' p' Ht' Hp'. apply Hdisj; now right.
    + exists s'. split; [exact Hrun|]. split.
      * intros [|i] t' p' Ht' Hp'; cbn [nth_error] in Ht', Hp'.
        -- inversion Ht'; inversion Hp'; subst t' p'.
           rewrite Hrest by exact Hnotin. apply write_same.
        -- rewrite (Hcopy i t' p' Ht' Hp'). apply write_other.
           intros E. apply (Hdisj t p'); [now left | | symmetry; exact E].
           right. eapply nth_error_In; eauto.
      * intros j Hj. rewrite Hrest.
        -- apply write_other. intros E. apply Hj. left. symmetry; exact E.
        -- intros Hin. apply Hj. right. exact Hin.
Qed.

End Runs.

(** The ids of the pieces of an assembled network. *)
Lemma online_ids v shape n ps g :
  map var_id (online_of v shape n ps g) =
  seq (length (variables g)) (length (online_of v shape n ps g)).
Proof.
  unfold online_of. rewrite param_list_length. apply param_list_ids.
Qed.

Lemma target_ids v cfg shape n ps wk g :
  map var_id (target_of v cfg shape n ps wk g) =
  seq (S (length (variables g) + length (online_of v shape n ps g)))
      (length (online_of v shape n ps g)).
Proof.
  unfold target_of, online_of. rewrite !param_list_length.
  apply param_list_ids.
Qed.

Lemma in_ids (vars : list TFVariable) p :
  In p vars -> In (var_id p) (map var_id vars).
Proof. apply in_map. Qed.

Lemma penalty_variables v cfg x id prefix dev coll shape out :
  incl (variables_of
          (snd (layers_of v cfg x
                  (param_list id prefix dev coll (layer_spec v shape out)))))
       (param_list id prefix dev coll (layer_spec v shape out)).
Proof.
  unfold incl. destruct v; cbn; intros p Hp;
    repeat (destruct Hp as [<-|Hp]; [auto 12|]); destruct Hp.
Qed.

Lemma penalty_placeholders v cfg x id prefix dev coll shape out :
  Semantics.placeholders_of
    (snd (layers_of v cfg x
            (param_list id prefix dev coll (layer_spec v shape out)))) = [].
Proof. destruct v; reflexivity. Qed.

Lemma target_ids_NoDup v cfg shape n ps wk g :
  NoDup (map var_id (target_of v cfg shape n ps wk g)).
Proof. rewrite target_ids. apply seq_NoDup. Qed.

Lemma online_target_disjoint v cfg shape n ps wk g t p :
  In t (target_of v cfg shape n ps wk g) ->
  In p (online_of v shape n ps g) ->
  var_id t <> var_id p.
Proof.
  intros Ht Hp. apply in_ids in Ht, Hp.
  rewrite target_ids in Ht. rewrite online_ids in Hp.
  apply in_seq in Ht, Hp. lia.
Qed.

Lemma loss_variables v cfg shape n ps g p :
  In p (variables_of (loss_of v cfg shape n ps g)) <->
  In p (online_of v shape n ps g).
Proof.
  unfold loss_of, Network._init_loss, online_of.
  cbn [fst variables_of q_of action_of x_of app].
  rewrite !app_nil_r, variables_of_layers. cbn [variables_of app].
  rewrite in_app_iff. split; [|now left].
  intros [H|H]; [exact H|]. eapply penalty_variables; exact H.
Qed.

Lemma loss_placeholders v cfg shape n ps g :
  Semantics.placeholders_of (loss_of v cfg shape n ps g) =
  (Semantics.placeholders_of (x_of shape g) ++
   Semantics.placeholders_of (action_of n g) ++
   Semantics.placeholders_of (q_of g))%list.
Proof.
  unfold loss_of, Network._init_loss, online_of.
  cbn [fst Semantics.placeholders_of q_of action_of x_of app].
  rewrite placeholders_of_layers, penalty_placeholders. reflexivity.
Qed.

Lemma online_ids_NoDup v shape n ps g :
  NoDup (map var_id (online_of v shape n ps g)).
Proof. rewrite online_ids. apply seq_NoDup. Qed.

Lemma step_not_online v shape n ps g p :
  In p (online_of v shape n ps g) ->
  var_id p <> var_id (step_of v shape n ps g).
Proof.
  intros Hp. apply in_ids in Hp. rewrite online_ids in Hp.
  apply in_seq in Hp. cbn [step_of var_id]. lia.
Qed.

Lemma step_not_target v cfg shape n ps wk g t :
  In t (target_of v cfg shape n ps wk g) ->
  var_id t <> var_id (step_of v shape n ps g).
Proof.
  intros Ht. apply in_ids in Ht. rewrite target_ids in Ht.
  apply in_seq in Ht. cbn [step_of var_id]. lia.
Qed.

Lemma reads_In t v : In v (variables_of t) -> reads t v = true.
Proof.
  intros H. unfold reads. apply existsb_exists.
  exists v. split; [exact H | apply Nat.eqb_refl].
Qed.

(** The loss reads every online parameter. *)
Lemma loss_reads_online v cfg shape n ps g p :
  In p (online_of v shape n ps g) ->
  reads (loss_of v cfg shape n ps g) p = true.
Proof. intros Hp. apply reads_In, loss_variables, Hp. Qed.

Lemma filter_all {A} (f : A -> bool) l :
  (forall x, In x l -> f x = true) -> filter f l = l.
Proof.
  induction l as [|a l IH]; intros H; [reflexivity|].
  cbn [filter]. rewrite (H a) by now left.
  f_equal. apply IH. intros x Hx. apply H. now right.
Qed.

(** ** The two variants *)

Lemma simple_params_total cfg shape out coll s g :
  length shape = 1%nat -> fresh g ->
  exists ps g', SimpleNetwork._init_params cfg shape out coll s g = (Ok ps, g').
Proof.
  intros Hrank [Hv Hs]. destruct g as [vs pls ops sc dev].
  cbn [variables scope] in Hv, Hs. subst vs sc.
  destruct shape as [|a [|b shape]]; try discriminate.
  match goal with
  | |- exists ps g', ?c = _ =>
    let r := eval vm_compute in c in
    match r with
    | (Ok ?a, ?b) => exists a, b; vm_cast_no_check (eq_refl r)
    end
  end.
Qed.

(** ** The claims *)

(** C1 (as amended). The target-network assembler produces one
    assignment per online parameter tensor, that is two per (weight,
    bias) pair: six for the simple variant and ten for the convolutional
    one. The operation at each position assigns the current value of the
    online parameter at that position to the target parameter at that
    position. On a fresh graph and valid input the assembly succeeds. *)
Theorem C1_one_update_per_parameter_tensor cfg shape n reps ps wk g :
  (forall net g',
     Network.create_network cfg shape n reps ps wk g = (Ok net, g') ->
     exists q tq ops,
       Network.q_output net = Some q /\
       Network.target_q_output net = Some tq /\
       variables_of q = online_params net /\
       variables_of tq = target_params net /\
       Network.target_update_ops net = Some ops /\
       ops = assign_ops (target_params net) (online_params net) /\
       length (target_params net) = length (online_params net) /\
       length ops = length (online_params net) /\
       (network cfg = "simple" -> length ops = (2 * 3)%nat) /\
       (network cfg = "cnn" -> length ops = (2 * 5)%nat) /\
       (forall i t p,
          nth_error (target_params net) i = Some t ->
          nth_error (online_params net) i = Some p ->
          nth_error ops i = Some (Assign t (Var p)) /\
          forall gradients update next feed store,
            Semantics.run gradients update next (Assign t (Var p)) feed store
            = Some (Semantics.write store t (store (var_id p))))) /\
  (forall v, fresh g -> valid_input v cfg shape n ->
     exists net g',
       Network.create_network cfg shape n reps ps wk g = (Ok net, g')).
Proof.
  split.
  - intros net g' H. apply create_network_params in H.
    destruct H as (v & Hkey & Hrank & Hon & Htg & _ & Hops & _ &
                   q & tq & Hq & Htq & Hvq & Hvtq).
    exists q, tq, (assign_ops (target_params net) (online_params net)).
    do 4 (split; [assumption|]).
    rewrite Hon, Htg.
    assert (Hlen := online_target_length v cfg shape n ps wk g).
    split; [exact Hops|]. split; [reflexivity|]. split; [exact Hlen|].
    rewrite assign_ops_length by exact Hlen.
    split; [reflexivity|].
    unfold online_of at 1 2. rewrite param_list_length.
    split; [|split].
    + intros Hs. rewrite Hs in Hkey. destruct v; [reflexivity|discriminate].
    + intros Hs. rewrite Hs in Hkey. destruct v; [discriminate|reflexivity].
    + intros i t p Ht Hp. split; [now apply assign_ops_nth|reflexivity].
  - intros v Hf (Hkey & Hrank & Hopt & [m Hm] & [d Hd] & _ & _).
    eapply create_network_total; eauto.
Qed.

(** C1, witness: the simple variant on four inputs and two actions. *)
Lemma C1_witness :
  exists net g' ops,
    Network.create_network simple_config [4%N] 2 1 None None empty_graph
      = (Ok net, g') /\
    Network.target_update_ops net = Some ops /\
    length ops = 6%nat.
Proof.
  destruct (proj2 (C1_one_update_per_parameter_tensor
                     simple_config [4%N] 2 1 None None empty_graph) Simple)
    as (net & g' & E).
  - split; reflexivity.
  - unfold valid_input, simple_config, supported_optimizers; cbn.
    repeat split; eauto 10. repeat constructor.
  - destruct (proj1 (C1_one_update_per_parameter_tensor
                       simple_config [4%N] 2 1 None None empty_graph) net g' E)
      as (q & tq & ops & _ & _ & _ & _ & Hops & _ & _ & _ & Hs & _).
    exists net, g', ops. specialize (Hs eq_refl).
    repeat split; auto.
Defined.

(** C1 as stated fails: on the simple variant, which has three (weight,
    bias) pairs, the assembler produces six target-update operations. *)
Lemma C1_counterexample :
  exists net g',
    Network.create_network simple_config [4%N] 2 1 None None empty_graph
      = (Ok net, g') /\
    length (layer_spec Simple [4%N] 2) = 3%nat /\
    option_map (@length Operation) (Network.target_update_ops net) = Some 6%nat /\
    option_map (@length Operation) (Network.target_update_ops net) <> Some 3%nat.
Proof.
  run_construction.
  split; [reflexivity|]. split; [vm_compute; reflexivity|].
  vm_compute. discriminate.
Qed.

(** C2. In every assembled network, of either variant, the online and
    the target parameter sequences (the variables the online output
    reads, which are those given to the training operation, and the
    variables the target output reads, which are those the target-update
    operations write) have the same length, the same order (position by
    position the same layer and role, the target one under the extra
    scope [target]) and the same shapes, position by position; they are
    also initialized alike. On a fresh graph and valid input the assembly
    succeeds. *)
Theorem C2_online_and_target_parameters_match cfg shape n reps ps wk g :
  (forall net g',
     Network.create_network cfg shape n reps ps wk g = (Ok net, g') ->
     exists q tq,
       Network.q_output net = Some q /\
       Network.target_q_output net = Some tq /\
       variables_of q = online_params net /\
       variables_of tq = target_params net /\
       length (target_params net) = length (online_params net) /\
       map var_shape (target_params net) = map var_shape (online_params net) /\
       map var_initializer (target_params net) =
         map var_initializer (online_params net) /\
       exists roles : list (list string),
         map var_name (online_params net) =
           map (fun r => String.concat "/" (scope g ++ r)) roles /\
         map var_name (target_params net) =
           map (fun r => String.concat "/" (scope g ++ "target" :: r)) roles) /\
  (forall v, fresh g -> valid_input v cfg shape n ->
     exists net g',
       Network.create_network cfg shape n reps ps wk g = (Ok net, g')).
Proof.
  split.
  - intros net g' H. apply create_network_params in H.
    destruct H as (v & _ & _ & Hon & Htg & _ & _ & _ &
                   q & tq & Hq & Htq & Hvq & Hvtq).
    exists q, tq. do 4 (split; [assumption|]).
    rewrite Hon, Htg. unfold online_of, target_of.
    rewrite !param_list_length. split; [reflexivity|].
    split; [apply param_list_shapes|].
    split; [apply param_list_initializers|].
    exists (relative_names (layer_spec v shape n)).
    rewrite !param_list_names. split; [reflexivity|].
    apply map_ext. intros r. now rewrite <- app_assoc.
  - intros v Hf (Hkey & Hrank & Hopt & [m Hm] & [d Hd] & _ & _).
    eapply create_network_total; eauto.
Qed.

(** C2, witness: the convolutional variant on an 84 x 84 x 4 input. *)
Lemma C2_witness :
  exists net g',
    Network.create_network cnn_config [84; 84; 4]%N 6 2 (Some "/job:ps")
                           (Some "/job:worker") empty_graph = (Ok net, g') /\
    length (target_params net) = length (online_params net) /\
    map var_shape (target_params net) = map var_shape (online_params net).
Proof.
  destruct (proj2 (C2_online_and_target_parameters_match
                     cnn_config [84; 84; 4]%N 6 2 (Some "/job:ps")
                     (Some "/job:worker") empty_graph) Convolutional)
    as (net & g' & E).
  - split; reflexivity.
  - unfold valid_input, cnn_config, supported_optimizers; cbn.
    repeat split; eauto 10. repeat constructor.
  - destruct (proj1 (C2_online_and_target_parameters_match
                       cnn_config [84; 84; 4]%N 6 2 (Some "/job:ps")
                       (Some "/job:worker") empty_graph) net g' E)
      as (q & tq & _ & _ & _ & _ & Hlen & Hshape & _).
    exists net, g'. auto.
Defined.

(** C3 (as amended). In every assembled network, one execution of the
    training operation that runs (the placeholders fed, the gradients
    computed), whatever the gradients and whatever the update rule of
    the optimizer, leaves the value of every target parameter unchanged,
    because the minimization was given the online parameter list; every
    online parameter receives the value the optimizer computes for it
    from its gradient, which need not differ from the old one. The
    target parameters change when the target-update operations are run:
    then each receives the value of the online parameter at its
    position, and no other variable changes. On a fresh graph and valid
    input the assembly succeeds. *)
Theorem C3_training_step_leaves_target_parameters
    cfg shape n reps ps wk g :
  (forall net g',
     Network.create_network cfg shape n reps ps wk g = (Ok net, g') ->
     exists q tq opt loss gs ops,
       Network.q_output net = Some q /\
       Network.target_q_output net = Some tq /\
       variables_of q = online_params net /\
       variables_of tq = target_params net /\
       Network.train_op net =
         Some (Minimize opt loss (online_params net) (Some gs)) /\
       Network.global_step net = Some gs /\
       Network.target_update_ops net = Some ops /\
       forall gradients update next feed store store',
         Semantics.run gradients update next
           (Minimize opt loss (online_params net) (Some gs)) feed store
         = Some store' ->
         (forall t, In t (target_params net) ->
            store' (var_id t) = store (var_id t)) /\
         (forall p, In p (online_params net) ->
            exists grad,
              gradients loss p feed store = Some grad /\
              store' (var_id p) =
              Semantics.apply_gradient update opt p (store (var_id p)) grad) /\
         exists store'',
           Semantics.run_all gradients update next ops feed store'
           = Some store'' /\
           (forall i t p,
              nth_error (target_params net) i = Some t ->
              nth_error (online_params net) i = Some p ->
              store'' (var_id t) = store' (var_id p)) /\
           (forall i, ~ In i (map var_id (target_params net)) ->
              store'' i = store' i)) /\
  (forall v, fresh g -> valid_input v cfg shape n ->
     exists net g',
       Network.create_network cfg shape n reps ps wk g = (Ok net, g')).
Proof.
  split.
  - intros net g' H. apply create_network_params in H.
    destruct H as (v & Hkey & Hrank & Hon & Htg & Hgs & Hops & [opt Htrain] &
                   q & tq & Hq & Htq & Hvq & Hvtq).
    exists q, tq, opt, (loss_of v cfg shape n ps g), (step_of v shape n ps g),
           (assign_ops (target_of v cfg shape n ps wk g)
                       (online_of v shape n ps g)).
    do 4 (split; [assumption|]).
    rewrite Hon, Htg.
    split; [exact Htrain|]. split; [exact Hgs|]. split; [exact Hops|].
    intros gradients update next feed store store' Hrun.
    apply run_minimize in Hrun as (_ & Hgrad & ->).
    rewrite filter_all by (intros p Hp; apply loss_reads_online, Hp).
    split; [|split].
    + intros t Ht.
      rewrite write_other by (eapply step_not_target; exact Ht).
      apply fold_write_other. intros Hin. apply in_map_iff in Hin.
      destruct Hin as (p & E & Hp).
      exact (online_target_disjoint _ _ _ _ _ _ _ _ _ Ht Hp (eq_sym E)).
    + intros p Hp.
      destruct (Hgrad p Hp (loss_reads_online _ _ _ _ _ _ _ Hp))
        as [grad Hg].
      exists grad. split; [exact Hg|].
      rewrite write_other by (eapply step_not_online; exact Hp).
      rewrite (fold_write_in
                 (fun v0 => Semantics.apply_gradient update opt v0
                             (store (var_id v0))
                             (Semantics.gradient_of gradients
                                (loss_of v cfg shape n ps g) v0 feed store)))
        by (apply online_ids_NoDup || exact Hp).
      unfold Semantics.gradient_of. rewrite Hg. reflexivity.
    + apply run_all_assign_ops.
      * apply online_target_length.
      * apply target_ids_NoDup.
      * intros t p Ht Hp. eapply online_target_disjoint; eassumption.
  - intros v Hf (Hkey & Hrank & Hopt & [m Hm] & [d Hd] & _ & _).
    eapply create_network_total; eauto.
Qed.

(** C3, witness: the simple variant on a batch of one transition, with
    gradients that are 1 in every entry. The step runs and leaves the
    target parameters alone. *)
Lemma C3_witness :
  exists net g' train store',
    Network.create_network simple_config [4%N] 2 1 None None empty_graph
      = (Ok net, g') /\
    Network.train_op net = Some train /\
    Semantics.run sample_gradients (fun _ _ x _ => x) (fun _ x => x)
                  train (sample_feed [4%N] 2) (sample_store (variables g'))
      = Some store' /\
    forall t, In t (target_params net) ->
      store' (var_id t) = sample_store (variables g') (var_id t).
Proof.
  pose (c := Network.create_network simple_config [4%N] 2 1 None None
               empty_graph).
  pose (net0 := match fst c with
                | Ok net => net
                | Raise _ => Network.__init__ Network.class [] 0 0 None None
                end).
  assert (E : c = (Ok net0, snd c)) by (vm_compute; reflexivity).
  assert (Hruns :
            exists store',
              match Network.train_op net0 with
              | Some train =>
                Semantics.run sample_gradients (fun _ _ x _ => x)
                  (fun _ x => x) train (sample_feed [4%N] 2)
                  (sample_store (variables (snd c))) = Some store'
              | None => False
              end)
    by (vm_compute; eexists; reflexivity).
  revert E Hruns. generalize (snd c). generalize net0. subst c.
  intros net g' E [store' Hruns].
  destruct (proj1 (C3_training_step_leaves_target_parameters
                     simple_config [4%N] 2 1 None None empty_graph)
                  net g' E)
    as (q & tq & opt & loss & gs & ops & _ & _ & _ & _ &
        Htrain & _ & _ & Hstep).
  rewrite Htrain in Hruns.
  destruct (Hstep _ _ _ _ _ _ Hruns) as (Hframe & _).
  exists net, g', (Minimize opt loss (online_params net) (Some gs)), store'.
  split; [exact E|]. split; [exact Htrain|].
  split; [exact Hruns | exact Hframe].
Defined.

(** C3 as stated fails: with plain gradient descent at learning rate
    zero, one execution of the training operation runs and changes no
    online parameter, whatever the gradients are (here: 1 in every
    entry). *)
Lemma C3_counterexample :
  exists net g',
    Network.create_network zero_rate_config [2%N] 2 1 None None empty_graph
      = (Ok net, g') /\
    (exists train store',
       Network.train_op net = Some train /\
       Semantics.run sample_gradients (fun _ _ x _ => x) (fun _ x => x)
                     train (sample_feed [2%N] 2)
                     (sample_store (variables g')) = Some store' /\
       forall p, In p (online_params net) ->
         Semantics.value_eqb (store' (var_id p))
                             (sample_store (variables g') (var_id p))
         = true) /\
    ~ training_step_changes_every_online_parameter
        sample_gradients (fun _ _ x _ => x) (fun _ x => x)
        net (sample_feed [2%N] 2) (sample_store (variables g')).
Proof.
  run_construction. split.
  - eexists. eexists. split; [reflexivity|].
    split; [vm_compute; reflexivity|].
    intros p Hp. vm_compute in Hp.
    repeat (destruct Hp as [<-|Hp]; [vm_compute; reflexivity|]).
    destruct Hp.
  - intros (train & store' & Htrain & Hrun & Hchanged & _).
    cbn [Network.train_op] in Htrain.
    inversion Htrain; subst train; clear Htrain.
    vm_compute in Hrun. inversion Hrun; subst store'; clear Hrun.
    match type of Hchanged with
    | forall p, In p ?l -> _ =>
      let l' := eval vm_compute in l in
      match l' with
      | ?p :: _ => specialize (Hchanged p)
      end
    end.
    match type of Hchanged with
    | ?P -> _ => assert (HP : P) by (vm_compute; now left)
    end.
    specialize (Hchanged HP). vm_compute in Hchanged. discriminate Hchanged.
Qed.

(** C4. The loss is the mean, over the batch, of the squared difference
    between the expected value and the predicted output masked by the
    action one-hot vector and summed over the action dimension; when a
    regularization penalty is supplied it is added, scaled by the
    regularization coefficient of the configuration. For the output
    [[1, 2]], the action mask [[0, 1]] and the expected value [1.5] the
    loss is 0.25 without a penalty, and 0.25 plus coefficient times
    penalty with one. *)
Theorem C4_loss cfg q expected_q actions summaries :
  let mse :=
    ReduceMean (SquaredDifference (ReduceSum (Multiply q actions) [1%Z])
                                  expected_q) in
  fst (Network._init_loss cfg q expected_q actions None summaries) = mse /\
  (forall reg_loss,
     fst (Network._init_loss cfg q expected_q actions (Some reg_loss)
                             summaries)
     = Add mse (Multiply (Const (reg_param cfg)) reg_loss)) /\
  (forall feed store,
     Semantics.eval feed store q
       = Some (Semantics.Arr [Semantics.Arr [Semantics.Num 1;
                                             Semantics.Num 2]]) ->
     Semantics.eval feed store actions
       = Some (Semantics.Arr [Semantics.Arr [Semantics.Num 0;
                                             Semantics.Num 1]]) ->
     Semantics.eval feed store expected_q
       = Some (Semantics.Arr [Semantics.Num 1.5]) ->
     (exists loss,
        Semantics.eval feed store
          (fst (Network._init_loss cfg q expected_q actions None summaries))
        = Some (Semantics.Num loss) /\
        loss == 0.25) /\
     (forall reg_loss penalty,
        Semantics.eval feed store reg_loss = Some (Semantics.Num penalty) ->
        exists loss,
          Semantics.eval feed store
            (fst (Network._init_loss cfg q expected_q actions (Some reg_loss)
                                     summaries))
          = Some (Semantics.Num loss) /\
          loss == 0.25 + reg_param cfg * penalty)).
Proof.
  cbv zeta. split; [reflexivity|]. split; [reflexivity|].
  intros feed store Hq Ha He.
  assert (Hmse :
    exists loss,
      Semantics.eval feed store
        (ReduceMean (SquaredDifference (ReduceSum (Multiply q actions) [1%Z])
                                       expected_q))
      = Some (Semantics.Num loss) /\ loss == 0.25).
  { cbn [Semantics.eval]. rewrite Hq, Ha, He.
    eexists. split; [vm_compute; reflexivity | reflexivity]. }
  destruct Hmse as (l0 & Hl0 & Hv0).
  split.
  - exists l0. split; [exact Hl0 | exact Hv0].
  - intros reg_loss penalty Hreg.
    exists (l0 + reg_param cfg * penalty).
    split; [| rewrite Hv0; reflexivity].
    cbn [Network._init_loss fst Semantics.eval] in *.
    rewrite Hl0, Hreg. reflexivity.
Qed.

(** C4, witness: the example of the claim, with a penalty of 3 and the
    regularization coefficient 0.01. *)
Lemma C4_witness :
  exists loss,
    Semantics.eval loss_example_feed (fun _ => Semantics.Num 0)
      (fst (Network._init_loss simple_config
              (Placeholder 0 [None; Some 2%N]) (Placeholder 1 [None])
              (Placeholder 2 [None; Some 2%N]) (Some (Const 3)) None))
    = Some (Semantics.Num loss) /\
    loss == 0.28.
Proof.
  destruct (C4_loss simple_config
              (Placeholder 0 [None; Some 2%N]) (Placeholder 1 [None])
              (Placeholder 2 [None; Some 2%N]) None) as (_ & _ & H).
  destruct (H loss_example_feed (fun _ => Semantics.Num 0)
              eq_refl eq_refl eq_refl) as [_ Hreg].
  destruct (Hreg (Const 3) 3 eq_refl) as (loss & Hloss & Hv).
  exists loss. split; [exact Hloss|].
  rewrite Hv. reflexivity.
Defined.

(** C5 (as amended). A configuration whose network field is neither
    "simple" nor "cnn" makes the factory raise the unsupported-type
    error, with nothing added to the graph. A configuration whose
    optimizer field is none of the seven names makes the optimizer
    builder raise, with nothing added to the graph: the
    unsupported-optimizer error when the configuration carries both the
    momentum and the rmsprop-decay field, and the attribute error of the
    first missing one otherwise, because both are read before the
    optimizer is looked up. The outcome is a function of the inputs. *)
Theorem C5_unsupported_selectors cfg shape n reps ps wk params loss gs s g :
  (network cfg <> "simple" -> network cfg <> "cnn" ->
   Network.create_network cfg shape n reps ps wk g =
   (Raise (RuntimeError ("Unsupported network type " ++ network cfg)), g)) /\
  (~ In (optimizer cfg) supported_optimizers ->
   Network._init_optimizer cfg params loss reps gs s g =
   match momentum cfg, rmsprop_decay cfg with
   | Some _, Some _ =>
     (Raise (RuntimeError ("Unsupported optimizer " ++ optimizer cfg)), g)
   | None, _ => (Raise (AttributeError "momentum"), g)
   | Some _, None => (Raise (AttributeError "rmsprop_decay"), g)
   end).
Proof.
  split.
  - intros Hs Hc. unfold Network.create_network. cbn [dict_get].
    destruct (String.eqb_spec "simple" (network cfg)); [congruence|].
    destruct (String.eqb_spec "cnn" (network cfg)); [congruence|].
    reflexivity.
  - intros Hn. rewrite init_optimizer_eq.
    destruct (momentum cfg) as [m|]; [|reflexivity].
    destruct (rmsprop_decay cfg) as [d|]; [|reflexivity].
    rewrite dict_get_absent; [reflexivity|exact Hn].
Qed.

(** C5, witness: an unknown network and an unknown optimizer, in a
    configuration that carries both coefficients. *)
Lemma C5_witness :
  Network.create_network
    (mkConfig "lstm" "nesterov" 0.1 (Some 0.9) (Some 0.9) 0.01 false 0 false)
    [4%N] 2 1 None None empty_graph
  = (Raise (RuntimeError "Unsupported network type lstm"), empty_graph) /\
  Network._init_optimizer
    (mkConfig "lstm" "nesterov" 0.1 (Some 0.9) (Some 0.9) 0.01 false 0 false)
    [] (Const 0) 1 None None empty_graph
  = (Raise (RuntimeError "Unsupported optimizer nesterov"), empty_graph).
Proof.
  destruct (C5_unsupported_selectors
              (mkConfig "lstm" "nesterov" 0.1 (Some 0.9) (Some 0.9) 0.01
                        false 0 false)
              [4%N] 2 1 None None [] (Const 0) None None empty_graph)
    as [Hnet Hopt].
  split.
  - apply Hnet; discriminate.
  - apply Hopt. cbn. intuition discriminate.
Defined.

(** C5 as stated fails: for a configuration whose optimizer is not one of
    the seven and which lacks the momentum field, the optimizer builder
    raises the attribute error, not the unsupported-optimizer error. *)
Lemma C5_counterexample :
  ~ In (optimizer unknown_optimizer_config) supported_optimizers /\
  Network._init_optimizer unknown_optimizer_config [] (Const 0) 1 None None
                          empty_graph
  = (Raise (AttributeError "momentum"), empty_graph) /\
  AttributeError "momentum" <>
  RuntimeError ("Unsupported optimizer " ++ optimizer unknown_optimizer_config).
Proof.
  split; [cbn; intuition discriminate|].
  split; [reflexivity | discriminate].
Qed.

(** C6. Constructing the simple variant on an input shape whose rank is
    not 1 raises the shape-mismatch error of the simple variant, and
    constructing the convolutional variant on an input shape whose rank
    is not 3 raises the shape-mismatch error of the convolutional
    variant. On an input shape of the required rank neither the
    parameter builder nor the whole construction raises a shape-mismatch
    error. *)
Theorem C6_rank_checks cfg shape n reps ps wk g :
  (network cfg = "simple" -> length shape <> 1%nat ->
   exists g',
     Network.create_network cfg shape n reps ps wk g =
     (Raise (RuntimeError "SimpleNetwork expects 1-d input"), g')) /\
  (network cfg = "cnn" -> length shape <> 3%nat ->
   exists g',
     Network.create_network cfg shape n reps ps wk g =
     (Raise (RuntimeError "type expects 3-d input"), g')) /\
  (forall v, length shape = variant_rank v ->
     (forall coll s e g',
        _init_params (variant_class v) cfg shape n coll s g = (Raise e, g') ->
        ~ is_shape_mismatch e) /\
     (network cfg = variant_key v ->
      forall e g',
        Network.create_network cfg shape n reps ps wk g = (Raise e, g') ->
        ~ is_shape_mismatch e)).
Proof.
  split; [|split].
  - intros Hkey Hrank.
    apply (create_network_wrong_rank Simple); assumption.
  - intros Hkey Hrank.
    apply (create_network_wrong_rank Convolutional); assumption.
  - intros v Hrank. split.
    + intros coll s e g' H. apply ValueError_not_shape_mismatch.
      eapply init_params_raises; eauto.
    + intros Hkey e g' H. unfold Network.create_network in H.
      rewrite Hkey in H.
      assert (Hget : dict_get [("simple", SimpleNetwork.class);
                               ("cnn", ConvNetwork.class)] (variant_key v)
                     = Some (variant_class v)) by (destruct v; reflexivity).
      rewrite Hget in H.
      eapply init_network_raises; eauto.
Qed.

(** C6, witness: the two examples of the claim, and two shapes of the
    required rank. *)
Lemma C6_witness :
  (exists g',
     Network.create_network simple_config [84; 84; 4]%N 2 1 None None
                            empty_graph =
     (Raise (RuntimeError "SimpleNetwork expects 1-d input"), g')) /\
  (exists g',
     Network.create_network cnn_config [10%N] 2 1 None None empty_graph =
     (Raise (RuntimeError "type expects 3-d input"), g')) /\
  (forall e g',
     Network.create_network simple_config [10%N] 2 1 None None empty_graph
       = (Raise e, g') ->
     ~ is_shape_mismatch e) /\
  (forall e g',
     Network.create_network cnn_config [84; 84; 4]%N 2 1 None None empty_graph
       = (Raise e, g') ->
     ~ is_shape_mismatch e).
Proof.
  split; [|split; [|split]].
  - apply (proj1 (C6_rank_checks simple_config [84; 84; 4]%N 2 1 None None
                                 empty_graph)); [reflexivity | discriminate].
  - apply (proj1 (proj2 (C6_rank_checks cnn_config [10%N] 2 1 None None
                                        empty_graph)));
      [reflexivity | discriminate].
  - apply (proj2 (proj2 (C6_rank_checks simple_config [10%N] 2 1 None None
                                        empty_graph)) Simple eq_refl).
    reflexivity.
  - apply (proj2 (proj2 (C6_rank_checks cnn_config [84; 84; 4]%N 2 1 None None
                                        empty_graph)) Convolutional eq_refl).
    reflexivity.
Defined.

(** C7 (as amended). The optimizer builder reads the momentum and the
    rmsprop-decay field of every configuration, before it looks the
    optimizer up: when one is missing it raises the attribute error,
    whatever optimizer is selected. Their values are used selectively:
    the operation it returns minimizes with the selected optimizer at
    the configured learning rate, which carries the momentum when
    "momentum" is selected, the decay when "rmsprop" is selected, and
    neither otherwise. So two runs on configurations that carry both
    fields and differ only in the values the selected optimizer does not
    take end alike. With both fields present, a supported optimizer,
    no synchronization, a variable list that is not empty and a loss
    that reads one of its variables, the construction succeeds. *)
Theorem C7_coefficients_read_always_used_selectively
    cfg1 cfg2 params loss reps gs s g :
  (forall m1 d1 m2 d2,
     momentum cfg1 = Some m1 -> rmsprop_decay cfg1 = Some d1 ->
     momentum cfg2 = Some m2 -> rmsprop_decay cfg2 = Some d2 ->
     optimizer cfg2 = optimizer cfg1 ->
     lr cfg2 = lr cfg1 ->
     sync cfg2 = sync cfg1 ->
     task_id cfg2 = task_id cfg1 ->
     (optimizer cfg1 = "momentum" -> m2 = m1) ->
     (optimizer cfg1 = "rmsprop" -> d2 = d1) ->
     Network._init_optimizer cfg1 params loss reps gs s g =
     Network._init_optimizer cfg2 params loss reps gs s g) /\
  (forall m d op g',
     momentum cfg1 = Some m -> rmsprop_decay cfg1 = Some d ->
     Network._init_optimizer cfg1 params loss reps gs s g = (Ok op, g') ->
     exists base,
       op = Minimize (if sync cfg1
                      then SyncReplicasOptimizer base reps (task_id cfg1)
                      else base) loss params gs /\
       (optimizer cfg1 = "adadelta" /\ base = AdadeltaOptimizer (lr cfg1) \/
        optimizer cfg1 = "adagrad" /\ base = AdagradOptimizer (lr cfg1) \/
        optimizer cfg1 = "adam" /\ base = AdamOptimizer (lr cfg1) \/
        optimizer cfg1 = "ftrl" /\ base = FtrlOptimizer (lr cfg1) \/
        optimizer cfg1 = "sgd" /\
          base = GradientDescentOptimizer (lr cfg1) \/
        optimizer cfg1 = "momentum" /\
          base = MomentumOptimizer (lr cfg1) m \/
        optimizer cfg1 = "rmsprop" /\
          base = RMSPropOptimizer (lr cfg1) d)) /\
  (forall m d,
     momentum cfg1 = Some m -> rmsprop_decay cfg1 = Some d ->
     In (optimizer cfg1) supported_optimizers ->
     sync cfg1 = false ->
     params <> [] ->
     existsb (reads loss) params = true ->
     exists op g',
       Network._init_optimizer cfg1 params loss reps gs s g = (Ok op, g')) /\
  (momentum cfg1 = None ->
   Network._init_optimizer cfg1 params loss reps gs s g =
   (Raise (AttributeError "momentum"), g)) /\
  (momentum cfg1 <> None -> rmsprop_decay cfg1 = None ->
   Network._init_optimizer cfg1 params loss reps gs s g =
   (Raise (AttributeError "rmsprop_decay"), g)).
Proof.
  split; [|split; [|split; [|split]]].
  - intros m1 d1 m2 d2 Hm1 Hd1 Hm2 Hd2 Ho Hlr Hsync Htid Hm Hd.
    rewrite !init_optimizer_eq, Hm1, Hd1, Hm2, Hd2, Ho.
    unfold wrapped. rewrite Hlr, Hsync, Htid.
    destruct (optimizer_constructor_cases m1 d1 (optimizer cfg1))
      as [(ctor & E1 & Hc)|[_ E1]];
      destruct (optimizer_constructor_cases m2 d2 (optimizer cfg1))
      as [(ctor' & E2 & Hc')|[Hn E2]];
      rewrite E1, E2; try reflexivity.
    + replace ctor' with ctor; [reflexivity|].
      destruct Hc as [[Hk ->]|[[Hk ->]|[[Hk ->]|[[Hk ->]|[[Hk ->]|
                     [[Hk ->]|[Hk ->]]]]]]];
        destruct Hc' as [[Hk' ->]|[[Hk' ->]|[[Hk' ->]|[[Hk' ->]|[[Hk' ->]|
                        [[Hk' ->]|[Hk' ->]]]]]]];
        try reflexivity; try (rewrite Hk in Hk'; discriminate Hk').
      * now rewrite (Hm Hk).
      * now rewrite (Hd Hk).
    + exfalso. apply Hn.
      destruct Hc as [[-> _]|[[-> _]|[[-> _]|[[-> _]|[[-> _]|
                     [[-> _]|[-> _]]]]]]]; cbn; auto 10.
    + exfalso.
      destruct (optimizer_constructor_cases m1 d1 (optimizer cfg1))
        as [(c & E & _)|[Hn _]]; [congruence|].
      apply Hn.
      destruct Hc' as [[-> _]|[[-> _]|[[-> _]|[[-> _]|[[-> _]|
                      [[-> _]|[-> _]]]]]]]; cbn; auto 10.
  - intros m d op g' Hm Hd H.
    rewrite init_optimizer_eq, Hm, Hd in H.
    destruct (optimizer_constructor_cases m d (optimizer cfg1))
      as [(ctor & E & Hc)|[_ E]]; rewrite E in H; [|discriminate H].
    apply minimize_Ok in H as (-> & _).
    exists (ctor (lr cfg1)). split; [reflexivity|].
    destruct Hc as [[Hk ->]|[[Hk ->]|[[Hk ->]|[[Hk ->]|[[Hk ->]|
                   [[Hk ->]|[Hk ->]]]]]]]; auto 12.
  - intros m d Hm Hd Hin Hsync Hp Hr.
    rewrite init_optimizer_eq, Hm, Hd.
    destruct (optimizer_constructor_cases m d (optimizer cfg1))
      as [(ctor & E & _)|[Hn _]]; [|contradiction].
    rewrite E, minimize_eq; eauto.
    unfold wrapped. rewrite Hsync.
    intros o r i Eo.
    destruct (optimizer_constructor_cases m d (optimizer cfg1))
      as [(c & E' & Hc)|[Hn _]]; [|contradiction].
    rewrite E in E'. inversion E'; subst c.
    destruct Hc as [[_ ->]|[[_ ->]|[[_ ->]|[[_ ->]|[[_ ->]|
                   [[_ ->]|[_ ->]]]]]]]; discriminate Eo.
  - intros Hm. rewrite init_optimizer_eq, Hm. reflexivity.
  - intros Hm Hd. rewrite init_optimizer_eq, Hd.
    destruct (momentum cfg1); [reflexivity | congruence].
Qed.

(** C7, witness: gradient descent on one variable, with two different
    pairs of coefficients; and the momentum optimizer, which carries
    the momentum. *)
Lemma C7_witness :
  Network._init_optimizer simple_config [sample_variable] sample_loss
                          1 None None empty_graph =
  Network._init_optimizer
    (mkConfig "simple" "sgd" 0.1 (Some 0.5) (Some 0.99) 0.01 false 0 false)
    [sample_variable] sample_loss 1 None None empty_graph /\
  (exists op g',
     Network._init_optimizer
       (mkConfig "simple" "momentum" 0.1 (Some 0.5) (Some 0.99) 0.01
                 false 0 false)
       [sample_variable] sample_loss 1 None None empty_graph = (Ok op, g') /\
     op = Minimize (MomentumOptimizer 0.1 0.5) sample_loss [sample_variable]
                   None) /\
  Network._init_optimizer sgd_config_without_coefficients
                          [sample_variable] sample_loss 1 None None
                          empty_graph
  = (Raise (AttributeError "momentum"), empty_graph).
Proof.
  destruct (C7_coefficients_read_always_used_selectively
              simple_config
              (mkConfig "simple" "sgd" 0.1 (Some 0.5) (Some 0.99) 0.01
                        false 0 false)
              [sample_variable] sample_loss 1 None None empty_graph)
    as (Hsame & _).
  destruct (C7_coefficients_read_always_used_selectively
              (mkConfig "simple" "momentum" 0.1 (Some 0.5) (Some 0.99) 0.01
                        false 0 false)
              simple_config
              [sample_variable] sample_loss 1 None None empty_graph)
    as (_ & Hbuilt & Hruns & _).
  destruct (C7_coefficients_read_always_used_selectively
              sgd_config_without_coefficients sgd_config_without_coefficients
              [sample_variable] sample_loss 1 None None empty_graph)
    as (_ & _ & _ & Hmissing & _).
  split; [|split].
  - apply (Hsame 0.9 0.9 0.5 0.99 eq_refl eq_refl eq_refl eq_refl
                 eq_refl eq_refl eq_refl eq_refl);
      intros H; discriminate H.
  - destruct (Hruns 0.5 0.99 eq_refl eq_refl) as (op & g' & E).
    + cbn; auto 10.
    + reflexivity.
    + discriminate.
    + reflexivity.
    + exists op, g'. split; [exact E|].
      destruct (Hbuilt 0.5 0.99 op g' eq_refl eq_refl E) as (base & -> & Hb).
      destruct Hb as [[Hk _]|[[Hk _]|[[Hk _]|[[Hk _]|[[Hk _]|
                     [[_ ->]|[Hk _]]]]]]];
        try discriminate Hk. reflexivity.
  - apply Hmissing. reflexivity.
Defined.

(** C7 as stated fails: with gradient descent selected and the two
    coefficient fields absent, the construction does not succeed; the
    momentum field is read and found missing. *)
Lemma C7_counterexample :
  In (optimizer sgd_config_without_coefficients) supported_optimizers /\
  optimizer sgd_config_without_coefficients <> "momentum" /\
  optimizer sgd_config_without_coefficients <> "rmsprop" /\
  Network._init_optimizer sgd_config_without_coefficients
                          [sample_variable] sample_loss 1 None None
                          empty_graph
  = (Raise (AttributeError "momentum"), empty_graph) /\
  ~ exists op g',
      Network._init_optimizer sgd_config_without_coefficients
                              [sample_variable] sample_loss 1 None None
                              empty_graph
      = (Ok op, g').
Proof.
  split; [cbn; auto 10|]. split; [discriminate|]. split; [discriminate|].
  split; [reflexivity|]. intros (op & g' & H). discriminate H.
Qed.

(** C8 (as amended). The parameter builder of the simple variant creates
    exactly three trainable (weight, bias) pairs, of sizes input-size to
    20, 20 to 20 and 20 to action-count, the weights drawn from a
    truncated normal distribution of standard deviation 0.01 and the
    biases zero, under the scopes "hidden1", "hidden2" and "output"; on
    a shape of rank 1 and a fresh graph it succeeds. Its layer builder
    applies tanh after each of the first two affine transforms and
    nothing after the third. Its regularization penalty is the sum of
    TensorFlow's L2 losses of the three weight tensors, biases excluded:
    half the sum of the squared entries of each, not their L2 norms. *)
Theorem C8_simple_variant cfg shape out coll s g :
  (forall ps g',
     SimpleNetwork._init_params cfg shape out coll s g = (Ok ps, g') ->
     exists w1 b1 w2 b2 w3 b3,
       ps = [w1; b1; w2; b2; w3; b3] /\
       variables g' = (variables g ++ ps)%list /\
       map var_shape ps =
         [[nth 0 shape 0; 20]; [20]; [20; 20]; [20]; [20; out]; [out]]%N /\
       map var_initializer ps =
         [truncated_normal_initializer 0.01; constant_initializer 0;
          truncated_normal_initializer 0.01; constant_initializer 0;
          truncated_normal_initializer 0.01; constant_initializer 0] /\
       map var_trainable ps = [true; true; true; true; true; true] /\
       map var_name ps =
         map (fun r => String.concat "/" (scope g ++ r))
             [["hidden1"; "w"]; ["hidden1"; "b"]; ["hidden2"; "w"];
              ["hidden2"; "b"]; ["output"; "w"]; ["output"; "b"]] /\
       forall inputs s0 g0,
         let a1 := Tanh (Add (MatMul inputs (Var w1)) (Var b1)) in
         let a2 := Tanh (Add (MatMul a1 (Var w2)) (Var b2)) in
         let output := Add (MatMul a2 (Var w3)) (Var b3) in
         let reg_loss :=
           Add (Add (Add (Const 0) (L2Loss (Var w1))) (L2Loss (Var w2)))
               (L2Loss (Var w3)) in
         SimpleNetwork._init_layers cfg inputs ps s0 g0
           = (Ok (output, reg_loss), g0) /\
         forall feed store,
         exists penalty,
           Semantics.eval feed store reg_loss = Some (Semantics.Num penalty) /\
           penalty ==
             (Semantics.sum_squares (store (var_id w1)) +
              Semantics.sum_squares (store (var_id w2)) +
              Semantics.sum_squares (store (var_id w3))) / 2) /\
  (length shape = 1%nat -> fresh g ->
   exists ps g',
     SimpleNetwork._init_params cfg shape out coll s g = (Ok ps, g')).
Proof.
  split; [|apply simple_params_total].
  intros ps g' H. apply (init_params_Ok Simple) in H.
  destruct H as (_ & Hps & Hg'). cbn [layer_spec param_list] in Hps.
  do 6 eexists. split; [exact Hps|].
  split; [subst g'; reflexivity|].
  rewrite Hps. cbn [map var_shape var_initializer var_trainable var_name].
  do 4 (split; [reflexivity|]).
  intros inputs s0 g0. cbv zeta. split; [reflexivity|].
  intros feed store. cbn [Semantics.eval Semantics.lift2 Semantics.zip_value
                          var_id].
  eexists. split; [reflexivity|]. unfold Qdiv. ring.
Qed.

(** C8, witness: two inputs and two actions on the empty graph. *)
Lemma C8_witness :
  exists ps g',
    SimpleNetwork._init_params simple_config [2%N] 2 None None empty_graph
      = (Ok ps, g') /\
    map var_shape ps = [[2; 20]; [20]; [20; 20]; [20]; [20; 2]; [2]]%N.
Proof.
  destruct (proj2 (C8_simple_variant simple_config [2%N] 2 None None
                                     empty_graph) eq_refl)
    as (ps & g' & E).
  - split; reflexivity.
  - destruct (proj1 (C8_simple_variant simple_config [2%N] 2 None None
                                       empty_graph) ps g' E)
      as (w1 & b1 & w2 & b2 & w3 & b3 & _ & _ & Hshape & _).
    exists ps, g'. split; [exact E | exact Hshape].
Defined.

(** C8 as stated fails: when the first weight tensor has the single
    non-zero entry 3 and the other two are zero, the L2 norms of the
    three weight tensors are 3, 0 and 0, but the penalty is 9/2. *)
Lemma C8_counterexample :
  exists ps g' output reg_loss penalty,
    SimpleNetwork._init_params simple_config [1%N] 1 None None empty_graph
      = (Ok ps, g') /\
    SimpleNetwork._init_layers simple_config (Placeholder 0 [None; Some 1%N])
                               ps None g'
      = (Ok (output, reg_loss), g') /\
    let store := simple_penalty_store ps in
    Semantics.eval (fun _ => None) store reg_loss
      = Some (Semantics.Num penalty) /\
    Semantics.is_l2_norm (store 0%nat) 3 /\
    Semantics.is_l2_norm (store 2%nat) 0 /\
    Semantics.is_l2_norm (store 4%nat) 0 /\
    map var_id ps = [0; 1; 2; 3; 4; 5]%nat /\
    penalty == 9 / 2 /\
    ~ penalty == 3 + 0 + 0.
Proof.
  match goal with
  | |- _ =>
    let r := eval vm_compute in
      (SimpleNetwork._init_params simple_config [1%N] 1 None None empty_graph)
    in
    match r with
    | (Ok ?a, ?b) =>
      exists a, b;
      let l := eval vm_compute in
        (SimpleNetwork._init_layers simple_config
           (Placeholder 0 [None; Some 1%N]) a None b) in
      match l with
      | (Ok (?o, ?rg), _) =>
        exists o, rg;
        let p := eval vm_compute in
          (Semantics.eval (fun _ => None) (simple_penalty_store a) rg) in
        match p with
        | Some (Semantics.Num ?x) => exists x
        end
      end
    end
  end.
  split; [vm_compute; reflexivity|].
  split; [vm_compute; reflexivity|].
  cbv zeta. split; [vm_compute; reflexivity|].
  unfold Semantics.is_l2_norm.
  repeat split; try (vm_compute; reflexivity); try (vm_compute; discriminate).
Qed.

(** C9 (as amended). The layer builder of the convolutional variant
    applies, for each of the three convolutional layers, a 2-D
    convolution with "same" padding at the stride of the layer (4, 2, 1),
    adds the bias, applies the rectified-linear activation and then a
    2 x 2 max-pooling with stride 2 and "same" padding; it reshapes the
    last pooled output to rows of length 256, applies a rectified-linear
    fully-connected layer and a final affine layer without activation.
    Its regularization penalty is the sum of TensorFlow's L2 losses of
    the two fully-connected weight tensors only, no convolutional filter
    and no bias: half the sum of the squared entries of each, not their
    L2 norms. *)
Theorem C9_convolutional_layers
    cfg inputs w1 b1 w2 b2 w3 b3 w4 b4 w5 b5 s g :
  let conv_pool x w b stride :=
    MaxPool (Relu (Add (Conv2d x (Var w) [1; stride; stride; 1]%Z SAME)
                       (Var b)))
            [1; 2; 2; 1]%Z [1; 2; 2; 1]%Z SAME in
  let a1 := conv_pool inputs w1 b1 4%Z in
  let a2 := conv_pool a1 w2 b2 2%Z in
  let a3 := conv_pool a2 w3 b3 1%Z in
  let a3_flat := Reshape a3 [-1; 256]%Z in
  let a4 := Relu (Add (MatMul a3_flat (Var w4)) (Var b4)) in
  let output := Add (MatMul a4 (Var w5)) (Var b5) in
  let reg_loss := Add (Add (Const 0) (L2Loss (Var w4))) (L2Loss (Var w5)) in
  ConvNetwork._init_layers cfg inputs [w1; b1; w2; b2; w3; b3; w4; b4; w5; b5]
                           s g
    = (Ok (output, reg_loss), g) /\
  variables_of reg_loss = [w4; w5] /\
  forall feed store,
  exists penalty,
    Semantics.eval feed store reg_loss = Some (Semantics.Num penalty) /\
    penalty ==
      (Semantics.sum_squares (store (var_id w4)) +
       Semantics.sum_squares (store (var_id w5))) / 2.
Proof.
  cbv zeta. split; [reflexivity|]. split; [reflexivity|].
  intros feed store.
  cbn [Semantics.eval Semantics.lift2 Semantics.zip_value].
  eexists. split; [reflexivity|]. unfold Qdiv. ring.
Qed.

(** C9 as stated fails: when the fully-connected weight tensor has the
    single non-zero entry 3 and the output weight tensor is zero, their
    L2 norms are 3 and 0, but the penalty is 9/2. *)
Lemma C9_counterexample :
  exists ps g' output reg_loss penalty,
    ConvNetwork._init_params cnn_config [84; 84; 4]%N 1 None None empty_graph
      = (Ok ps, g') /\
    ConvNetwork._init_layers cnn_config
      (Placeholder 0 [None; Some 84; Some 84; Some 4]%N) ps None g'
      = (Ok (output, reg_loss), g') /\
    let store := conv_penalty_store ps in
    Semantics.eval (fun _ => None) store reg_loss
      = Some (Semantics.Num penalty) /\
    map var_id ps = [0; 1; 2; 3; 4; 5; 6; 7; 8; 9]%nat /\
    Semantics.is_l2_norm (store 6%nat) 3 /\
    Semantics.is_l2_norm (store 8%nat) 0 /\
    penalty == 9 / 2 /\
    ~ penalty == 3 + 0.
Proof.
  match goal with
  | |- _ =>
    let r := eval vm_compute in
      (ConvNetwork._init_params cnn_config [84; 84; 4]%N 1 None None
                                empty_graph) in
    match r with
    | (Ok ?a, ?b) =>
      exists a, b;
      let l := eval vm_compute in
        (ConvNetwork._init_layers cnn_config
           (Placeholder 0 [None; Some 84; Some 84; Some 4]%N) a None b) in
      match l with
      | (Ok (?o, ?rg), _) =>
        exists o, rg;
        let p := eval vm_compute in
          (Semantics.eval (fun _ => None) (conv_penalty_store a) rg) in
        match p with
        | Some (Semantics.Num ?x) => exists x
        end
      end
    end
  end.
  split; [vm_compute; reflexivity|].
  split; [vm_compute; reflexivity|].
  cbv zeta. split; [vm_compute; reflexivity|].
  unfold Semantics.is_l2_norm.
  repeat split; try (vm_compute; reflexivity); try (vm_compute; discriminate).
Qed.

(** C10. In every assembled network the online output and the target
    output are computed from one placeholder only, the observation input
    of the network; the assembly creates three placeholders (observation,
    expected value, action mask) and no other, so there is no separate
    input for the target network, and the values of both outputs are
    determined by what is fed to the observation placeholder (and by the
    variables). On a fresh graph and valid input the
    assembly succeeds. *)
Theorem C10_outputs_share_the_observation_placeholder
    cfg shape n reps ps wk g :
  (forall net g',
     Network.create_network cfg shape n reps ps wk g = (Ok net, g') ->
     exists id q tq,
       Network.x_placeholder net =
         Some (Placeholder id (None :: map Some shape)) /\
       Network.q_placeholder net = Some (Placeholder (S id) [None]) /\
       Network.action_placeholder net =
         Some (Placeholder (S (S id)) [None; Some n]) /\
       Network.q_output net = Some q /\
       Network.target_q_output net = Some tq /\
       Semantics.placeholders_of q = [id] /\
       Semantics.placeholders_of tq = [id] /\
       placeholders g' =
         (placeholders g ++
            [None :: map Some shape; [None]; [None; Some n]])%list /\
       id = length (placeholders g) /\
       forall feed1 feed2 store,
         feed1 id = feed2 id ->
         Semantics.eval feed1 store q = Semantics.eval feed2 store q /\
         Semantics.eval feed1 store tq = Semantics.eval feed2 store tq) /\
  (forall v, fresh g -> valid_input v cfg shape n ->
     exists net g',
       Network.create_network cfg shape n reps ps wk g = (Ok net, g')).
Proof.
  split.
  - intros net g' H. apply create_network_Ok in H.
    destruct H as (v & opt & Hkey & Hrank & Hnet & Hg). cbv zeta in Hnet, Hg.
    subst net g'.
    cbn [Network.q_output Network.target_q_output Network.x_placeholder
         Network.q_placeholder Network.action_placeholder placeholders].
    exists (length (placeholders g)). do 2 eexists.
    unfold x_of, q_of, action_of, online_of, target_of.
    repeat (split; [reflexivity|]).
    rewrite !placeholders_of_layers. cbn [Semantics.placeholders_of].
    do 4 (split; [reflexivity|]).
    intros feed1 feed2 store Hfeed.
    split; apply eval_placeholders; rewrite placeholders_of_layers;
      cbn [Semantics.placeholders_of]; intros id [<-|[]]; exact Hfeed.
  - intros v Hf (Hkey & Hrank & Hopt & [m Hm] & [d Hd] & _ & _).
    eapply create_network_total; eauto.
Qed.

(** C10, witness: the simple variant on four inputs and two actions. *)
Lemma C10_witness :
  exists net g' id q tq,
    Network.create_network simple_config [4%N] 2 1 None None empty_graph
      = (Ok net, g') /\
    Network.q_output net = Some q /\
    Network.target_q_output net = Some tq /\
    Semantics.placeholders_of q = [id] /\
    Semantics.placeholders_of tq = [id].
Proof.
  destruct (proj2 (C10_outputs_share_the_observation_placeholder
                     simple_config [4%N] 2 1 None None empty_graph) Simple)
    as (net & g' & E).
  - split; reflexivity.
  - unfold valid_input, simple_config, supported_optimizers; cbn.
    repeat split; eauto 10. repeat constructor.
  - destruct (proj1 (C10_outputs_share_the_observation_placeholder
                       simple_config [4%N] 2 1 None None empty_graph)
                    net g' E)
      as (id & q & tq & _ & _ & _ & Hq & Htq & Hpq & Hptq & _).
    exists net, g', id, q, tq. auto.
Defined.

(** ** Further properties of the construction *)

(** Runs a closed construction [c] that returns a network: [net] and
    [g'] stand for what it returns, [H] says so. *)
Ltac construct c net g' H :=
  assert (H : c = (Ok (match fst c with
                       | Ok net => net
                       | Raise _ =>
                         Network.__init__ Network.class [] 0 0 None None
                       end), snd c))
    by (vm_compute; reflexivity);
  revert H; generalize (snd c);
  generalize (match fst c with
              | Ok net => net
              | Raise _ => Network.__init__ Network.class [] 0 0 None None
              end);
  intros net g' H.

(** ** The graph only grows *)

Lemma grows_refl g : grows g g.
Proof.
  unfold grows. repeat split; try (exists []; now rewrite app_nil_r).
Qed.

Lemma grows_trans g1 g2 g3 : grows g1 g2 -> grows g2 g3 -> grows g1 g3.
Proof.
  intros ([v1 Hv1] & [p1 Hp1] & [o1 Ho1] & Hs1 & Hd1)
         ([v2 Hv2] & [p2 Hp2] & [o2 Ho2] & Hs2 & Hd2).
  unfold grows. rewrite Hv2, Hp2, Ho2, Hs2, Hd2, Hv1, Hp1, Ho1.
  rewrite <- !app_assoc. repeat split; eauto.
Qed.

Lemma only_adds_ret {A} (a : A) : only_adds (ret a).
Proof. intros g r g' H. inversion H. apply grows_refl. Qed.

Lemma only_adds_raise {A} e : only_adds (@raise A e).
Proof. intros g r g' H. inversion H. apply grows_refl. Qed.

Lemma only_adds_bind {A B} (c : M A) (k : A -> M B) :
  only_adds c -> (forall a, only_adds (k a)) -> only_adds (bind c k).
Proof.
  intros Hc Hk g r g' H. unfold bind in H.
  destruct (c g) as [[a|e] g1] eqn:E.
  - eapply grows_trans; [eapply Hc | eapply Hk]; eauto.
  - inversion H; subst. eapply Hc; eauto.
Qed.

Lemma only_adds_placeholder shape : only_adds (placeholder shape).
Proof.
  intros g r g' H. inversion H. unfold grows; cbn.
  repeat split; eauto; exists []; now rewrite app_nil_r.
Qed.

Lemma only_adds_get_variable name shape init coll :
  only_adds (get_variable name shape init coll).
Proof.
  intros g r g' H. unfold get_variable in H.
  destruct (name_in_use g _); inversion H; [apply grows_refl|].
  unfold grows; cbn. repeat split; eauto; exists []; now rewrite app_nil_r.
Qed.

Lemma only_adds_tf_Variable x name tr : only_adds (tf_Variable x name tr).
Proof.
  intros g r g' H. inversion H. unfold grows; cbn.
  repeat split; eauto; exists []; now rewrite app_nil_r.
Qed.

Lemma only_adds_add_operation op : only_adds (add_operation op).
Proof.
  intros g r g' H. inversion H. unfold grows; cbn.
  repeat split; eauto; exists []; now rewrite app_nil_r.
Qed.

Lemma only_adds_with_variable_scope {A} name (body : M A) :
  only_adds body -> only_adds (with_variable_scope name body).
Proof.
  intros Hb g r g' H. rewrite with_variable_scope_eq in H.
  destruct (body _) as [r1 g1] eqn:E. cbn [fst snd] in H.
  inversion H; subst. apply Hb in E.
  destruct E as (Hv & Hp & Ho & _ & Hd). unfold grows. cbn in *. auto.
Qed.

Lemma only_adds_with_device {A} d (body : M A) :
  only_adds body -> only_adds (with_device d body).
Proof.
  intros Hb g r g' H. rewrite with_device_eq in H.
  destruct (body _) as [r1 g1] eqn:E. cbn [fst snd] in H.
  inversion H; subst. apply Hb in E.
  destruct E as (Hv & Hp & Ho & Hs & _). unfold grows. cbn in *. auto.
Qed.

Lemma only_adds_mapM {A B} (f : A -> M B) l :
  (forall a, only_adds (f a)) -> only_adds (mapM f l).
Proof.
  intros Hf. induction l as [|a l IH]; cbn [mapM].
  - apply only_adds_ret.
  - apply only_adds_bind; [apply Hf|]. intros b.
    apply only_adds_bind; [apply IH|]. intros bs. apply only_adds_ret.
Qed.

Ltac adds_layer :=
  apply only_adds_bind;
  [ apply only_adds_with_variable_scope, only_adds_bind;
    [ apply only_adds_get_variable
    | intros ?; apply only_adds_bind;
      [ apply only_adds_get_variable | intros ?; apply only_adds_ret ] ]
  | intros [? ?]; cbn beta iota ].

Lemma only_adds_init_params v cfg shape out coll s :
  only_adds (_init_params (variant_class v) cfg shape out coll s).
Proof.
  destruct v; cbn [variant_class _init_params SimpleNetwork.class
                   ConvNetwork.class].
  - unfold SimpleNetwork._init_params.
    destruct (negb _); [apply only_adds_raise|].
    do 3 adds_layer. apply only_adds_ret.
  - unfold ConvNetwork._init_params.
    destruct (negb _); [apply only_adds_raise|].
    do 5 adds_layer. apply only_adds_ret.
Qed.

Lemma only_adds_init_layers v cfg x ps s :
  only_adds (_init_layers (variant_class v) cfg x ps s).
Proof.
  intros g r g' H.
  assert (E := init_layers_graph v cfg x ps s g). rewrite H in E.
  cbn in E. subst. apply grows_refl.
Qed.

Lemma only_adds_minimize opt loss vars gs :
  only_adds (Network.minimize opt loss vars gs).
Proof.
  intros g [op|e] g' H.
  - apply minimize_Ok in H as (_ & -> & _).
    exact (only_adds_add_operation op g (Ok op) _ eq_refl).
  - apply minimize_Raise in H as (_ & ->). apply grows_refl.
Qed.

Lemma only_adds_init_optimizer cfg params loss reps gs s :
  only_adds (Network._init_optimizer cfg params loss reps gs s).
Proof.
  intros g r g' H. rewrite init_optimizer_eq in H.
  destruct (momentum cfg); [destruct (rmsprop_decay cfg)|];
    [destruct (dict_get _ _)|..];
    try (inversion H; apply grows_refl).
  eapply only_adds_minimize; exact H.
Qed.

Lemma only_adds_init_target_network v cfg x shape n params ps wk s :
  only_adds (Network._init_target_network (variant_class v) cfg x shape n
                                          params ps wk s).
Proof.
  unfold Network._init_target_network.
  destruct (negb (disable_target_replication cfg)); cbv beta iota zeta;
    (apply only_adds_bind;
     [ apply only_adds_with_variable_scope, only_adds_bind;
       [ apply only_adds_with_device, only_adds_init_params
       | intros tp; apply only_adds_bind;
         [ apply only_adds_init_layers
         | intros [? ?]; apply only_adds_ret ] ]
     | intros [tp tq]; apply only_adds_bind;
       [ apply only_adds_mapM; intros [? ?]; apply only_adds_add_operation
       | intros ?; apply only_adds_ret ] ]).
Qed.

Lemma only_adds_init_network v cfg shape n reps ps wk :
  only_adds (Network._init_network
               (Network.__init__ (variant_class v) shape n reps ps wk) cfg).
Proof.
  unfold Network._init_network, Network.__init__.
  cbn [Network.cls Network.input_shape Network.num_actions
       Network.num_replicas Network.ps_device Network.worker_device].
  do 3 (apply only_adds_bind; [apply only_adds_placeholder | intros ?]).
  apply only_adds_bind;
    [apply only_adds_with_device, only_adds_init_params | intros params].
  apply only_adds_bind; [apply only_adds_init_layers | intros [q reg]].
  apply only_adds_bind; [apply only_adds_tf_Variable | intros gs].
  destruct (Network._init_loss _ _ _ _ _ _) as [loss summaries].
  apply only_adds_bind; [apply only_adds_init_optimizer | intros train].
  apply only_adds_bind;
    [apply only_adds_init_target_network | intros [tq ops]].
  apply only_adds_ret.
Qed.

(** X1. Whatever the inputs and whether it returns a network or raises,
    the factory only adds to the graph: the variables, placeholders and
    operations that were there are still there, in the same order, and
    the ambient variable scope and device are left as they were found. *)
Theorem X1_factory_only_adds_to_the_graph cfg shape n reps ps wk g r g' :
  Network.create_network cfg shape n reps ps wk g = (r, g') ->
  grows g g'.
Proof.
  unfold Network.create_network.
  destruct (dict_get _ (network cfg)) as [Net|] eqn:HNet.
  - apply network_table_get in HNet as (v & _ & ->).
    apply only_adds_init_network.
  - apply only_adds_raise.
Qed.

(** X1, witness: a construction that fails at the optimizer, after the
    online network was built. *)
Lemma X1_witness :
  grows empty_graph
        (snd (Network.create_network unknown_optimizer_config [4%N] 2 1
                                     None None empty_graph)).
Proof.
  apply (X1_factory_only_adds_to_the_graph
           unknown_optimizer_config [4%N] 2 1 None None empty_graph
           (fst (Network.create_network unknown_optimizer_config [4%N] 2 1
                                        None None empty_graph))).
  apply surjective_pairing.
Defined.

(** ** The online half *)

Lemma with_device_Ok {A} d (body : M A) g a g' :
  with_device d body g = (Ok a, g') ->
  exists g1,
    body (set_device g (device_requests d (device g))) = (Ok a, g1) /\
    g' = set_device g1 (device g).
Proof.
  rewrite with_device_eq.
  destruct (body (set_device g (device_requests d (device g)))) as [r g1].
  cbn [fst snd]. intros H. inversion H. subst. eauto.
Qed.

Lemma with_device_Raise {A} d (body : M A) g e g' :
  with_device d body g = (Raise e, g') ->
  exists g1,
    body (set_device g (device_requests d (device g))) = (Raise e, g1).
Proof.
  rewrite with_device_eq.
  destruct (body (set_device g (device_requests d (device g)))) as [r g1].
  cbn [fst snd]. intros H. inversion H. subst. eauto.
Qed.

(** The online half of [_init_network]: its parameters and the graph it
    leaves. *)
Lemma online_params_Ok v cfg shape n ps s g params g' :
  with_device ps (_init_params (variant_class v) cfg shape n None s) g
    = (Ok params, g') ->
  length shape = variant_rank v /\
  params = param_list (length (variables g)) (scope g)
                      (device_requests ps (device g)) None
                      (layer_spec v shape n) /\
  g' = extend g params.
Proof.
  intros H. apply with_device_Ok in H as (g1 & H & ->).
  apply init_params_Ok in H as (Hrank & -> & ->).
  destruct g; cbn. auto.
Qed.

(** ** Names of variables *)

(** A layer's two variables are created only if neither name is taken. *)
Lemma scope_pair_unused name wshape bshape winit binit coll g0 vs r g' :
  with_variable_scope name (
    w <- get_variable "w" wshape winit coll ;;
    b <- get_variable "b" bshape binit coll ;;
    ret (w, b)) (extend g0 vs) = (Ok r, g') ->
  name_in_use g0 (String.concat "/" (scope g0 ++ [name; "w"])) = false /\
  name_in_use g0 (String.concat "/" (scope g0 ++ [name; "b"])) = false.
Proof.
  unfold with_variable_scope, bind, get_variable, ret.
  set (g1 := set_scope (extend g0 vs) _).
  destruct (name_in_use g1 _) eqn:Hw; [discriminate|].
  set (g2 := add_variable g1 _) in *.
  destruct (name_in_use g2 _) eqn:Hb; [discriminate|].
  intros _. subst g2 g1.
  unfold scoped_name, add_variable, set_scope, extend, name_in_use in *.
  cbn [variables placeholders operations scope device] in *.
  rewrite <- !app_assoc in *. cbn [app] in *.
  rewrite !map_app, !existsb_app in *.
  apply orb_false_iff in Hw as [Hw _].
  apply orb_false_iff in Hb as [Hb _].
  split; assumption.
Qed.

Ltac layer_unused H U :=
  let p := fresh "p" in
  let g1 := fresh "g" in
  let H1 := fresh "H" in
  step H p g1 H1; pose proof (scope_pair_unused _ _ _ _ _ _ _ _ _ _ H1) as U;
  apply scope_pair_Ok in H1; destruct H1 as [-> ->];
  cbn [fst snd app length Nat.add] in H.

(** The parameter builders succeed only if none of their names is taken. *)
Lemma init_params_names_unused v cfg shape out coll s g ps g' :
  _init_params (variant_class v) cfg shape out coll s g = (Ok ps, g') ->
  forall r, In r (relative_names (layer_spec v shape out)) ->
    name_in_use g (String.concat "/" (scope g ++ r)) = false.
Proof.
  rewrite <- (extend_nil g) at 1.
  destruct v; cbn [variant_class _init_params SimpleNetwork.class
                   ConvNetwork.class variant_rank].
  - unfold SimpleNetwork._init_params.
    destruct (length shape =? 1)%nat eqn:Hr; cbn [negb]; [|discriminate].
    intros H.
    layer_unused H U1. layer_unused H U2. layer_unused H U3.
    destruct U1, U2, U3.
    intros r Hin. cbn in Hin.
    repeat (destruct Hin as [<-|Hin]; [assumption|]). destruct Hin.
  - unfold ConvNetwork._init_params.
    destruct (length shape =? 3)%nat eqn:Hr; cbn [negb]; [|discriminate].
    intros H.
    layer_unused H U1. layer_unused H U2. layer_unused H U3.
    layer_unused H U4. layer_unused H U5.
    destruct U1, U2, U3, U4, U5.
    intros r Hin. cbn in Hin.
    repeat (destruct Hin as [<-|Hin]; [assumption|]). destruct Hin.
Qed.

Lemma init_target_network_names_unused
    v cfg x shape n params ps wk s g r0 g' :
  Network._init_target_network (variant_class v) cfg x shape n params
                               ps wk s g = (Ok r0, g') ->
  forall r, In r (relative_names (layer_spec v shape n)) ->
    name_in_use g (String.concat "/" (scope g ++ "target" :: r)) = false.
Proof.
  unfold Network._init_target_network.
  destruct (negb (disable_target_replication cfg)); cbv beta iota zeta;
    intros H r Hr;
    apply bind_Ok in H as ([tp tq] & g1 & H1 & _);
    rewrite with_variable_scope_eq in H1;
    inversion H1 as [[Hres Hg]]; clear H1;
    (destruct (bind _ _ _) as [[[tp' tq']|e] g2] eqn:Hb; [|discriminate]);
    apply bind_Ok in Hb as (tp0 & g3 & H3 & _);
    apply with_device_Ok in H3 as (g4 & Hp & _);
    apply (init_params_names_unused _ _ _ _ _ _ _ _ _ Hp r) in Hr;
    unfold name_in_use, set_device, set_scope in Hr;
    cbn [variables scope] in Hr; rewrite <- app_assoc in Hr; exact Hr.
Qed.

Lemma name_in_use_app vs pls ops sc dev vs' pls' ops' sc' dev' full :
  name_in_use (mkGraph (vs ++ vs') pls' ops' sc' dev') full = false ->
  name_in_use (mkGraph vs pls ops sc dev) full = false.
Proof.
  unfold name_in_use. cbn [variables]. rewrite map_app, existsb_app.
  intros H. now apply orb_false_iff in H as [H _].
Qed.

(** The factory returns a network only if none of its names was taken. *)
Lemma create_network_names_free cfg shape n reps ps wk g net g' :
  Network.create_network cfg shape n reps ps wk g = (Ok net, g') ->
  exists v, network cfg = variant_key v /\ names_free v shape n g.
Proof.
  unfold Network.create_network.
  destruct (dict_get _ (network cfg)) as [Net|] eqn:HNet; [|discriminate].
  apply network_table_get in HNet as (v & Hkey & ->).
  unfold Network._init_network, Network.__init__.
  cbn [Network.cls Network.input_shape Network.num_actions
       Network.num_replicas Network.ps_device Network.worker_device].
  intros H. exists v. split; [exact Hkey|].
  step H x g1 H1. step H qp g2 H2. step H act g3 H3.
  inversion H1; subst x g1; clear H1.
  inversion H2; subst qp g2; clear H2.
  inversion H3; subst act g3; clear H3.
  cbn [placeholders variables operations scope device length] in H.
  step H params g4 H4.
  pose proof H4 as H4'. apply with_device_Ok in H4' as (g4' & Hp & _).
  apply online_params_Ok in H4 as (Hrank & Hparams & ->).
  step H l g5 H5. destruct l as [q reg].
  apply (f_equal snd) in H5. rewrite init_layers_graph in H5.
  cbn [snd] in H5. subst g5.
  step H gs g6 H6. inversion H6; subst gs g6; clear H6.
  destruct (Network._init_loss _ _ _ _ _ _) as [loss summaries].
  step H train g7 H7. apply init_optimizer_Ok in H7 as (opt & _ & ->).
  step H r g8 H8.
  intros r0 Hr0. split.
  - apply (init_params_names_unused _ _ _ _ _ _ _ _ _ Hp r0) in Hr0.
    exact Hr0.
  - apply (init_target_network_names_unused _ _ _ _ _ _ _ _ _ _ _ _ H8 r0)
      in Hr0.
    unfold extend_ops, add_variable, extend in Hr0.
    cbn [variables placeholders operations scope device] in Hr0.
    rewrite <- app_assoc in Hr0. destruct g as [vs pls ops sc dev].
    eapply name_in_use_app. exact Hr0.
Qed.

(** ** When the factory succeeds *)

Lemma dict_get_Some_In {V} (d : list (string * V)) key x :
  dict_get d key = Some x -> In key (map fst d).
Proof.
  induction d as [|[k y] d IH]; cbn [dict_get map fst]; [discriminate|].
  destruct (String.eqb_spec k key) as [->|_]; [now left|].
  intros H. right. now apply IH.
Qed.

Lemma init_optimizer_success cfg params loss reps gs s g op g' :
  Network._init_optimizer cfg params loss reps gs s g = (Ok op, g') ->
  In (optimizer cfg) supported_optimizers /\
  (exists m, momentum cfg = Some m) /\
  (exists d, rmsprop_decay cfg = Some d).
Proof.
  rewrite init_optimizer_eq.
  destruct (momentum cfg) as [m|]; [|discriminate].
  destruct (rmsprop_decay cfg) as [d|]; [|discriminate].
  destruct (dict_get _ (optimizer cfg)) as [ctor|] eqn:E; [|discriminate].
  intros _. apply dict_get_Some_In in E. eauto.
Qed.

Lemma create_network_success_optimizer cfg shape n reps ps wk g net g' :
  Network.create_network cfg shape n reps ps wk g = (Ok net, g') ->
  In (optimizer cfg) supported_optimizers /\
  (exists m, momentum cfg = Some m) /\
  (exists d, rmsprop_decay cfg = Some d).
Proof.
  unfold Network.create_network.
  destruct (dict_get _ (network cfg)) as [Net|]; [|discriminate].
  unfold Network._init_network. intros H.
  step H x g1 H1. step H qp g2 H2. step H act g3 H3.
  step H params g4 H4. step H l g5 H5. destruct l as [q reg].
  step H gs g6 H6.
  destruct (Network._init_loss _ _ _ _ _ _) as [loss summaries].
  step H train g7 H7.
  eapply init_optimizer_success; eauto.
Qed.

(** X2. When the factory succeeds. The factory returns a network only
    when the network name is one of the two variants, the input shape has
    the rank the variant requires, the optimizer name is one of the
    seven, the configuration carries both the momentum and the
    rmsprop-decay field, and none of the names it gives to the online and
    target parameters under the current variable scope is taken. *)
Theorem X2_factory_succeeds_only_on_valid_input
    cfg shape n reps ps wk g net g' :
  Network.create_network cfg shape n reps ps wk g = (Ok net, g') ->
  exists v,
    network cfg = variant_key v /\
    length shape = variant_rank v /\
    In (optimizer cfg) supported_optimizers /\
    (exists m, momentum cfg = Some m) /\
    (exists d, rmsprop_decay cfg = Some d) /\
    names_free v shape n g.
Proof.
  intros H.
  destruct (create_network_success_optimizer _ _ _ _ _ _ _ _ _ H)
    as (Hopt & Hm & Hd).
  destruct (create_network_names_free _ _ _ _ _ _ _ _ _ H)
    as (v & Hkey & Hfree).
  apply create_network_Ok in H. destruct H as (v' & _ & Hkey' & Hrank & _).
  assert (v' = v) as ->
    by (destruct v, v'; cbn in *; congruence).
  exists v. auto 10.
Qed.

(** X2, witness: after a first network at top level, a second one under
    the variable scope [replica1] of the same graph. *)
Lemma X2_witness :
  exists net g',
    Network.create_network cnn_config [84; 84; 4]%N 6 2 None None
      (set_scope
         (snd (Network.create_network simple_config [4%N] 2 1 None None
                                      empty_graph))
         ["replica1"])
    = (Ok net, g') /\
    names_free Convolutional [84; 84; 4]%N 6
      (set_scope
         (snd (Network.create_network simple_config [4%N] 2 1 None None
                                      empty_graph))
         ["replica1"]).
Proof.
  construct (Network.create_network cnn_config [84; 84; 4]%N 6 2 None None
               (set_scope
                  (snd (Network.create_network simple_config [4%N] 2 1
                                               None None empty_graph))
                  ["replica1"])) net g' H.
  exists net, g'. split; [exact H|].
  destruct (X2_factory_succeeds_only_on_valid_input
              cnn_config [84; 84; 4]%N 6 2 None None
              (set_scope
                 (snd (Network.create_network simple_config [4%N] 2 1
                                              None None empty_graph))
                 ["replica1"]) net g' H)
    as (v & Hkey & _ & _ & _ & _ & Hfree).
  destruct v; [discriminate Hkey | exact Hfree].
Defined.

(** ** What a failed construction leaves in the graph *)

Lemma init_params_raises_any v cfg shape out coll s :
  raises_only (fun e => is_ValueError e \/ is_shape_mismatch e)
              (_init_params (variant_class v) cfg shape out coll s).
Proof.
  destruct (Nat.eq_dec (length shape) (variant_rank v)) as [Hrank|Hrank].
  - eapply raises_only_weaken; [|apply init_params_raises; exact Hrank].
    intros e He; now left.
  - intros g e g' H. right. apply Nat.eqb_neq in Hrank.
    destruct v; cbn [variant_class _init_params SimpleNetwork.class
                     ConvNetwork.class variant_rank] in *;
      [unfold SimpleNetwork._init_params in H
      |unfold ConvNetwork._init_params in H];
      rewrite Hrank in H; cbn [negb] in H; inversion H;
      [left | right]; reflexivity.
Qed.

Lemma not_optimizer_error_ValueError cfg e :
  is_ValueError e -> ~ is_optimizer_error cfg e.
Proof. intros [msg ->] [E|[E|E]]; discriminate E. Qed.

Lemma not_optimizer_error_shape_mismatch cfg e :
  is_shape_mismatch e -> ~ is_optimizer_error cfg e.
Proof. intros [-> | ->] [E|[E|E]]; discriminate E. Qed.

(** X3. What a failed construction leaves in the graph. When the input
    shape has the wrong rank for the selected variant, the factory leaves
    the three placeholders it had created and nothing else. When the
    optimizer builder fails (a missing coefficient field or an unknown
    optimizer name), the error comes out of the factory only after the
    online network has been built: the graph then holds the three
    placeholders, all online parameters and the step counter, and no new
    operation. *)
Theorem X3_what_a_failed_construction_leaves cfg shape n reps ps wk g :
  (forall v, network cfg = variant_key v -> length shape <> variant_rank v ->
     snd (Network.create_network cfg shape n reps ps wk g) =
     mkGraph (variables g)
             (placeholders g ++
                [None :: map Some shape; [None]; [None; Some n]])
             (operations g) (scope g) (device g)) /\
  (forall e g',
     Network.create_network cfg shape n reps ps wk g = (Raise e, g') ->
     is_optimizer_error cfg e ->
     exists v,
       network cfg = variant_key v /\
       length shape = variant_rank v /\
       g' = mkGraph (variables g ++ online_of v shape n ps g ++
                       [step_of v shape n ps g])
                    (placeholders g ++
                       [None :: map Some shape; [None]; [None; Some n]])
                    (operations g) (scope g) (device g)).
Proof.
  split.
  - intros v Hkey Hrank. unfold Network.create_network. rewrite Hkey.
    apply Nat.eqb_neq in Hrank.
    destruct v; cbn [variant_key dict_get String.eqb Ascii.eqb Bool.eqb
                     variant_rank] in *;
      unfold Network._init_network, Network.__init__;
      cbn [Network.cls Network.input_shape Network.num_actions
           Network.num_replicas Network.ps_device Network.worker_device];
      unfold bind at 1; unfold placeholder at 1;
      unfold bind at 1; unfold placeholder at 1;
      unfold bind at 1; unfold placeholder at 1;
      unfold bind at 1; rewrite with_device_eq;
      cbn [_init_params SimpleNetwork.class ConvNetwork.class];
      [unfold SimpleNetwork._init_params | unfold ConvNetwork._init_params];
      rewrite Hrank; cbn [negb raise fst snd]; unfold set_device; cbn;
      rewrite <- !app_assoc; reflexivity.
  - intros e g' H He. unfold Network.create_network in H.
    destruct (dict_get _ (network cfg)) as [Net|] eqn:HNet.
    2:{ inversion H; subst. destruct He as [E|[E|E]]; discriminate E. }
    apply network_table_get in HNet as (v & Hkey & ->).
    exists v. split; [exact Hkey|].
    unfold Network._init_network, Network.__init__ in H.
    cbn [Network.cls Network.input_shape Network.num_actions
         Network.num_replicas Network.ps_device Network.worker_device] in H.
    apply bind_Raise in H as [H|(x & g1 & H1 & H)]; [discriminate H|].
    apply bind_Raise in H as [H|(qp & g2 & H2 & H)]; [discriminate H|].
    apply bind_Raise in H as [H|(act & g3 & H3 & H)]; [discriminate H|].
    inversion H1; subst x g1; clear H1.
    inversion H2; subst qp g2; clear H2.
    inversion H3; subst act g3; clear H3.
    cbn [placeholders variables operations scope device length] in H.
    apply bind_Raise in H as [H|(params & g4 & H4 & H)].
    { apply with_device_Raise in H as (g1 & H).
      apply init_params_raises_any in H as [H|H];
        [apply (not_optimizer_error_ValueError cfg) in H
        |apply (not_optimizer_error_shape_mismatch cfg) in H];
        contradiction. }
    apply online_params_Ok in H4 as (Hrank & Hparams & ->).
    cbn [placeholders variables operations scope device length] in Hparams.
    split; [exact Hrank|].
    apply bind_Raise in H as [H|([q reg] & g5 & H5 & H)].
    { apply init_layers_raises in H.
      apply (not_optimizer_error_ValueError cfg) in H. contradiction. }
    apply (f_equal snd) in H5. rewrite init_layers_graph in H5.
    cbn [snd] in H5. subst g5.
    apply bind_Raise in H as [H|(gs & g6 & H6 & H)]; [discriminate H|].
    inversion H6; subst gs g6; clear H6.
    destruct (Network._init_loss _ _ _ _ _ _) as [loss summaries].
    apply bind_Raise in H as [H|(train & g7 & H7 & H)].
    { rewrite init_optimizer_eq in H.
      assert (Eg : g' = add_variable
                (extend
                   (mkGraph (variables g)
                      (((placeholders g ++ [None :: map Some shape]) ++
                        [[None]]) ++ [[None; Some n]])
                      (operations g) (scope g) (device g)) params)
                (mkVariable
                   (length (variables g ++ params))
                   (String.concat "/" (scope g ++ ["global_step"])) []
                   (constant_initializer 0) None false (device g))).
      { destruct (momentum cfg); [destruct (rmsprop_decay cfg)|];
          [destruct (dict_get _ _)|..]; try (inversion H; reflexivity).
        apply minimize_Raise in H as [Hv _].
        apply (not_optimizer_error_ValueError cfg) in Hv. contradiction. }
      rewrite Eg. unfold add_variable, extend, step_of, online_of.
      cbn [placeholders variables operations scope device].
      rewrite <- Hparams, <- !app_assoc, length_app. reflexivity. }
    apply bind_Raise in H as [H|([tq ops] & g8 & H8 & H)];
      [|discriminate H].
    apply init_target_network_raises in H; [|exact Hrank].
    apply (not_optimizer_error_ValueError cfg) in H. contradiction.
Qed.

(** X3, witness: an unknown optimizer name on the empty graph leaves the
    six parameters of the simple variant and the step counter, and no
    operation. *)
Lemma X3_witness :
  exists v,
    network (mkConfig "simple" "nesterov" 0.1 (Some 0.9) (Some 0.9) 0.01
                      false 0 false) = variant_key v /\
    length [4%N] = variant_rank v /\
    snd (Network.create_network
           (mkConfig "simple" "nesterov" 0.1 (Some 0.9) (Some 0.9) 0.01
                     false 0 false)
           [4%N] 2 1 None None empty_graph) =
    mkGraph (variables empty_graph ++ online_of v [4%N] 2 None empty_graph ++
               [step_of v [4%N] 2 None empty_graph])
            (placeholders empty_graph ++
               [None :: map Some [4%N]; [None]; [None; Some 2%N]])
            (operations empty_graph) (scope empty_graph)
            (device empty_graph).
Proof.
  assert (H : Network.create_network
                (mkConfig "simple" "nesterov" 0.1 (Some 0.9) (Some 0.9) 0.01
                          false 0 false)
                [4%N] 2 1 None None empty_graph =
              (Raise (RuntimeError "Unsupported optimizer nesterov"),
               snd (Network.create_network
                      (mkConfig "simple" "nesterov" 0.1 (Some 0.9) (Some 0.9)
                                0.01 false 0 false)
                      [4%N] 2 1 None None empty_graph)))
    by (vm_compute; reflexivity).
  exact (proj2 (X3_what_a_failed_construction_leaves
                  (mkConfig "simple" "nesterov" 0.1 (Some 0.9) (Some 0.9)
                            0.01 false 0 false)
                  [4%N] 2 1 None None empty_graph)
               _ _ H (or_intror (or_intror eq_refl))).
Defined.

(** ** Two networks in one variable scope *)

Lemma output_w_is_a_parameter v shape n :
  In ["output"; "w"] (relative_names (layer_spec v shape n)).
Proof. destruct v; cbn; auto 12. Qed.

Lemma name_in_use_In g full :
  In full (map var_name (variables g)) -> name_in_use g full = true.
Proof.
  intros H. unfold name_in_use. apply existsb_exists.
  exists full. split; [exact H | apply String.eqb_refl].
Qed.

(** With the name of the output weight taken, the construction stops at
    the online parameters with the error of [tf.get_variable]. *)
Lemma init_network_collision v cfg shape n reps ps wk g :
  length shape = variant_rank v ->
  name_in_use g (String.concat "/" (scope g ++ ["output"; "w"])) = true ->
  exists msg g',
    Network._init_network
      (Network.__init__ (variant_class v) shape n reps ps wk) cfg g
    = (Raise (ValueError msg), g').
Proof.
  intros Hrank Huse.
  unfold Network._init_network, Network.__init__.
  cbn [Network.cls Network.input_shape Network.num_actions
       Network.num_replicas Network.ps_device Network.worker_device].
  unfold bind at 1; unfold placeholder at 1.
  unfold bind at 1; unfold placeholder at 1.
  unfold bind at 1; unfold placeholder at 1.
  unfold bind at 1. rewrite with_device_eq.
  cbn [placeholders variables operations scope device].
  set (G := set_device _ _).
  destruct (_init_params (variant_class v) cfg shape n None (Some []) G)
    as [[params|e] g4] eqn:E; cbn [fst snd].
  - exfalso.
    pose proof (init_params_names_unused _ _ _ _ _ _ _ _ _ E ["output"; "w"]
                  (output_w_is_a_parameter v shape n)) as U.
    subst G. unfold name_in_use, set_device in U.
    cbn [variables scope] in U. unfold name_in_use in Huse.
    rewrite Huse in U. discriminate U.
  - apply init_params_raises in E as [msg ->]; [|exact Hrank].
    eauto.
Qed.

(** X4. A graph and variable scope hold one network. After the factory
    has returned a network, another call on the resulting graph, for
    either variant and whatever the configuration, devices and sizes,
    does not return a second network: with a known variant and an input
    shape of its rank it raises the error of [tf.get_variable] for a
    variable that already exists (both variants name a layer [output]). *)
Theorem X4_one_network_per_variable_scope
    cfg shape n reps ps wk g net g' cfg2 shape2 n2 reps2 ps2 wk2 v2 :
  Network.create_network cfg shape n reps ps wk g = (Ok net, g') ->
  network cfg2 = variant_key v2 ->
  length shape2 = variant_rank v2 ->
  exists msg g'',
    Network.create_network cfg2 shape2 n2 reps2 ps2 wk2 g'
    = (Raise (ValueError msg), g'').
Proof.
  intros H Hkey2 Hrank2.
  apply create_network_Ok in H as (v & opt & _ & _ & _ & Hg').
  unfold Network.create_network. rewrite Hkey2.
  replace (dict_get _ (variant_key v2)) with (Some (variant_class v2))
    by (destruct v2; reflexivity).
  apply init_network_collision; [exact Hrank2|].
  apply name_in_use_In. rewrite Hg'.
  cbn [variables scope]. rewrite !map_app. apply in_or_app. right.
  apply in_or_app. left. unfold online_of. rewrite param_list_names.
  apply (in_map (fun r => String.concat "/" (scope g ++ r))).
  apply output_w_is_a_parameter.
Qed.

(** X4, witness: a convolutional network after a simple one. *)
Lemma X4_witness :
  exists msg g'',
    Network.create_network cnn_config [84; 84; 4]%N 6 2 None None
      (snd (Network.create_network simple_config [4%N] 2 1 None None
                                   empty_graph))
    = (Raise (ValueError msg), g'').
Proof.
  construct (Network.create_network simple_config [4%N] 2 1 None None
                                    empty_graph) net g' H.
  exact (X4_one_network_per_variable_scope
           simple_config [4%N] 2 1 None None empty_graph net g'
           cnn_config [84; 84; 4]%N 6 2 None None Convolutional
           H eq_refl eq_refl).
Defined.

(** ** Where the variables are placed *)

Lemma param_list_placement id prefix dev coll layers p :
  In p (param_list id prefix dev coll layers) ->
  var_device p = dev /\ var_collections p = coll /\ var_trainable p = true.
Proof.
  revert id. induction layers as [|[[name wshape] bshape] rest IH];
    intros id; cbn [param_list]; [intros []|].
  intros [<-|[<-|H]]; cbn; auto. eapply IH; eauto.
Qed.

(** X5. Placement of the variables of a network the factory returns.
    Every online parameter is created under the request for the
    parameter-server device, inside the requests in force when the
    factory was called (none of them when that device is [None]), and
    ends up in the collections of global and of trainable variables.
    Every target parameter is created under the request for the worker
    device and ends up in the collections of local and of trainable
    variables, unless target replication is disabled: then it is under
    the request for the parameter-server device and in the collection of
    trainable variables only. The step counter is created under the
    requests in force when the factory was called and is a global
    variable that is not trainable. *)
Theorem X5_variable_placement cfg shape n reps ps wk g net g' :
  Network.create_network cfg shape n reps ps wk g = (Ok net, g') ->
  (forall p, In p (online_params net) ->
     var_device p = device_requests ps (device g) /\
     collections_of p = [GLOBAL_VARIABLES; TRAINABLE_VARIABLES]) /\
  (forall t, In t (target_params net) ->
     var_device t =
       device_requests (if disable_target_replication cfg then ps else wk)
                       (device g) /\
     collections_of t =
       (if disable_target_replication cfg then [TRAINABLE_VARIABLES]
        else [LOCAL_VARIABLES; TRAINABLE_VARIABLES])) /\
  (exists gs,
     Network.global_step net = Some gs /\
     var_device gs = device g /\
     collections_of gs = [GLOBAL_VARIABLES]).
Proof.
  intros H. apply create_network_params in H
    as (v & _ & _ & -> & -> & Hgs & _).
  split; [|split].
  - intros p Hp. apply param_list_placement in Hp as (Hd & Hc & Ht).
    unfold collections_of. rewrite Hc, Ht. split; [exact Hd | reflexivity].
  - intros t Ht. apply param_list_placement in Ht as (Hd & Hc & Htr).
    unfold collections_of. rewrite Hc, Htr.
    destruct (disable_target_replication cfg);
      (split; [exact Hd | reflexivity]).
  - exists (step_of v shape n ps g). split; [exact Hgs|].
    split; reflexivity.
Qed.

(** X5, witness: the convolutional sample, on two devices, with target
    replication disabled. *)
Lemma X5_witness :
  exists net g',
    Network.create_network cnn_config [84; 84; 4]%N 6 2 (Some "/job:ps")
                           (Some "/job:worker") empty_graph = (Ok net, g') /\
    forall t, In t (target_params net) ->
      var_device t = ["/job:ps"] /\
      collections_of t = [TRAINABLE_VARIABLES].
Proof.
  construct (Network.create_network cnn_config [84; 84; 4]%N 6 2
               (Some "/job:ps") (Some "/job:worker") empty_graph) net g' H.
  exists net, g'. split; [exact H|].
  intros t Ht.
  exact (proj1 (proj2 (X5_variable_placement
                         cnn_config [84; 84; 4]%N 6 2 (Some "/job:ps")
                         (Some "/job:worker") empty_graph net g' H))
               t Ht).
Defined.

(** ** The loss *)

(** X6. A network the factory returns always has a summary operation: it
    merges exactly one scalar summary, asked for under the name [loss]
    (TensorFlow forms the tag from it and the name scope in force), of
    the very tensor the training operation minimizes. *)
Theorem X6_summary_reports_the_minimized_loss cfg shape n reps ps wk g net g' :
  Network.create_network cfg shape n reps ps wk g = (Ok net, g') ->
  exists opt loss var_list gs,
    Network.train_op net = Some (Minimize opt loss var_list gs) /\
    Network.summary_op net = Some (MergeSummary [ScalarSummary "loss" loss]).
Proof.
  intros H. apply create_network_Ok in H
    as (v & opt & _ & _ & -> & _).
  cbn. eauto 10.
Qed.

(** X6, witness: the simple sample. *)
Lemma X6_witness :
  exists net g' loss,
    Network.create_network simple_config [4%N] 2 1 None None empty_graph
      = (Ok net, g') /\
    Network.summary_op net = Some (MergeSummary [ScalarSummary "loss" loss]).
Proof.
  construct (Network.create_network simple_config [4%N] 2 1 None None
                                    empty_graph) net g' H.
  destruct (X6_summary_reports_the_minimized_loss
              simple_config [4%N] 2 1 None None empty_graph net g' H)
    as (opt & loss & var_list & gs & _ & Hs).
  exists net, g', loss. split; [exact H | exact Hs].
Defined.

(** ** What the outputs and the loss compute *)

(** The evaluation over the rationals is the rational interpretation. *)
Lemma eval_is_denote feed store t :
  Semantics.eval feed store t = denote rational_interpretation feed store t.
Proof.
  induction t; cbn [Semantics.eval denote rational_interpretation i_value
                    i_unfed i_add i_multiply i_l2_loss i_reduce_sum
                    i_reduce_mean i_squared_difference i_matmul i_tanh
                    i_relu i_conv2d i_max_pool i_reshape];
    try reflexivity;
    try (rewrite ?IHt, ?IHt1, ?IHt2; reflexivity).
  destruct (feed id); reflexivity.
Qed.

(** A tensor's value depends on the feed through its placeholders and on
    the store through its variables. *)
Lemma denote_ext {V} (I : Interpretation V) feed1 feed2 s1 s2 t :
  (forall id, In id (Semantics.placeholders_of t) -> feed1 id = feed2 id) ->
  (forall p, In p (variables_of t) -> s1 (var_id p) = s2 (var_id p)) ->
  denote I feed1 s1 t = denote I feed2 s2 t.
Proof.
  induction t; cbn [denote Semantics.placeholders_of variables_of];
    intros Hf Hs;
    try (rewrite IHt by assumption; reflexivity);
    try (rewrite IHt1, IHt2;
         [reflexivity
         | intros; apply Hf; apply in_or_app; now right
         | intros; apply Hs; apply in_or_app; now right
         | intros; apply Hf; apply in_or_app; now left
         | intros; apply Hs; apply in_or_app; now left]).
  - rewrite (Hf id) by now left. reflexivity.
  - rewrite (Hs v) by now left. reflexivity.
  - reflexivity.
Qed.

(** X7. The loss a returned network minimizes is computed from the
    online network only. The variables it reads are exactly the online
    parameters, so never a target parameter; the placeholders it reads
    are the observation, the action mask and the expected value. Whatever
    the operations of TensorFlow compute, its value is therefore the same
    for two feeds that agree on these three placeholders and two stores
    that agree on the online parameters. *)
Theorem X7_loss_reads_the_online_network_only
    cfg shape n reps ps wk g net g' :
  Network.create_network cfg shape n reps ps wk g = (Ok net, g') ->
  exists opt loss gs x a qp,
    Network.train_op net = Some (Minimize opt loss (online_params net) gs) /\
    Network.x_placeholder net = Some x /\
    Network.action_placeholder net = Some a /\
    Network.q_placeholder net = Some qp /\
    (forall p, In p (variables_of loss) <-> In p (online_params net)) /\
    (forall t, In t (target_params net) ->
       ~ In (var_id t) (map var_id (variables_of loss))) /\
    Semantics.placeholders_of loss =
      (Semantics.placeholders_of x ++ Semantics.placeholders_of a ++
       Semantics.placeholders_of qp)%list /\
    forall V (I : Interpretation V) feed1 feed2 s1 s2,
      (forall id,
         In id (Semantics.placeholders_of x ++ Semantics.placeholders_of a ++
                Semantics.placeholders_of qp) -> feed1 id = feed2 id) ->
      (forall p, In p (online_params net) -> s1 (var_id p) = s2 (var_id p)) ->
      denote I feed1 s1 loss = denote I feed2 s2 loss.
Proof.
  intros H.
  destruct (create_network_params _ _ _ _ _ _ _ _ _ H)
    as (v & _ & _ & Hon & Htg & _ & _ & _ & _).
  apply create_network_Ok in H as (v' & opt & _ & _ & Hnet & _).
  assert (v' = v) as ->.
  { rewrite Hnet in Hon. cbn in Hon.
    destruct v, v'; try reflexivity; cbn in Hon;
      apply (f_equal (@length _)) in Hon; discriminate Hon. }
  rewrite Htg, Hon. rewrite Hnet.
  cbn [Network.train_op Network.x_placeholder Network.action_placeholder
       Network.q_placeholder].
  exists opt, (loss_of v cfg shape n ps g), (Some (step_of v shape n ps g)),
    (x_of shape g), (action_of n g), (q_of g).
  refine (conj eq_refl (conj eq_refl (conj eq_refl (conj eq_refl
            (conj _ (conj _ (conj _ _))))))).
  - intros p. apply loss_variables.
  - intros t Ht Hin. apply in_map_iff in Hin as (p & Hid & Hp).
    apply (proj1 (loss_variables v cfg shape n ps g p)) in Hp.
    apply (online_target_disjoint v cfg shape n ps wk g t p Ht Hp).
    now symmetry.
  - apply loss_placeholders.
  - intros V I feed1 feed2 s1 s2 Hf Hs. apply denote_ext.
    + intros id Hid. apply Hf. rewrite <- (loss_placeholders v cfg shape n ps g).
      exact Hid.
    + intros p Hp. apply Hs.
      apply (proj1 (loss_variables v cfg shape n ps g p)). exact Hp.
Qed.

(** X7, witness: the simple sample. *)
Lemma X7_witness :
  exists net g' opt loss gs,
    Network.create_network simple_config [4%N] 2 1 None None empty_graph
      = (Ok net, g') /\
    Network.train_op net = Some (Minimize opt loss (online_params net) gs) /\
    forall p, In p (variables_of loss) <-> In p (online_params net).
Proof.
  construct (Network.create_network simple_config [4%N] 2 1 None None
                                    empty_graph) net g' H.
  destruct (X7_loss_reads_the_online_network_only
              simple_config [4%N] 2 1 None None empty_graph net g' H)
    as (opt & loss & gs & x & a & qp & Ht & _ & _ & _ & Hv & _).
  exists net, g', opt, loss, gs.
  split; [exact H|]. split; [exact Ht | exact Hv].
Defined.

(** ** The target network after an update *)

Lemma map_pointwise {A B} (f h : A -> B) l1 l2 :
  length l1 = length l2 ->
  (forall i a b, nth_error l1 i = Some a -> nth_error l2 i = Some b ->
     f a = h b) ->
  map f l1 = map h l2.
Proof.
  revert l2. induction l1 as [|a l1 IH]; intros [|b l2] Hlen Hp;
    try discriminate Hlen; [reflexivity|].
  cbn [map]. f_equal.
  - apply (Hp 0%nat); reflexivity.
  - apply IH; [now injection Hlen|].
    intros i a' b' Ha Hb. apply (Hp (S i)); assumption.
Qed.

(** The output of the layers depends on the parameters only through the
    values they hold, position by position. *)
Lemma layers_denote {V} (I : Interpretation V) v cfg x ps1 ps2 feed s1 s2 :
  map (fun p => s1 (var_id p)) ps1 = map (fun p => s2 (var_id p)) ps2 ->
  denote I feed s1 x = denote I feed s2 x ->
  denote I feed s1 (fst (layers_of v cfg x ps1)) =
  denote I feed s2 (fst (layers_of v cfg x ps2)).
Proof.
  intros Hm Hx.
  destruct v; unfold layers_of;
    cbn [variant_class _init_layers SimpleNetwork.class ConvNetwork.class];
    [unfold SimpleNetwork._init_layers | unfold ConvNetwork._init_layers];
    do 11 (destruct ps1 as [|? ps1]; destruct ps2 as [|? ps2];
           try discriminate Hm;
           [ try reflexivity; cbn in Hm; injection Hm; cbn; intros;
             congruence | ]);
    reflexivity.
Qed.

Lemma online_not_target v cfg shape n ps wk g p :
  In p (online_of v shape n ps g) ->
  ~ In (var_id p) (map var_id (target_of v cfg shape n ps wk g)).
Proof.
  intros Hp Hin. apply in_map_iff in Hin as (t & Hid & Ht).
  exact (online_target_disjoint v cfg shape n ps wk g t p Ht Hp Hid).
Qed.

Lemma nth_error_In_both {A B} (l1 : list A) (l2 : list B) a :
  length l1 = length l2 -> In a l1 ->
  exists i b, nth_error l1 i = Some a /\ nth_error l2 i = Some b.
Proof.
  intros Hlen Ha. apply In_nth_error in Ha as [i Hi].
  assert (Hlt : (i < length l2)%nat).
  { rewrite <- Hlen. apply nth_error_Some. rewrite Hi. discriminate. }
  apply nth_error_Some in Hlt.
  destruct (nth_error l2 i) as [b|] eqn:Hb; [|contradiction].
  eauto.
Qed.

(** X8. Running the target-update operations of a returned network makes
    the target network compute what the online network computes. The run
    always succeeds; afterwards, whatever the operations of TensorFlow
    compute and whatever is fed, the target output has the value of the
    online output, while the online output and the loss have the values
    they had before the update. Running the update a second time changes
    nothing. *)
Theorem X8_target_update_copies_the_online_network
    cfg shape n reps ps wk g net g' :
  Network.create_network cfg shape n reps ps wk g = (Ok net, g') ->
  exists q tq ops opt loss gs,
    Network.q_output net = Some q /\
    Network.target_q_output net = Some tq /\
    Network.target_update_ops net = Some ops /\
    Network.train_op net = Some (Minimize opt loss (online_params net) gs) /\
    forall gradients update next feed store,
    exists store',
      Semantics.run_all gradients update next ops feed store = Some store' /\
      (forall V (I : Interpretation V) feed',
         denote I feed' store' tq = denote I feed' store' q /\
         denote I feed' store' q = denote I feed' store q /\
         denote I feed' store' loss = denote I feed' store loss) /\
      exists store'',
        Semantics.run_all gradients update next ops feed store'
          = Some store'' /\
        forall i, store'' i = store' i.
Proof.
  intros H.
  apply create_network_Ok in H as (v & opt & _ & _ & Hnet & _).
  rewrite Hnet. unfold online_params.
  cbn [Network.q_output Network.target_q_output Network.target_update_ops
       Network.train_op].
  set (online := online_of v shape n ps g).
  set (target := target_of v cfg shape n ps wk g).
  exists (fst (layers_of v cfg (x_of shape g) online)),
    (fst (layers_of v cfg (x_of shape g) target)),
    (assign_ops target online), opt, (loss_of v cfg shape n ps g),
    (Some (step_of v shape n ps g)).
  refine (conj eq_refl (conj eq_refl (conj eq_refl (conj eq_refl _)))).
  intros gradients update next feed store.
  assert (Hlen : length target = length online)
    by apply online_target_length.
  assert (Hnd : NoDup (map var_id target)) by apply target_ids_NoDup.
  assert (Hdis : forall t p, In t target -> In p online ->
                             var_id t <> var_id p)
    by (intros t p; apply online_target_disjoint).
  destruct (run_all_assign_ops gradients update next target online feed store
              Hlen Hnd Hdis) as (s' & Hrun & Hcopy & Hother).
  assert (Honline : forall p, In p online -> s' (var_id p) = store (var_id p)).
  { intros p Hp. apply Hother.
    apply (online_not_target v cfg shape n ps wk g p Hp). }
  exists s'. split; [exact Hrun|]. split.
  - intros V I feed'. split; [|split].
    + apply layers_denote; [|reflexivity].
      apply map_pointwise; [exact Hlen|].
      intros i t p Ht Hp. rewrite (Hcopy i t p Ht Hp).
      symmetry. apply Honline. eapply nth_error_In; exact Hp.
    + apply denote_ext; [reflexivity|].
      intros p Hp. apply Honline. unfold online, online_of in *.
      rewrite variables_of_layers in Hp. exact Hp.
    + apply denote_ext; [reflexivity|].
      intros p Hp. apply Honline.
      apply (proj1 (loss_variables v cfg shape n ps g p)). exact Hp.
  - destruct (run_all_assign_ops gradients update next target online feed s'
                Hlen Hnd Hdis) as (s'' & Hrun' & Hcopy' & Hother').
    exists s''. split; [exact Hrun'|].
    intros i.
    destruct (in_dec Nat.eq_dec i (map var_id target)) as [Hin|Hout];
      [|apply Hother'; exact Hout].
    apply in_map_iff in Hin as (t & <- & Ht).
    destruct (nth_error_In_both target online t Hlen Ht) as (k & p & Hk & Hp).
    rewrite (Hcopy' k t p Hk Hp), (Hcopy k t p Hk Hp).
    apply Honline. eapply nth_error_In; exact Hp.
Qed.

(** X8, witness: the simple sample, from a store that gives every
    variable a value of its shape. *)
Lemma X8_witness :
  exists net g' tq q ops store',
    Network.create_network simple_config [4%N] 2 1 None None empty_graph
      = (Ok net, g') /\
    Network.q_output net = Some q /\
    Network.target_q_output net = Some tq /\
    Network.target_update_ops net = Some ops /\
    Semantics.run_all sample_gradients (fun _ _ x _ => x) (fun _ x => x)
                      ops (fun _ => None) (sample_store (variables g'))
      = Some store' /\
    forall V (I : Interpretation V) feed',
      denote I feed' store' tq = denote I feed' store' q.
Proof.
  construct (Network.create_network simple_config [4%N] 2 1 None None
                                    empty_graph) net g' H.
  destruct (X8_target_update_copies_the_online_network
              simple_config [4%N] 2 1 None None empty_graph net g' H)
    as (q & tq & ops & opt & loss & gs & Hq & Htq & Hops & _ & Hrun).
  destruct (Hrun sample_gradients (fun _ _ x _ => x) (fun _ x => x)
                 (fun _ => None) (sample_store (variables g')))
    as (store' & Hrun' & Hden & _).
  exists net, g', tq, q, ops, store'.
  repeat (split; [assumption|]).
  intros V I feed'. apply Hden.
Defined.

(** ** The optimizer of the training operation *)

Lemma init_optimizer_built cfg params loss reps gs s g op g' :
  Network._init_optimizer cfg params loss reps gs s g = (Ok op, g') ->
  exists opt,
    op = Minimize opt loss params gs /\
    optimizer_name (base_optimizer opt) = Some (optimizer cfg) /\
    learning_rate_of (base_optimizer opt) = Some (lr cfg) /\
    coefficient_of (base_optimizer opt) =
      (if String.eqb (optimizer cfg) "momentum" then momentum cfg
       else if String.eqb (optimizer cfg) "rmsprop" then rmsprop_decay cfg
       else None) /\
    opt = (if sync cfg
           then SyncReplicasOptimizer (base_optimizer opt) reps (task_id cfg)
           else base_optimizer opt).
Proof.
  rewrite init_optimizer_eq.
  destruct (momentum cfg) as [m|]; [|discriminate].
  destruct (rmsprop_decay cfg) as [d|]; [|discriminate].
  destruct (dict_get _ (optimizer cfg)) as [ctor|] eqn:E; [|discriminate].
  intros H. apply minimize_Ok in H as (-> & _).
  exists (wrapped cfg reps (ctor (lr cfg))). split; [reflexivity|].
  unfold optimizer_constructors in E. cbn [dict_get] in E.
  repeat match type of E with
         | context [String.eqb ?a ?b] =>
           destruct (String.eqb_spec a b) as [Hn|_];
             [ injection E as <-; rewrite <- Hn; unfold wrapped;
               destruct (sync cfg); cbn; repeat split; reflexivity | ]
         end.
  discriminate E.
Qed.

(** The training operation of a returned network is what the optimizer
    builder made from the online parameters, the factory's number of
    replicas and the step counter. *)
Lemma create_network_train_op cfg shape n reps ps wk g net g' :
  Network.create_network cfg shape n reps ps wk g = (Ok net, g') ->
  exists params loss gs s g1 g2 train,
    Network._init_optimizer cfg params loss reps (Some gs) s g1
      = (Ok train, g2) /\
    Network.train_op net = Some train.
Proof.
  unfold Network.create_network.
  destruct (dict_get _ (network cfg)) as [Net|]; [|discriminate].
  unfold Network._init_network, Network.__init__.
  cbn [Network.cls Network.input_shape Network.num_actions
       Network.num_replicas Network.ps_device Network.worker_device].
  intros H.
  step H x g1 H1. step H qp g2 H2. step H act g3 H3.
  step H params g4 H4. step H l g5 H5. destruct l as [q reg].
  step H gs g6 H6.
  destruct (Network._init_loss _ _ _ _ _ _) as [loss summaries].
  step H train g7 H7. step H r g8 H8. destruct r as [tq ops].
  inversion H; subst; clear H.
  cbn [Network.train_op]. eauto 10.
Qed.

(** X9. The optimizer of the training operation. In a network the
    factory returns, the training operation minimizes, over the
    variables the online output reads and no others, with the optimizer
    the configuration names, at the configured learning rate; it counts
    in the step counter of the network. The momentum coefficient goes
    to the momentum optimizer and the decay to the rmsprop optimizer,
    the other five take neither. With synchronization enabled the
    optimizer is wrapped once, to aggregate the factory's number of
    replicas under the configured task id; without it the optimizer is
    used as it is. *)
Theorem X9_training_optimizer cfg shape n reps ps wk g net g' :
  Network.create_network cfg shape n reps ps wk g = (Ok net, g') ->
  exists opt loss q gs,
    Network.train_op net = Some (Minimize opt loss (variables_of q) (Some gs)) /\
    Network.q_output net = Some q /\
    Network.global_step net = Some gs /\
    optimizer_name (base_optimizer opt) = Some (optimizer cfg) /\
    learning_rate_of (base_optimizer opt) = Some (lr cfg) /\
    coefficient_of (base_optimizer opt) =
      (if String.eqb (optimizer cfg) "momentum" then momentum cfg
       else if String.eqb (optimizer cfg) "rmsprop" then rmsprop_decay cfg
       else None) /\
    opt = (if sync cfg
           then SyncReplicasOptimizer (base_optimizer opt) reps (task_id cfg)
           else base_optimizer opt).
Proof.
  intros H.
  destruct (create_network_train_op _ _ _ _ _ _ _ _ _ H)
    as (params & loss & gs & s & g1 & g2 & train & Hopt & Htrain).
  apply init_optimizer_built in Hopt
    as (opt & -> & Hname & Hlr & Hco & Hsync).
  apply create_network_params in H
    as (v & _ & _ & Hon & _ & Hgs & _ & [opt' Htrain'] &
        q & tq & Hq & _ & Hvq & _).
  rewrite Htrain in Htrain'. injection Htrain' as -> -> -> ->.
  exists opt', (loss_of v cfg shape n ps g), q, (step_of v shape n ps g).
  rewrite Hvq, Hon. auto 10.
Qed.

(** X9, witness: the convolutional sample, synchronized rmsprop for two
    replicas. *)
Lemma X9_witness :
  exists net g' loss q gs,
    Network.create_network cnn_config [84; 84; 4]%N 6 2 (Some "/job:ps")
                           (Some "/job:worker") empty_graph = (Ok net, g') /\
    Network.q_output net = Some q /\
    Network.train_op net =
      Some (Minimize (SyncReplicasOptimizer (RMSPropOptimizer 0.1 0.9) 2 0)
                     loss (variables_of q) (Some gs)).
Proof.
  construct (Network.create_network cnn_config [84; 84; 4]%N 6 2
               (Some "/job:ps") (Some "/job:worker") empty_graph) net g' H.
  destruct (X9_training_optimizer
              cnn_config [84; 84; 4]%N 6 2 (Some "/job:ps")
              (Some "/job:worker") empty_graph net g' H)
    as (opt & loss & q & gs & Ht & Hq & _ & Hname & Hlr & Hco & Hsync).
  exists net, g', loss, q, gs. split; [exact H|]. split; [exact Hq|].
  rewrite Ht. do 2 f_equal. rewrite Hsync. cbn [sync cnn_config].
  destruct (base_optimizer opt); try discriminate Hname.
  cbn in Hlr, Hco. injection Hlr as ->. injection Hco as ->.
  reflexivity.
Defined.

(** ** The value of the loss on a batch *)

Lemma zip_value_Arr f xs ys :
  Semantics.zip_value f (Semantics.Arr xs) (Semantics.Arr ys) =
  option_map Semantics.Arr (zip_list f xs ys).
Proof.
  cbn [Semantics.zip_value]. f_equal.
  revert ys. induction xs as [|x xs IH]; intros [|y ys]; try reflexivity.
  cbn [zip_list]. rewrite <- IH. reflexivity.
Qed.

Lemma zip_vector f a b :
  length a = length b ->
  Semantics.zip_value f (vector a) (vector b) = Some (vector (map2 f a b)).
Proof.
  unfold vector. rewrite zip_value_Arr. intros Hlen.
  assert (E : zip_list f (map Semantics.Num a) (map Semantics.Num b) =
              Some (map Semantics.Num (map2 f a b))).
  { revert b Hlen. induction a as [|x a IH]; intros [|y b] Hlen;
      try discriminate Hlen; [reflexivity|].
    injection Hlen as Hlen. cbn [map zip_list map2 Semantics.zip_value].
    rewrite (IH b Hlen). reflexivity. }
  rewrite E. reflexivity.
Qed.

Lemma zip_matrix f qs rows :
  Forall2 (fun q a => length q = length a) qs rows ->
  Semantics.zip_value f (matrix qs) (matrix rows) =
  Some (matrix (map (fun '(q, a) => map2 f q a) (combine qs rows))).
Proof.
  unfold matrix. rewrite zip_value_Arr. intros Hall.
  assert (E : zip_list f (map vector qs) (map vector rows) =
              Some (map vector (map (fun '(q, a) => map2 f q a)
                                    (combine qs rows)))).
  { induction Hall as [|q a qs rows Hlen Hall IH]; [reflexivity|].
    cbn [map zip_list combine]. rewrite (zip_vector f q a Hlen), IH.
    reflexivity. }
  rewrite E. reflexivity.
Qed.

Lemma sum_over_vector l :
  Semantics.sum_over (fun x => x) (vector l) = Qsum l.
Proof.
  unfold vector, Qsum. cbn [Semantics.sum_over].
  induction l as [|x l IH]; [reflexivity|].
  cbn [map fold_right Semantics.sum_over]. rewrite IH. reflexivity.
Qed.

Lemma size_vector l : Semantics.size (vector l) = length l.
Proof.
  unfold vector. cbn [Semantics.size].
  induction l as [|x l IH]; [reflexivity|].
  cbn [map fold_right Semantics.size length]. rewrite IH. reflexivity.
Qed.

Lemma row_sum_vector l :
  Semantics.row_sum (vector l) = Some (Semantics.Num (Qsum l)).
Proof.
  unfold Semantics.row_sum.
  change (Semantics.Arr (map Semantics.Num l)) with (vector l).
  unfold vector at 1.
  assert (E : forallb (fun e => match e with
                                | Semantics.Num _ => true
                                | Semantics.Arr _ => false
                                end) (map Semantics.Num l) = true).
  { induction l as [|x l IH]; [reflexivity | exact IH]. }
  rewrite E, sum_over_vector. reflexivity.
Qed.

Lemma reduce_sum_matrix rows :
  Semantics.reduce_sum_1 (matrix rows) = Some (vector (map Qsum rows)).
Proof.
  unfold matrix, Semantics.reduce_sum_1.
  assert (E : Semantics.all_some (map Semantics.row_sum (map vector rows)) =
              Some (map Semantics.Num (map Qsum rows))).
  { induction rows as [|r rows IH]; [reflexivity|].
    cbn [map Semantics.all_some]. rewrite row_sum_vector, IH. reflexivity. }
  rewrite E. reflexivity.
Qed.

Lemma reduce_mean_vector l :
  l <> [] ->
  Semantics.reduce_mean (vector l) =
  Some (Semantics.Num (Qsum l / inject_Z (Z.of_nat (length l)))).
Proof.
  intros Hl. unfold Semantics.reduce_mean.
  rewrite size_vector, sum_over_vector.
  destruct l; [contradiction | reflexivity].
Qed.

Lemma Qsum_compat l1 l2 : Forall2 Qeq l1 l2 -> Qsum l1 == Qsum l2.
Proof.
  induction 1 as [|x y l1 l2 Hxy _ IH]; [reflexivity|].
  unfold Qsum in *. cbn [fold_right]. rewrite Hxy, IH. reflexivity.
Qed.

Lemma masked_zero q s k :
  (k < s)%nat ->
  Qsum (map2 Qmult q (map (fun j => if (j =? k)%nat then 1 else 0)
                          (seq s (length q)))) == 0.
Proof.
  revert s. induction q as [|x q IH]; intros s Hk; [reflexivity|].
  cbn [length seq map map2]. unfold Qsum in *. cbn [fold_right].
  rewrite (IH (S s)) by lia.
  destruct (Nat.eqb_spec s k) as [E|_]; [lia|]. ring.
Qed.

Lemma masked_nth q s k :
  (s <= k < s + length q)%nat ->
  Qsum (map2 Qmult q (map (fun j => if (j =? k)%nat then 1 else 0)
                          (seq s (length q)))) == nth (k - s) q 0.
Proof.
  revert s. induction q as [|x q IH]; intros s Hk; [cbn in Hk; lia|].
  cbn [length seq map map2]. unfold Qsum in *. cbn [fold_right].
  destruct (Nat.eqb_spec s k) as [E|E].
  - subst k. rewrite Nat.sub_diag. cbn [nth].
    change (fold_right Qplus 0 ?l) with (Qsum l).
    rewrite masked_zero by lia. ring.
  - cbn [length] in Hk. rewrite (IH (S s)) by lia.
    replace (k - s)%nat with (S (k - S s)) by lia. cbn [nth]. ring.
Qed.

(** The masked sum of a row is the value of the action taken. *)
Lemma masked_one_hot q k :
  (k < length q)%nat ->
  Qsum (map2 Qmult q (one_hot (length q) k)) == nth k q 0.
Proof.
  intros Hk. unfold one_hot. rewrite masked_nth by lia.
  now rewrite Nat.sub_0_r.
Qed.

Lemma batch_squared_errors A qs ks es :
  length ks = length qs -> length es = length qs ->
  Forall (fun q => length q = A) qs ->
  Forall (fun k => (k < A)%nat) ks ->
  Forall2 Qeq
    (map2 (fun x y => (x - y) * (x - y))
          (map Qsum (map (fun '(q, a) => map2 Qmult q a)
                         (combine qs (map (one_hot A) ks))))
          es)
    (squared_errors qs ks es).
Proof.
  revert ks es. induction qs as [|q qs IH]; intros [|k ks] [|e es] Hks Hes Hq Hk;
    try discriminate; [constructor|].
  injection Hks as Hks. injection Hes as Hes.
  inversion Hq as [|? ? Hq1 Hq2]; subst. inversion Hk as [|? ? Hk1 Hk2]; subst.
  cbn [map combine map2 squared_errors]. constructor.
  - rewrite masked_one_hot by exact Hk1. reflexivity.
  - apply IH; assumption.
Qed.

Lemma masked_rows_length A qs ks :
  length ks = length qs ->
  length (map Qsum (map (fun '(q, a) => map2 Qmult q a)
                        (combine qs (map (one_hot A) ks)))) = length qs.
Proof.
  intros H. rewrite !length_map, length_combine, length_map, H.
  apply Nat.min_id.
Qed.

Lemma map2_length f a b :
  length a = length b -> length (map2 f a b) = length a.
Proof.
  revert b. induction a as [|x a IH]; intros [|y b] H; try discriminate H;
    [reflexivity|].
  cbn [map2 length]. f_equal. apply IH. now injection H.
Qed.

Lemma one_hot_length size k : length (one_hot size k) = size.
Proof. unfold one_hot. now rewrite length_map, length_seq. Qed.

(** X10. The loss on a batch. When the output evaluates to a matrix with
    one row of action values per transition, the action mask to the
    one-hot rows of the actions taken and the expected values to a
    vector of the same length, the loss without a penalty evaluates to
    the mean over the batch of the squared difference between the value
    of the action taken and the expected value; with a penalty, to that
    mean plus the regularization parameter times the penalty. *)
Theorem X10_loss_is_the_mean_squared_error_of_the_actions_taken
    cfg q expected_q actions summaries feed store A qs ks es :
  qs <> [] ->
  length ks = length qs ->
  length es = length qs ->
  Forall (fun row => length row = A) qs ->
  Forall (fun k => (k < A)%nat) ks ->
  Semantics.eval feed store q = Some (matrix qs) ->
  Semantics.eval feed store actions = Some (matrix (map (one_hot A) ks)) ->
  Semantics.eval feed store expected_q = Some (vector es) ->
  (exists loss,
     Semantics.eval feed store
       (fst (Network._init_loss cfg q expected_q actions None summaries))
     = Some (Semantics.Num loss) /\
     loss == mean_squared_error qs ks es) /\
  (forall reg_loss penalty,
     Semantics.eval feed store reg_loss = Some (Semantics.Num penalty) ->
     exists loss,
       Semantics.eval feed store
         (fst (Network._init_loss cfg q expected_q actions (Some reg_loss)
                                  summaries))
       = Some (Semantics.Num loss) /\
       loss == mean_squared_error qs ks es + reg_param cfg * penalty).
Proof.
  intros Hne Hks Hes Hrows Hact Hq Ha He.
  set (masked := map Qsum (map (fun '(q, a) => map2 Qmult q a)
                               (combine qs (map (one_hot A) ks)))).
  set (errors := map2 (fun x y => (x - y) * (x - y)) masked es).
  assert (Hmasked : length masked = length qs)
    by (apply masked_rows_length; exact Hks).
  assert (Herrors : length errors = length qs).
  { unfold errors. rewrite map2_length; [exact Hmasked|].
    now rewrite Hmasked, Hes. }
  assert (Hmse :
    Semantics.eval feed store
      (ReduceMean (SquaredDifference
                     (ReduceSum (Multiply q actions) [1%Z]) expected_q))
    = Some (Semantics.Num
              (Qsum errors / inject_Z (Z.of_nat (length errors))))).
  { cbn [Semantics.eval]. rewrite Hq, Ha, He. cbn [Semantics.lift2].
    rewrite zip_matrix.
    2:{ clear - Hks Hrows Hact. revert ks Hks Hact.
        induction Hrows as [|r qs Hr Hrows IH]; intros [|k ks] Hks Hact;
          try discriminate Hks; cbn [map]; constructor.
        - now rewrite one_hot_length.
        - apply IH; [now injection Hks | now inversion Hact]. }
    rewrite reduce_sum_matrix. fold masked. cbn [Semantics.lift2].
    rewrite zip_vector by (now rewrite Hmasked, Hes). fold errors.
    apply reduce_mean_vector.
    intros E. rewrite E in Herrors. destruct qs; [contradiction|].
    discriminate Herrors. }
  assert (Heq : Qsum errors / inject_Z (Z.of_nat (length errors)) ==
                mean_squared_error qs ks es).
  { unfold mean_squared_error. rewrite Herrors.
    rewrite (Qsum_compat errors (squared_errors qs ks es)); [reflexivity|].
    apply (batch_squared_errors A); assumption. }
  split.
  - eexists. split; [exact Hmse | exact Heq].
  - intros reg_loss penalty Hreg.
    unfold Network._init_loss. cbn [fst].
    cbn [Semantics.eval] in Hmse |- *.
    rewrite Hmse, Hreg. cbn [Semantics.lift2 Semantics.zip_value
                             Semantics.map_value].
    eexists. split; [reflexivity|]. rewrite Heq. reflexivity.
Qed.

(** X10, witness: two transitions, two actions. *)
Lemma X10_witness :
  exists loss,
    Semantics.eval
      (fun id =>
         match id with
         | 0%nat => Some (matrix [[1; 2]; [3; 4]])
         | 1%nat => Some (vector [1.5; 2])
         | 2%nat => Some (matrix [one_hot 2 1; one_hot 2 0])
         | _ => None
         end)
      (fun _ => Semantics.Num 0)
      (fst (Network._init_loss simple_config
              (Placeholder 0 [None; Some 2%N]) (Placeholder 1 [None])
              (Placeholder 2 [None; Some 2%N]) None None))
    = Some (Semantics.Num loss) /\
    loss == 0.625.
Proof.
  destruct (proj1 (X10_loss_is_the_mean_squared_error_of_the_actions_taken
                     simple_config
                     (Placeholder 0 [None; Some 2%N]) (Placeholder 1 [None])
                     (Placeholder 2 [None; Some 2%N]) None
                     (fun id =>
                        match id with
                        | 0%nat => Some (matrix [[1; 2]; [3; 4]])
                        | 1%nat => Some (vector [1.5; 2])
                        | 2%nat => Some (matrix [one_hot 2 1; one_hot 2 0])
                        | _ => None
                        end)
                     (fun _ => Semantics.Num 0)
                     2%nat [[1; 2]; [3; 4]] [1; 0]%nat [1.5; 2]
                     ltac:(discriminate) eq_refl eq_refl
                     ltac:(repeat constructor) ltac:(repeat constructor)
                     eq_refl eq_refl eq_refl))
    as (loss & Hloss & Heq).
  exists loss. split; [exact Hloss|].
  rewrite Heq. vm_compute. reflexivity.
Defined.

(** ** Shapes at run time *)

Lemma simple_output_shape cfg d n id p dev coll g batch :
  shape_of batch
    (fst (layers_of Simple cfg (x_of [d] g)
            (param_list id p dev coll (layer_spec Simple [d] n))))
  = Some [batch; n].
Proof.
  cbn. rewrite !N.eqb_refl. cbn. rewrite !N.eqb_refl. reflexivity.
Qed.

Lemma ceil_div_ceil_div x a b :
  (0 < a)%N -> (0 < b)%N ->
  ceil_div (ceil_div x a) b = ceil_div x (a * b).
Proof.
  intros Ha Hb. unfold ceil_div.
  rewrite <- (N.div_add _ (b - 1) a) by lia.
  rewrite N.Div0.div_div. f_equal. nia.
Qed.

(** Strides 4, 2 and 1, each followed by a pooling with stride 2, leave
    one cell for every 64 rows or columns of the observation. *)
Lemma pooled_side d :
  ceil_div (ceil_div (ceil_div (ceil_div (ceil_div (ceil_div d 4) 2) 2) 2)
                     1) 2 = ceil_div d 64.
Proof. rewrite !ceil_div_ceil_div by reflexivity. reflexivity. Qed.

Lemma cells_mod x : ((x * 64) mod 256 =? 0)%N = (x mod 4 =? 0)%N.
Proof.
  change 256%N with (4 * 64)%N. rewrite N.Div0.mul_mod_distr_r.
  destruct (N.eqb_spec (x mod 4) 0) as [->|H]; [reflexivity|].
  apply N.eqb_neq. lia.
Qed.

Lemma cells_div x : (x * 64 / 256 = x / 4)%N.
Proof.
  change 256%N with (4 * 64)%N. apply N.Div0.div_mul_cancel_r. discriminate.
Qed.

Lemma conv_output_shape cfg h w c n id p dev coll g batch :
  shape_of batch
    (fst (layers_of Convolutional cfg (x_of [h; w; c] g)
            (param_list id p dev coll (layer_spec Convolutional [h; w; c] n))))
  = if ((batch * (ceil_div h 64 * ceil_div w 64)) mod 4 =? 0)%N
    then Some [(batch * (ceil_div h 64 * ceil_div w 64) / 4)%N; n]
    else None.
Proof.
  cbn. rewrite N.eqb_refl. cbn. rewrite !pooled_side.
  replace (batch * (ceil_div h 64 * (ceil_div w 64 * 64)))%N
    with (batch * (ceil_div h 64 * ceil_div w 64) * 64)%N
    by (rewrite !N.mul_assoc; reflexivity).
  rewrite cells_mod, cells_div.
  destruct (_ =? 0)%N; [|reflexivity].
  cbn. rewrite !N.eqb_refl. reflexivity.
Qed.

Lemma rows_are_the_batch batch cells n :
  (0 < batch)%N ->
  (if ((batch * cells) mod 4 =? 0)%N
   then Some [(batch * cells / 4)%N; n] else None) = Some [batch; n]
  <-> cells = 4%N.
Proof.
  intros Hb. split.
  - destruct (N.eqb_spec ((batch * cells) mod 4) 0) as [Hm|_];
      [|discriminate].
    intros H. injection H as H.
    apply N.Div0.div_exact in Hm. nia.
  - intros ->. rewrite N.Div0.mod_mul, N.div_mul by discriminate.
    reflexivity.
Qed.

(** X11. The shapes of the outputs at run time, by TensorFlow's shape
    rules. For a batch of any size the output of the simple variant has
    one row of action values per transition. The convolutional variant
    leaves one cell of 64 features for every 64 rows and every 64 columns
    of the observation, and flattens to rows of 256 features, four cells:
    for a non-empty batch its output has one row per transition exactly
    when the observation gives four cells (as 84 by 84 does); with
    another number of cells the rows number a quarter of the batch times
    the cells, or the reshape fails when that is no whole number. The
    target output has the shape of the online output. *)
Theorem X11_output_shapes cfg shape n reps ps wk g net g' :
  Network.create_network cfg shape n reps ps wk g = (Ok net, g') ->
  exists q tq,
    Network.q_output net = Some q /\
    Network.target_q_output net = Some tq /\
    forall batch,
      shape_of batch tq = shape_of batch q /\
      (network cfg = "simple" -> shape_of batch q = Some [batch; n]) /\
      (network cfg = "cnn" ->
       let cells := (ceil_div (nth 0 shape 0) 64 *
                     ceil_div (nth 1 shape 0) 64)%N in
       shape_of batch q =
         (if ((batch * cells) mod 4 =? 0)%N
          then Some [(batch * cells / 4)%N; n] else None) /\
       ((0 < batch)%N ->
        (shape_of batch q = Some [batch; n] <-> cells = 4%N))).
Proof.
  intros H.
  apply create_network_Ok in H as (v & opt & Hkey & Hrank & Hnet & _).
  rewrite Hnet. cbn [Network.q_output Network.target_q_output].
  do 2 eexists. split; [reflexivity|]. split; [reflexivity|].
  intros batch. unfold online_of, target_of.
  destruct v; cbn [variant_rank variant_key] in Hrank, Hkey.
  - destruct shape as [|d [|? ?]]; try discriminate Hrank.
    rewrite !simple_output_shape.
    split; [reflexivity|]. split; [reflexivity|].
    intros Hc. rewrite Hc in Hkey. discriminate Hkey.
  - destruct shape as [|h [|w [|c [|? ?]]]]; try discriminate Hrank.
    rewrite !conv_output_shape. cbn [nth].
    split; [reflexivity|]. split.
    + intros Hs. rewrite Hs in Hkey. discriminate Hkey.
    + intros _. split; [reflexivity|].
      intros Hb. apply rows_are_the_batch. exact Hb.
Qed.

(** X11, witness: an observation of 84 by 84 gives one row per
    transition; one of 42 by 42 gives a single cell, and a batch of four
    transitions then comes out as one row. *)
Lemma X11_witness :
  (exists net g' q,
     Network.create_network cnn_config [84; 84; 4]%N 6 2 None None
                            empty_graph = (Ok net, g') /\
     Network.q_output net = Some q /\
     shape_of 32 q = Some [32; 6]%N) /\
  (exists net g' q,
     Network.create_network cnn_config [42; 42; 4]%N 6 2 None None
                            empty_graph = (Ok net, g') /\
     Network.q_output net = Some q /\
     shape_of 4 q = Some [1; 6]%N).
Proof.
  split.
  - construct (Network.create_network cnn_config [84; 84; 4]%N 6 2 None None
                                      empty_graph) net g' H.
    destruct (X11_output_shapes cnn_config [84; 84; 4]%N 6 2 None None
                                empty_graph net g' H)
      as (q & tq & Hq & _ & Hshape).
    exists net, g', q. split; [exact H|]. split; [exact Hq|].
    destruct (Hshape 32%N) as (_ & _ & Hcnn).
    destruct (Hcnn eq_refl) as [_ Hrows].
    apply (Hrows eq_refl). reflexivity.
  - construct (Network.create_network cnn_config [42; 42; 4]%N 6 2 None None
                                      empty_graph) net g' H.
    destruct (X11_output_shapes cnn_config [42; 42; 4]%N 6 2 None None
                                empty_graph net g' H)
      as (q & tq & Hq & _ & Hshape).
    exists net, g', q. split; [exact H|]. split; [exact Hq|].
    destruct (Hshape 4%N) as (_ & _ & Hcnn).
    destruct (Hcnn eq_refl) as [Hs _].
    rewrite Hs. reflexivity.
Defined.

Lemma penalty_shape v cfg x id prefix dev coll shape out batch :
  shape_of batch
    (snd (layers_of v cfg x
            (param_list id prefix dev coll (layer_spec v shape out))))
  = Some [].
Proof. destruct v; reflexivity. Qed.

(** X12. The loss is a scalar. In a network the factory returns, for
    every batch size for which the output has one row of action values
    per transition, the loss the training operation minimizes, penalty
    included, has the shape of a scalar by TensorFlow's shape rules. *)
Theorem X12_loss_is_a_scalar cfg shape n reps ps wk g net g' :
  Network.create_network cfg shape n reps ps wk g = (Ok net, g') ->
  exists q opt loss gs,
    Network.q_output net = Some q /\
    Network.train_op net = Some (Minimize opt loss (online_params net) gs) /\
    forall batch,
      shape_of batch q = Some [batch; n] -> shape_of batch loss = Some [].
Proof.
  intros H.
  apply create_network_Ok in H as (v & opt & _ & _ & Hnet & _).
  rewrite Hnet. unfold online_params.
  cbn [Network.q_output Network.train_op].
  do 4 eexists. split; [reflexivity|]. split; [reflexivity|].
  intros batch Hq. unfold loss_of, Network._init_loss, online_of in *.
  cbn [fst shape_of q_of action_of map].
  rewrite Hq, penalty_shape. cbn. rewrite !N.eqb_refl. cbn.
  rewrite !N.eqb_refl. reflexivity.
Qed.

(** X12, witness: the simple sample and a batch of 32. *)
Lemma X12_witness :
  exists net g' opt loss gs,
    Network.create_network simple_config [4%N] 2 1 None None empty_graph
      = (Ok net, g') /\
    Network.train_op net = Some (Minimize opt loss (online_params net) gs) /\
    shape_of 32 loss = Some [].
Proof.
  assert (Hs : option_map (shape_of 32)
                 (Network.q_output
                    (match fst (Network.create_network simple_config [4%N]
                                  2 1 None None empty_graph) with
                     | Ok net => net
                     | Raise _ =>
                       Network.__init__ Network.class [] 0 0 None None
                     end)) = Some (Some [32; 2]%N))
    by (vm_compute; reflexivity).
  revert Hs.
  construct (Network.create_network simple_config [4%N] 2 1 None None
                                    empty_graph) net g' H.
  intros Hs.
  destruct (X12_loss_is_a_scalar simple_config [4%N] 2 1 None None
                                 empty_graph net g' H)
    as (q & opt & loss & gs & Hq & Ht & Hshape).
  exists net, g', opt, loss, gs. split; [exact H|]. split; [exact Ht|].
  apply Hshape. rewrite Hq in Hs. cbn [option_map] in Hs.
  injection Hs as Hs. exact Hs.
Defined.

(** ** The errors of the factory *)

Lemma network_table_absent cfg :
  dict_get [("simple", SimpleNetwork.class); ("cnn", ConvNetwork.class)]
           (network cfg) = None ->
  forall v, network cfg <> variant_key v.
Proof.
  cbn [dict_get].
  destruct (String.eqb_spec "simple" (network cfg)) as [|Hs]; [discriminate|].
  destruct (String.eqb_spec "cnn" (network cfg)) as [|Hc]; [discriminate|].
  intros _ [] E; cbn [variant_key] in E; congruence.
Qed.

(** What an error of the optimizer builder says about the
    configuration. *)
Lemma init_optimizer_error_cause cfg params loss reps gs s g e g' :
  Network._init_optimizer cfg params loss reps gs s g = (Raise e, g') ->
  is_ValueError e \/
  e = AttributeError "momentum" /\ momentum cfg = None \/
  e = AttributeError "rmsprop_decay" /\
    momentum cfg <> None /\ rmsprop_decay cfg = None \/
  e = RuntimeError ("Unsupported optimizer " ++ optimizer cfg) /\
    momentum cfg <> None /\ rmsprop_decay cfg <> None /\
    ~ In (optimizer cfg) supported_optimizers.
Proof.
  intros H. rewrite init_optimizer_eq in H.
  destruct (momentum cfg) as [m|];
    [destruct (rmsprop_decay cfg) as [d|]|].
  - destruct (optimizer_constructor_cases m d (optimizer cfg))
      as [(ctor & E & _)|[Hn E]]; rewrite E in H.
    + apply minimize_Raise in H as [HV _]. left. exact HV.
    + inversion H. right. right. right.
      split; [reflexivity|]. split; [discriminate|].
      split; [discriminate | exact Hn].
  - inversion H. right. right. left.
    split; [reflexivity|]. split; [discriminate | reflexivity].
  - inversion H. right. left. split; reflexivity.
Qed.

(** The ways the factory fails. *)
Lemma create_network_raises_cases cfg shape n reps ps wk g e g' :
  Network.create_network cfg shape n reps ps wk g = (Raise e, g') ->
  (e = RuntimeError ("Unsupported network type " ++ network cfg) /\
   forall v, network cfg <> variant_key v) \/
  (exists v,
     network cfg = variant_key v /\
     (is_shape_mismatch e /\ length shape <> variant_rank v \/
      length shape = variant_rank v /\
      (is_ValueError e \/
       e = AttributeError "momentum" /\ momentum cfg = None \/
       e = AttributeError "rmsprop_decay" /\
         momentum cfg <> None /\ rmsprop_decay cfg = None \/
       e = RuntimeError ("Unsupported optimizer " ++ optimizer cfg) /\
         momentum cfg <> None /\ rmsprop_decay cfg <> None /\
         ~ In (optimizer cfg) supported_optimizers))).
Proof.
  intros H0. assert (H := H0). unfold Network.create_network in H.
  destruct (dict_get _ (network cfg)) as [Net|] eqn:HNet.
  2:{ left. inversion H. split; [reflexivity|].
      apply network_table_absent. exact HNet. }
  right. apply network_table_get in HNet as (v & Hkey & ->).
  exists v. split; [exact Hkey|].
  unfold Network._init_network, Network.__init__ in H.
  cbn [Network.cls Network.input_shape Network.num_actions
       Network.num_replicas Network.ps_device Network.worker_device] in H.
  apply bind_Raise in H as [H|(x & g1 & H1 & H)]; [discriminate H|].
  apply bind_Raise in H as [H|(qp & g2 & H2 & H)]; [discriminate H|].
  apply bind_Raise in H as [H|(act & g3 & H3 & H)]; [discriminate H|].
  inversion H1; subst x g1; clear H1.
  inversion H2; subst qp g2; clear H2.
  inversion H3; subst act g3; clear H3.
  cbn [placeholders variables operations scope device length] in H.
  apply bind_Raise in H as [H|(params & g4 & H4 & H)].
  { destruct (Nat.eq_dec (length shape) (variant_rank v)) as [Hrank|Hrank].
    - right. split; [exact Hrank|]. left.
      apply with_device_Raise in H as (g1 & H).
      eapply init_params_raises; [exact Hrank | exact H].
    - left. split; [|exact Hrank].
      destruct (create_network_wrong_rank v cfg shape n reps ps wk g
                  Hkey Hrank) as (g'' & Hw).
      rewrite Hw in H0. inversion H0. destruct v; [left|right]; reflexivity. }
  apply online_params_Ok in H4 as (Hrank & Hparams & ->).
  cbn [placeholders variables operations scope device length] in Hparams.
  right. split; [exact Hrank|].
  apply bind_Raise in H as [H|([q reg] & g5 & H5 & H)].
  { exfalso. rewrite Hparams, init_layers_param_list in H. discriminate H. }
  apply (f_equal snd) in H5. rewrite init_layers_graph in H5.
  cbn [snd] in H5. subst g5.
  apply bind_Raise in H as [H|(gs & g6 & H6 & H)]; [discriminate H|].
  inversion H6; subst gs g6; clear H6.
  destruct (Network._init_loss _ _ _ _ _ _) as [loss summaries].
  apply bind_Raise in H as [H|(train & g7 & H7 & H)].
  { eapply init_optimizer_error_cause; exact H. }
  apply bind_Raise in H as [H|([tq ops] & g8 & H8 & H)];
    [|discriminate H].
  left. eapply init_target_network_raises; [exact Hrank | exact H].
Qed.

Ltac other_error :=
  repeat match goal with
         | H : is_shape_mismatch _ |- _ => destruct H as [H|H]
         | H : is_optimizer_error _ _ |- _ => destruct H as [H|[H|H]]
         | H : is_ValueError _ |- _ => destruct H as [? H]
         end;
  try subst;
  try match goal with
      | H : @eq Exception _ _ |- _ => cbn in H; discriminate H
      end.

(** X13. The errors of the module tell their cause. When the factory
    raises the error of an unknown network name, the name is neither
    variant's. When it raises one of the two rank errors, the name is a
    variant's and the input shape has another rank than that variant
    requires. When it raises an error of the optimizer builder, the
    name is a variant's and the rank is right; the attribute error for
    the momentum means that this field is missing, the one for the
    rmsprop decay that the momentum is there and the decay is missing,
    and the error of an unsupported optimizer that both fields are there
    and the optimizer name is none of the seven. *)
Theorem X13_errors_of_the_factory cfg shape n reps ps wk g e g' :
  Network.create_network cfg shape n reps ps wk g = (Raise e, g') ->
  (e = RuntimeError ("Unsupported network type " ++ network cfg) ->
   forall v, network cfg <> variant_key v) /\
  (is_shape_mismatch e ->
   exists v, network cfg = variant_key v /\ length shape <> variant_rank v) /\
  (is_optimizer_error cfg e ->
   (exists v, network cfg = variant_key v /\ length shape = variant_rank v) /\
   (e = AttributeError "momentum" -> momentum cfg = None) /\
   (e = AttributeError "rmsprop_decay" ->
    momentum cfg <> None /\ rmsprop_decay cfg = None) /\
   (e = RuntimeError ("Unsupported optimizer " ++ optimizer cfg) ->
    momentum cfg <> None /\ rmsprop_decay cfg <> None /\
    ~ In (optimizer cfg) supported_optimizers)).
Proof.
  intros H. apply create_network_raises_cases in H.
  destruct H as [[He Hn]|(v & Hkey & [[Hs Hr]|[Hr Hc]])].
  - split; [intros _; exact Hn|]. split; intros Ho; other_error.
  - split; [intros Ho; other_error|].
    split; [intros _; exists v; auto|]. intros Ho. other_error.
  - split; [intros Ho; destruct Hc as [HV|[[-> _]|[[-> _]|[-> _]]]];
            other_error|].
    split; [intros Ho; destruct Hc as [HV|[[-> _]|[[-> _]|[-> _]]]];
            other_error|].
    intros Ho. split; [exists v; auto|].
    destruct Hc as [HV|[[-> Hm]|[[-> [Hm Hd]]|[-> (Hm & Hd & Hn)]]]].
    + other_error.
    + split; [intros _; exact Hm|].
      split; intros E; cbn in E; discriminate E.
    + split; [intros E; discriminate E|].
      split; [intros _; auto|]. intros E; cbn in E; discriminate E.
    + split; [intros E; cbn in E; discriminate E|].
      split; [intros E; cbn in E; discriminate E|]. intros _. auto.
Qed.

(** X13, witness: gradient descent without the momentum field, on the
    simple variant. *)
Lemma X13_witness :
  exists e g',
    Network.create_network sgd_config_without_coefficients [4%N] 2 1
                           None None empty_graph = (Raise e, g') /\
    e = AttributeError "momentum" /\
    (exists v, network sgd_config_without_coefficients = variant_key v /\
               length [4%N] = variant_rank v) /\
    momentum sgd_config_without_coefficients = None.
Proof.
  assert (H : Network.create_network sgd_config_without_coefficients [4%N]
                2 1 None None empty_graph =
              (Raise (AttributeError "momentum"),
               snd (Network.create_network sgd_config_without_coefficients
                      [4%N] 2 1 None None empty_graph)))
    by (vm_compute; reflexivity).
  revert H.
  generalize (snd (Network.create_network sgd_config_without_coefficients
                     [4%N] 2 1 None None empty_graph)).
  intros g' H. exists (AttributeError "momentum"), g'.
  split; [exact H|]. split; [reflexivity|].
  destruct (proj2 (proj2 (X13_errors_of_the_factory
                            sgd_config_without_coefficients [4%N] 2 1
                            None None empty_graph
                            (AttributeError "momentum") g' H)))
    as (Hv & Hm & _).
  - left. reflexivity.
  - split; [exact Hv | exact (Hm eq_refl)].
Defined.

(** ** One training step *)

(** X14. One training step. In a network the factory returns, the
    training operation minimizes the loss over the variables the online
    output reads. When one execution of it runs, all three placeholders
    of the network were fed, and what the target network computes is as
    it was: for every interpretation of the operations of TensorFlow and
    every feed, the target output has the value it had before the step.
    With the optimizer [sgd] and without synchronization, the step
    replaces every online parameter by its value minus the configured
    learning rate times the gradient of the loss that the step computes
    for it. *)
Theorem X14_one_training_step cfg shape n reps ps wk g net g' :
  Network.create_network cfg shape n reps ps wk g = (Ok net, g') ->
  exists opt loss q gs tq x expected_q actions,
    Network.train_op net =
      Some (Minimize opt loss (variables_of q) (Some gs)) /\
    Network.q_output net = Some q /\
    Network.target_q_output net = Some tq /\
    Network.x_placeholder net = Some x /\
    Network.q_placeholder net = Some expected_q /\
    Network.action_placeholder net = Some actions /\
    forall gradients update next feed store store',
      Semantics.run gradients update next
        (Minimize opt loss (variables_of q) (Some gs)) feed store
      = Some store' ->
      (forall id,
         In id (Semantics.placeholders_of x ++
                Semantics.placeholders_of expected_q ++
                Semantics.placeholders_of actions) ->
         feed id <> None) /\
      (forall V (I : Interpretation V) feed',
         denote I feed' store' tq = denote I feed' store tq) /\
      (optimizer cfg = "sgd" -> sync cfg = false ->
       forall p, In p (variables_of q) ->
         exists grad,
           gradients loss p feed store = Some grad /\
           store' (var_id p) =
           Semantics.sgd_step (lr cfg) (store (var_id p)) grad).
Proof.
  intros H.
  destruct (create_network_train_op _ _ _ _ _ _ _ _ _ H)
    as (params0 & loss0 & gs0 & s0 & g1 & g2 & train & Hopt & Htrain).
  apply init_optimizer_built in Hopt
    as (opt0 & -> & Hname & Hlr & _ & Hsync).
  apply create_network_Ok in H as (v & opt & _ & _ & Hnet & _).
  rewrite Hnet in Htrain. cbn [Network.train_op] in Htrain.
  injection Htrain as <- _ _ _.
  rewrite Hnet.
  cbn [Network.train_op Network.target_q_output Network.q_output
       Network.x_placeholder Network.q_placeholder
       Network.action_placeholder].
  set (online := online_of v shape n ps g).
  set (target := target_of v cfg shape n ps wk g).
  set (gs := step_of v shape n ps g).
  assert (Hvq : variables_of (fst (layers_of v cfg (x_of shape g) online))
                = online).
  { unfold online, online_of. rewrite variables_of_layers. reflexivity. }
  exists opt, (loss_of v cfg shape n ps g),
    (fst (layers_of v cfg (x_of shape g) online)), gs,
    (fst (layers_of v cfg (x_of shape g) target)),
    (x_of shape g), (q_of g), (action_of n g).
  rewrite Hvq.
  do 6 (split; [reflexivity|]).
  intros gradients update next feed store store' Hrun.
  apply run_minimize in Hrun as (Hfed & Hgrad & ->).
  rewrite filter_all by (intros p Hp; apply loss_reads_online, Hp).
  split; [|split].
  - intros id Hid. apply Hfed. rewrite loss_placeholders.
    rewrite !in_app_iff in *. tauto.
  - intros V I feed'. apply denote_ext; [reflexivity|].
    intros t Ht. unfold target, target_of in Ht.
    rewrite variables_of_layers in Ht. cbn [variables_of x_of app] in Ht.
    fold (target_of v cfg shape n ps wk g) in Ht.
    rewrite write_other
      by (apply (step_not_target v cfg shape n ps wk g t Ht)).
    apply fold_write_other. intros Hin.
    apply in_map_iff in Hin as (p & Hid & Hp).
    exact (online_target_disjoint v cfg shape n ps wk g t p Ht Hp
             (eq_sym Hid)).
  - intros Hsgd Hnosync p Hp.
    destruct (Hgrad p Hp (loss_reads_online _ _ _ _ _ _ _ Hp))
      as [grad Hg].
    exists grad. split; [exact Hg|].
    rewrite write_other by (apply (step_not_online v shape n ps g p Hp)).
    rewrite (fold_write_in
               (fun v0 => Semantics.apply_gradient update opt v0
                            (store (var_id v0))
                            (Semantics.gradient_of gradients
                               (loss_of v cfg shape n ps g) v0 feed store)))
      by (try apply online_ids_NoDup; exact Hp).
    unfold Semantics.gradient_of. rewrite Hg.
    rewrite Hnosync in Hsync. rewrite Hsgd in Hname.
    destruct opt as [| | | |l| | |o r i]; cbn [base_optimizer] in *;
      try discriminate Hname.
    + cbn in Hlr. injection Hlr as ->. reflexivity.
    + destruct o; try discriminate Hname; discriminate Hsync.
Qed.

(** X14, witness: gradient descent at rate 1/10 on the simple sample,
    on a batch of one transition and with gradients that are 1 in every
    entry: the step runs, and every entry of every online parameter
    goes from 1/100 to 1/100 - 1/10. *)
Lemma X14_witness :
  exists net g' train store',
    Network.create_network simple_config [4%N] 2 1 None None empty_graph
      = (Ok net, g') /\
    Network.train_op net = Some train /\
    Semantics.run sample_gradients (fun _ _ x _ => x) (fun _ x => x)
      train (sample_feed [4%N] 2) (sample_store (variables g'))
      = Some store' /\
    forall p, In p (online_params net) ->
      store' (var_id p) =
      Semantics.sgd_step 0.1 (sample_store (variables g') (var_id p))
                         (filled (var_shape p) 1).
Proof.
  pose (c := Network.create_network simple_config [4%N] 2 1 None None
               empty_graph).
  pose (net0 := match fst c with
                | Ok net => net
                | Raise _ => Network.__init__ Network.class [] 0 0 None None
                end).
  assert (E : c = (Ok net0, snd c)) by (vm_compute; reflexivity).
  assert (Hruns :
            exists store',
              match Network.train_op net0 with
              | Some train =>
                Semantics.run sample_gradients (fun _ _ x _ => x)
                  (fun _ x => x) train (sample_feed [4%N] 2)
                  (sample_store (variables (snd c))) = Some store'
              | None => False
              end)
    by (vm_compute; eexists; reflexivity).
  revert E Hruns. generalize (snd c). generalize net0. subst c.
  intros net g' E [store' Hruns].
  destruct (X14_one_training_step simple_config [4%N] 2 1 None None
                                  empty_graph net g' E)
    as (opt & loss & q & gs & tq & x & eq & act &
        Htrain & Hq & _ & _ & _ & _ & Hstep).
  rewrite Htrain in Hruns.
  destruct (Hstep _ _ _ _ _ _ Hruns) as (_ & _ & Hsgd).
  exists net, g', (Minimize opt loss (variables_of q) (Some gs)), store'.
  split; [exact E|]. split; [exact Htrain|]. split; [exact Hruns|].
  intros p Hp. unfold online_params in Hp. rewrite Htrain in Hp.
  destruct (Hsgd eq_refl eq_refl p Hp) as (grad & Hg & Hp').
  unfold sample_gradients in Hg. injection Hg as <-. exact Hp'.
Defined.
